(** * hicbem: job builders and resource aggregation of the clustering benchmark

    A shallow embedding of [benchapps.py]: the statistics aggregator [aggexec],
    the output directory preparation [preparePath] / [prepareResDir], the
    interpreter selection [PyBin.bestof] and the algorithm builders
    [exec<Algname>], followed by the properties established about them.

    Python values are modelled as follows: [str] is [string], [float] is the
    kernel's binary64 [float], [int] is [Z], raised exceptions are the [Raise]
    results of an error monad, and mutated objects (the file system, the
    execution pool, [sys.stderr]) are threaded explicitly as state. *)

From Stdlib Require Import List String Ascii ZArith Lia Bool Arith.
From Stdlib Require Import DecimalString.
From Stdlib Require Import PrimFloat FloatOps SpecFloat.
Import ListNotations.

Set Warnings "-inexact-float,-register-all".
Open Scope list_scope.
Open Scope string_scope.

(** ** Exceptions and the state-and-error monad *)

Inductive exn : Type :=
| AssertionError (msg : string)
| IOError (msg : string)
| OSError (msg : string)
| ValueError (msg : string)
| IndexError (msg : string)
| TypeError (msg : string)
| OutOfFuel    (* not a Python exception: a loop of the model used up its fuel *)
| Unmodelled.  (* not a Python exception: what the code does here depends on
                  what the model leaves out *)

Inductive result (A : Type) : Type :=
| Ok (a : A)
| Raise (e : exn).

Arguments Ok {A} a.
Arguments Raise {A} e.

(** A computation reads and changes a state and returns or raises; what it
    changed before raising stays changed, as in Python. *)
Definition M (S A : Type) : Type := S -> result A * S.

Definition ret {S A : Type} (a : A) : M S A := fun s => (Ok a, s).

Definition bind {S A B : Type} (m : M S A) (k : A -> M S B) : M S B :=
  fun s => match m s with
           | (Ok a, s') => k a s'
           | (Raise e, s') => (Raise e, s')
           end.

Definition raise {S A : Type} (e : exn) : M S A := fun s => (Raise e, s).

Definition modify {S : Type} (f : S -> S) : M S unit := fun s => (Ok tt, f s).

(** A pure computation that may raise, run inside [M]. *)
Definition lift {S A : Type} (r : result A) : M S A := fun s => (r, s).

(** [assert cond, msg] *)
Definition assert {S : Type} (cond : bool) (msg : string) : M S unit :=
  if cond then ret tt else raise (AssertionError msg).

(** [assert cond, msg] where the evaluation of [msg] raises [failure]: the
    message is evaluated only when the condition is false. *)
Definition assert_failing {S : Type} (cond : bool) (failure : exn) : M S unit :=
  if cond then ret tt else raise failure.

(** [try: m  except IOError as err: handler err] *)
Definition try_IOError {S A : Type} (m : M S A) (handler : string -> M S A)
  : M S A :=
  fun s => match m s with
           | (Raise (IOError err), s') => handler err s'
           | r => r
           end.

Declare Scope monad_scope.
Delimit Scope monad_scope with monad.
Notation "x <- m ;; k" := (bind m (fun x => k))
  (at level 61, m at next level, right associativity) : monad_scope.
Notation "m ;;; k" := (bind m (fun _ => k))
  (at level 61, right associativity) : monad_scope.

(** [for x in xs: body x] *)
Fixpoint for_each {S A : Type} (xs : list A) (body : A -> M S unit) : M S unit :=
  match xs with
  | [] => ret tt
  | x :: xs' => bind (body x) (fun _ => for_each xs' body)
  end.

(** Pure errors, for code that raises without touching the state. *)
Definition pbind {A B : Type} (r : result A) (k : A -> result B) : result B :=
  match r with
  | Ok a => k a
  | Raise e => Raise e
  end.

(** ** Python string built-ins *)

Module PyStr.

(** [str.isspace] of a byte: space, [\t], [\n], [\v], [\f], [\r]. *)
Definition is_space (c : ascii) : bool :=
  let n := nat_of_ascii c in
  Nat.eqb n 32 || (Nat.leb 9 n && Nat.leb n 13).

Definition is_empty (s : string) : bool :=
  match s with
  | EmptyString => true
  | String _ _ => false
  end.

(** [s.lstrip()] *)
Fixpoint lstrip (s : string) : string :=
  match s with
  | EmptyString => EmptyString
  | String c s' => if is_space c then lstrip s' else s
  end.

(** [s.rstrip()] *)
Fixpoint rstrip (s : string) : string :=
  match s with
  | EmptyString => EmptyString
  | String c s' =>
      let r := rstrip s' in
      if is_space c && is_empty r then EmptyString else String c r
  end.

(** [s.rstrip(c)] for a one-character argument. *)
Fixpoint rstrip_char (c : ascii) (s : string) : string :=
  match s with
  | EmptyString => EmptyString
  | String a s' =>
      let r := rstrip_char c s' in
      if Ascii.eqb a c && is_empty r then EmptyString else String a r
  end.

Fixpoint rev_onto (acc s : string) : string :=
  match s with
  | EmptyString => acc
  | String c s' => rev_onto (String c acc) s'
  end.

Definition rev (s : string) : string := rev_onto EmptyString s.

(** The scanner behind [s.split(None, maxsplit)]: [cur] is the field being
    read (reversed), [maxsplit] the number of splits still allowed.  Once no
    split is left, the rest of the line from its first non-blank character
    becomes the last field, trailing blanks included. *)
Fixpoint split_scan (maxsplit : nat) (cur : option string) (s : string)
  : list string :=
  match s with
  | EmptyString =>
      match cur with
      | Some w => [rev w]
      | None => []
      end
  | String c s' =>
      match cur with
      | None =>
          if is_space c then split_scan maxsplit None s'
          else match maxsplit with
               | O => [s]
               | S _ => split_scan maxsplit (Some (String c EmptyString)) s'
               end
      | Some w =>
          if is_space c then rev w :: split_scan (Nat.pred maxsplit) None s'
          else split_scan maxsplit (Some (String c w)) s'
      end
  end.

(** [s.split(None, maxsplit)] *)
Definition split_max (maxsplit : nat) (s : string) : list string :=
  split_scan maxsplit None s.

(** [s.split()]: no bound on the number of splits (a line of [n] characters
    has fewer than [n] fields). *)
Definition split (s : string) : list string :=
  split_scan (String.length s) None s.

(** [s.startswith(p)] *)
Fixpoint startswith (p s : string) : bool :=
  match p with
  | EmptyString => true
  | String a p' =>
      match s with
      | EmptyString => false
      | String b s' => Ascii.eqb a b && startswith p' s'
      end
  end.

(** [s.find(sub)]: the lowest index of [sub] in [s], or [-1]. *)
Definition find (sub s : string) : Z :=
  match String.index 0 sub s with
  | Some i => Z.of_nat i
  | None => (-1)%Z
  end.

(** [s[n:]] *)
Fixpoint drop (n : nat) (s : string) : string :=
  match n, s with
  | O, _ => s
  | S n', String _ s' => drop n' s'
  | S _, EmptyString => EmptyString
  end.

(** [''.join(parts)] *)
Definition join (parts : list string) : string := String.concat "" parts.

(** [sep.join(parts)] *)
Definition join_with (sep : string) (parts : list string) : string :=
  String.concat sep parts.

(** [str(n)] for an [int]. *)
Definition str_int (n : Z) : string := NilZero.string_of_int (Z.to_int n).

(** The lines of a text file as iteration over the file yields them: each
    line keeps its terminating newline. *)
Fixpoint lines_from (cur : string) (s : string) : list string :=
  match s with
  | EmptyString => if is_empty cur then [] else [rev cur]
  | String c s' =>
      if Ascii.eqb c "010"%char then rev (String c cur) :: lines_from EmptyString s'
      else lines_from (String c cur) s'
  end.

Definition readlines (content : string) : list string :=
  lines_from EmptyString content.

End PyStr.

(** ** Python floats: parsing and formatting

    A [float] is an IEEE 754 binary64 number, here the kernel's primitive
    [float]; its exact value is read through [Prim2SF] as [m * 2^e].
    [float(s)] and the [format] specifications round correctly, so they are
    computed on the exact rational value. *)

Module PyFloat.

Local Open Scope string_scope.
Local Open Scope Z_scope.

Definition digit_of (c : ascii) : option Z :=
  let n := nat_of_ascii c in
  if (Nat.leb 48 n && Nat.leb n 57)%bool then Some (Z.of_nat (n - 48)) else None.

Fixpoint read_digits (acc : Z) (cnt : nat) (s : string) : Z * nat * string :=
  match s with
  | EmptyString => (acc, cnt, s)
  | String c s' =>
      match digit_of c with
      | Some d => read_digits (10 * acc + d) (S cnt) s'
      | None => (acc, cnt, s)
      end
  end.

Definition read_sign (s : string) : bool * string :=
  match s with
  | String "-"%char s' => (true, s')
  | String "+"%char s' => (false, s')
  | _ => (false, s)
  end.

Definition lower_char (c : ascii) : ascii :=
  let n := nat_of_ascii c in
  if (Nat.leb 65 n && Nat.leb n 90)%bool then ascii_of_nat (n + 32) else c.

Fixpoint lower (s : string) : string :=
  match s with
  | EmptyString => EmptyString
  | String c s' => String (lower_char c) (lower s')
  end.

(** The binary64 number nearest to [m * 10^e10] (ties to even). *)
Definition of_decimal (m : Z) (e10 : Z) : float :=
  SF2Prim
    match m with
    | Zpos p =>
        if 0 <=? e10
        then binary_normalize prec emax (Zpos p * 10 ^ e10) 0 false
        else match 10 ^ (- e10) with
             | Zpos d => SFdiv prec emax (S754_finite false p 0) (S754_finite false d 0)
             | _ => S754_nan
             end
    | _ => S754_zero false
    end.

Definition with_sign (neg : bool) (x : float) : float :=
  if neg then (- x)%float else x.

(** [float(s)] for a string: optional blanks and sign, then [inf],
    [infinity], [nan], or a decimal literal with an optional exponent. *)
Definition float_of_str (s : string) : result float :=
  let bad := Raise (ValueError ("could not convert string to float: " ++ s)) in
  let '(neg, s1) := read_sign (PyStr.rstrip (PyStr.lstrip s)) in
  if (String.eqb (lower s1) "inf" || String.eqb (lower s1) "infinity")%bool
  then Ok (with_sign neg infinity)
  else if String.eqb (lower s1) "nan" then Ok nan
  else
    let '(ip, ni, s2) := read_digits 0 0 s1 in
    let '(mant, nf, s3) :=
      match s2 with
      | String "."%char s' => read_digits ip 0 s'
      | _ => (ip, 0%nat, s2)
      end in
    if Nat.eqb (ni + nf) 0 then bad
    else
      match s3 with
      | EmptyString => Ok (with_sign neg (of_decimal mant (- Z.of_nat nf)))
      | String c s4 =>
          if Ascii.eqb (lower_char c) "e"%char then
            let '(eneg, s5) := read_sign s4 in
            let '(ev, ne, s6) := read_digits 0 0 s5 in
            if (Nat.eqb ne 0 || negb (PyStr.is_empty s6))%bool then bad
            else Ok (with_sign neg
                       (of_decimal mant ((if eneg then - ev else ev) - Z.of_nat nf)))
          else bad
      end.

(** [float(n)] for an [int]. *)
Definition of_int (n : Z) : float :=
  SF2Prim (binary_normalize prec emax n 0 false).

(** Nearest integer to [num / den], ties to even ([den > 0]). *)
Definition round_half_even (num den : Z) : Z :=
  let q := num / den in
  match (2 * (num mod den)) ?= den with
  | Lt => q
  | Gt => q + 1
  | Eq => if Z.even q then q else q + 1
  end.

(** Nearest integer to [m * 2^e * 10^k], for any integer [k]. *)
Definition scaled (m : positive) (e : Z) (k : Z) : Z :=
  let num := Zpos m * (if 0 <=? e then 2 ^ e else 1) * (if 0 <=? k then 10 ^ k else 1) in
  let den := (if 0 <=? e then 1 else 2 ^ (- e)) * (if 0 <=? k then 1 else 10 ^ (- k)) in
  round_half_even num den.

Definition str_nat (n : Z) : string := NilZero.string_of_uint (N.to_uint (Z.to_N n)).

Fixpoint zeros (n : nat) : string :=
  match n with
  | O => EmptyString
  | S n' => String "0"%char (zeros n')
  end.

(** [n] written with at least [w] digits. *)
Definition digits_padded (w : nat) (n : Z) : string :=
  let s := str_nat n in zeros (w - String.length s) ++ s.

Definition sign_str (neg : bool) : string := if neg then "-" else "".

(** ['{:.kf}'.format(x)] *)
Definition format_f (k : nat) (x : float) : string :=
  let frac (neg : bool) (r : Z) :=
    sign_str neg ++ str_nat (r / 10 ^ Z.of_nat k)
      ++ (if Nat.eqb k 0 then ""
          else "." ++ digits_padded k (r mod 10 ^ Z.of_nat k)) in
  match Prim2SF x with
  | S754_nan => "nan"
  | S754_infinity neg => sign_str neg ++ "inf"
  | S754_zero neg => frac neg 0
  | S754_finite neg m e => frac neg (scaled m e (Z.of_nat k))
  end.

(** The decimal exponent [X] with [10^X <= m * 2^e < 10^(X+1)]: a first guess
    from the binary length, corrected by comparison. *)
Definition ge_pow10 (m : positive) (e : Z) (x : Z) : bool :=
  let lhs := Zpos m * (if 0 <=? e then 2 ^ e else 1) * (if 0 <=? x then 1 else 10 ^ (- x)) in
  let rhs := (if 0 <=? e then 1 else 2 ^ (- e)) * (if 0 <=? x then 10 ^ x else 1) in
  rhs <=? lhs.

Definition decimal_exponent (m : positive) (e : Z) : Z :=
  let guess := ((Zpos (digits2_pos m) + e - 1) * 30103) / 100000 in
  if ge_pow10 m e (guess + 1) then guess + 1
  else if ge_pow10 m e guess then guess
  else guess - 1.

Definition strip_zeros (s : string) : string := PyStr.rstrip_char "0"%char s.

(** Largest integer not above [m * 2^e * 10^k], for any integer [k]. *)
Definition scaled_down (m : positive) (e : Z) (k : Z) : Z :=
  let num := Zpos m * (if 0 <=? e then 2 ^ e else 1) * (if 0 <=? k then 10 ^ k else 1) in
  let den := (if 0 <=? e then 1 else 2 ^ (- e)) * (if 0 <=? k then 1 else 10 ^ (- k)) in
  num / den.

(** Does the decimal [r * 10^k] read back as the float [m * 2^e]? *)
Definition reads_back (m : positive) (e : Z) (r k : Z) : bool :=
  match Prim2SF (of_decimal r k) with
  | S754_finite _ m' e' => (Pos.eqb m' m && (e' =? e))%bool
  | _ => false
  end.

(** The shortest decimal that reads back as [m * 2^e], searched from [n]
    significant digits upwards: its digits as an integer and the power of ten
    of their last digit.  Of the two [n]-digit neighbours the nearer one is
    tried first.  Seventeen digits always read back. *)
Fixpoint shortest (fuel : nat) (m : positive) (e : Z) (x0 : Z) (n : Z) : Z * Z :=
  let k := n - 1 - x0 in
  let near := scaled m e k in
  let low := scaled_down m e k in
  let other := if near =? low then low + 1 else low in
  match fuel with
  | O => (near, - k)
  | S fuel' =>
      if reads_back m e near (- k) then (near, - k)
      else if reads_back m e other (- k) then (other, - k)
      else shortest fuel' m e x0 (n + 1)
  end.

(** [str(x)] for a float, which is [repr(x)]: the shortest decimal that reads
    back as [x], in exponent notation when the decimal exponent is below -4
    or at least 16; an integral value in positional notation gets [.0]
    appended. *)
Definition str_float (x : float) : string :=
  match Prim2SF x with
  | S754_nan => "nan"
  | S754_infinity neg => sign_str neg ++ "inf"
  | S754_zero neg => sign_str neg ++ "0.0"
  | S754_finite neg m e =>
      let '(r, k) := shortest 16 m e (decimal_exponent m e) 1 in
      let ds := strip_zeros (str_nat r) in
      let x10 := Z.of_nat (String.length (str_nat r)) - 1 + k in
      sign_str neg ++
      (if ((x10 <? -4) || (16 <=? x10))%bool then
         match ds with
         | EmptyString => "0"
         | String d rest =>
             String d (if PyStr.is_empty rest then "" else "." ++ rest)
               ++ "e" ++ (if x10 <? 0 then "-" else "+")
               ++ digits_padded 2 (Z.abs x10)
         end
       else if x10 <? 0 then
         "0." ++ zeros (Z.to_nat (- x10 - 1)) ++ ds
       else
         let n := Z.to_nat (x10 + 1) in
         let ds' := ds ++ zeros (n - String.length ds) in
         let ip := String.substring 0 n ds' in
         let fp := PyStr.drop n ds' in
         ip ++ "." ++ (if PyStr.is_empty fp then "0" else fp))
  end.

End PyFloat.

(** ** [os.path] on strings *)

Module OsPath.

(** [s = h + c + t] with [c] not in [t]: the split at the last [c]. *)
Fixpoint rsplit_on (c : ascii) (s : string) : option (string * string) :=
  match s with
  | EmptyString => None
  | String a s' =>
      match rsplit_on c s' with
      | Some (h, t) => Some (String a h, t)
      | None => if Ascii.eqb a c then Some (EmptyString, s') else None
      end
  end.

Fixpoint all_char (c : ascii) (s : string) : bool :=
  match s with
  | EmptyString => true
  | String a s' => Ascii.eqb a c && all_char c s'
  end.

(** [os.path.split(p)]: head and tail around the last slash; the head loses
    its trailing slashes unless it is the root. *)
Definition split (p : string) : string * string :=
  match rsplit_on "/"%char p with
  | None => (EmptyString, p)
  | Some (h, t) =>
      let head := h ++ "/" in
      (if all_char "/"%char head then head else PyStr.rstrip_char "/"%char head, t)
  end.

(** [os.path.splitext(p)]: the extension starts at the last dot of the last
    component, unless only dots precede it there. *)
Definition splitext (p : string) : string * string :=
  match rsplit_on "."%char p with
  | None => (p, EmptyString)
  | Some (h, t) =>
      match rsplit_on "/"%char t with
      | Some _ => (p, EmptyString)
      | None =>
          let fname := match rsplit_on "/"%char h with
                       | Some (_, f) => f
                       | None => h
                       end in
          if all_char "."%char fname then (p, EmptyString)
          else (h, String "."%char t)
      end
  end.

(** The pieces of a path between its slashes. *)
Fixpoint pieces (s : string) : list string :=
  match s with
  | EmptyString => [EmptyString]
  | String c s' =>
      if Ascii.eqb c "/"%char then EmptyString :: pieces s'
      else match pieces s' with
           | x :: xs => String c x :: xs
           | [] => [String c EmptyString]
           end
  end.

Definition is_abs (p : string) : bool := PyStr.startswith "/" p.

(** The components of a path: empty pieces and [.] are dropped, [..] removes
    the component before it (at the root it is dropped). *)
Fixpoint normalize (done : list string) (todo : list string) : list string :=
  match todo with
  | [] => List.rev done
  | c :: todo' =>
      if (String.eqb c "" || String.eqb c ".")%bool then normalize done todo'
      else if String.eqb c ".." then normalize (List.tl done) todo'
      else normalize (c :: done) todo'
  end.

(** The components of [os.path.abspath(p)] when the process runs in [cwd]. *)
Definition resolve (cwd : list string) (p : string) : list string :=
  normalize (if is_abs p then [] else List.rev cwd) (pieces p).

Fixpoint drop_common (a b : list string) : list string * list string :=
  match a, b with
  | x :: a', y :: b' => if String.eqb x y then drop_common a' b' else (a, b)
  | _, _ => (a, b)
  end.

(** [os.path.relpath(path, start)] of a non-empty path. *)
Definition relpath (cwd : list string) (path start : string) : string :=
  let '(up, down) := drop_common (resolve cwd start) (resolve cwd path) in
  match (List.map (fun _ => "..") up ++ down)%list with
  | [] => "."
  | parts => PyStr.join_with "/" parts
  end.

End OsPath.

(** ** Names imported from [benchutils] and [benchevals]

    The constants are declared in modules that are not part of the sources,
    so they are parameters of the development. *)

Class Constants : Type := {
  _SEPPARS : string;       (* separator of the parameters in a task name *)
  _UTILDIR : string;
  _SEPNAMEPART : string;
  _ALGSDIR : string;
  _RESDIR : string;
  _CLSDIR : string;
  _EXTEXECTIME : string;
  _EXTAGGRES : string;
  _EXTAGGRESEXT : string;
  (* characters that start an instance, shuffle or path-id suffix of a name *)
  suffix_seps : list ascii;
  (* [benchutils.parseName]: the parts of a task name *)
  parseName : string -> bool -> list string
}.

Definition _EXTLOG : string := ".log".
Definition _EXTELOG : string := ".elog".
Definition _EXTCLNODES : string := ".cnl".
Definition _PREFEXEC : string := "exec".

Section Names.

Context `{Constants}.

Definition is_suffix_sep (c : ascii) : bool :=
  List.existsb (Ascii.eqb c) suffix_seps.

(** The part of [name] before its first suffix separator. *)
Fixpoint strip_suffix (name : string) : string :=
  match name with
  | EmptyString => EmptyString
  | String c rest =>
      if is_suffix_sep c then EmptyString else String c (strip_suffix rest)
  end.

(** Modelled from the spec: [benchutils.delPathSuffix] is not among the
    sources.  It returns "the path with any trailing path-id/instance suffix
    stripped"; with [nameonly] the whole argument is a name, otherwise the
    suffix is looked for in the last component of the path only. *)
Definition delPathSuffix (path : string) (nameonly : bool) : string :=
  if nameonly then strip_suffix path
  else match OsPath.rsplit_on "/"%char path with
       | None => strip_suffix path
       | Some (pdir, pname) => pdir ++ "/" ++ strip_suffix pname
       end.

End Names.

(** ** The statistics accumulator *)

Module ItemsStatistic.

(** Modelled from the spec: [benchutils.ItemsStatistic] is not among the
    sources.  "{count, sum, min, max} over a numeric series; fixed flag marks
    whether the derived avg has been computed". *)
Record t : Type := mk {
  name : string;
  count : Z;
  sum : float;
  min : float;
  max : float;
  avg : option float;
  fixed : bool
}.

(** [ItemsStatistic(name, min0, max0)] *)
Definition new (name : string) (min0 max0 : float) : t :=
  mk name 0 0%float min0 max0 None false.

(** Modelled from the spec: "add updates count, running sum, running min,
    running max". *)
Definition add (val : float) (s : t) : t :=
  mk (name s) (count s + 1) (sum s + val)%float
     (if (val <? min s)%float then val else min s)
     (if (max s <? val)%float then val else max s)
     (avg s) (fixed s).

(** Modelled from the spec: "fix() computes avg = sum/count; fails if count
    is zero". *)
Definition fix_ (s : t) : result t :=
  if (count s =? 0)%Z
  then Raise (AssertionError "ItemsStatistic.fix: no items")
  else Ok (mk (name s) (count s) (sum s) (min s) (max s)
              (Some (sum s / PyFloat.of_int (count s))%float) true).

End ItemsStatistic.

(** ** Files as [aggexec] sees them

    [aggexec] reads and appends regular files addressed by their full name,
    so its file system is a table from names to contents, together with the
    names that cannot be opened for writing. *)

Definition Files : Type := list (string * string).

Fixpoint lookup {A : Type} (k : string) (l : list (string * A)) : option A :=
  match l with
  | [] => None
  | (k', v) :: l' => if String.eqb k k' then Some v else lookup k l'
  end.

(** Replaces the value bound to [k], or binds [k] at the end. *)
Fixpoint store {A : Type} (k : string) (v : A) (l : list (string * A))
  : list (string * A) :=
  match l with
  | [] => [(k, v)]
  | (k', v') :: l' =>
      if String.eqb k k' then (k, v) :: l' else (k', v') :: store k v l'
  end.

Record World : Type := mkWorld {
  disk : Files;
  denied : list string;   (* names that [open(name, 'a')] refuses *)
  stderr : list string    (* the lines printed to [sys.stderr] *)
}.

(** [print(msg, file=sys.stderr)] *)
Definition eprint (msg : string) : M World unit :=
  modify (fun w => mkWorld (disk w) (denied w) (stderr w ++ [msg])%list).

(** [open(name, 'a')]: creates the file when it does not exist. *)
Definition open_append (name : string) : M World unit :=
  fun w =>
    if List.existsb (String.eqb name) (denied w)
    then (Raise (IOError name), w)
    else match lookup name (disk w) with
         | Some _ => (Ok tt, w)
         | None => (Ok tt, mkWorld (store name "" (disk w)) (denied w) (stderr w))
         end.

(** [os.path.getsize(name)] *)
Definition getsize (name : string) : M World nat :=
  fun w =>
    match lookup name (disk w) with
    | Some c => (Ok (String.length c), w)
    | None => (Raise (OSError name), w)
    end.

(** What a handle opened for appending has written when it is closed. *)
Definition append_text (name : string) (text : string) : M World unit :=
  modify (fun w =>
    match lookup name (disk w) with
    | Some c => mkWorld (store name (c ++ text) (disk w)) (denied w) (stderr w)
    | None => mkWorld (store name text (disk w)) (denied w) (stderr w)
    end).

(** ** [aggexec]: aggregation of the resource consumption logs *)

Definition tab : string := String "009"%char EmptyString.
Definition nl : string := String "010"%char EmptyString.
Definition dquote : string := String "034"%char EmptyString.

(** [netname: [alg1_stat, alg2_stat, ...]], a [dict] in insertion order. *)
Definition Table : Type := list (string * list ItemsStatistic.t).

(** The state of the reading loop: [measures], [malgs] and [ialg]. *)
Record Agg : Type := mkAgg {
  measures : list Table;
  malgs : list string;
  ialg : nat
}.

Definition mnames : list string := ["exectime"; "cputime"; "rssmem"].

(** [netstats[-1].add(val)] *)
Fixpoint add_last (val : float) (netstats : list ItemsStatistic.t)
  : result (list ItemsStatistic.t) :=
  match netstats with
  | [] => Raise (IndexError "list index out of range")
  | [s] => Ok [ItemsStatistic.add val s]
  | s :: rest => pbind (add_last val rest) (fun r => Ok (s :: r))
  end.

(** The message of the assertion on the length of [netstats]; the source
    ends it with the [repr] of [netstats], which is left out. *)
Definition not_synced (ialg : nat) (net : string) : string :=
  "Network statistics are not synced with algorithms: ialg="
    ++ PyStr.str_int (Z.of_nat ialg) ++ ", net: " ++ net.

(** The body of [for imsr, val in enumerate((etime, ctime, rmem))] on the
    table [measures[imsr]]: [setdefault], the assertion, [append] for the
    first result of the algorithm on the network, and [add]. *)
Definition accumulate (alg net : string) (ialg : nat) (val : float) (tbl : Table)
  : result Table :=
  let netstats := match lookup net tbl with
                  | Some l => l
                  | None => []
                  end in
  pbind
    (if Nat.leb (List.length netstats) ialg then
       if Nat.eqb (List.length netstats) ialg
       then Ok (netstats
                  ++ [ItemsStatistic.new (PyStr.join_with "_" [alg; net]) val val])%list
       else Raise (AssertionError (not_synced ialg net))
     else Ok netstats)
    (fun netstats =>
       pbind (add_last val netstats) (fun netstats => Ok (store net netstats tbl))).

(** [for imsr, val in enumerate((etime, ctime, rmem))] *)
Fixpoint accumulate_all (alg net : string) (ialg : nat) (vals : list float)
  (measures : list Table) : result (list Table) :=
  match vals with
  | [] => Ok measures
  | val :: vals' =>
      match measures with
      | [] => Raise (IndexError "list index out of range")
      | tbl :: measures' =>
          pbind (accumulate alg net ialg val tbl) (fun tbl' =>
          pbind (accumulate_all alg net ialg vals' measures') (fun rest =>
          Ok (tbl' :: rest)))
      end
  end.

Section Aggregation.

Context `{Constants}.

Definition invalid_format (algesfile ln : string) : string :=
  "Invalid format of the resource consumption file " ++ dquote ++ algesfile
    ++ dquote ++ ": " ++ ln.

(** What [for ln in aest] does with the fields of a line once their number
    has been asserted: the network name, the three measures, the update of
    the tables. *)
Definition process_fields (alg : string) (ialg : nat) (measures : list Table)
  (fields : list string) : result (list Table) :=
  let net := delPathSuffix (PyStr.rstrip (List.nth 5 fields "")) true in
  if PyStr.is_empty net then Raise (AssertionError "Network name must exist")
  else
    pbind (PyFloat.float_of_str (List.nth 0 fields "")) (fun etime =>
    pbind (PyFloat.float_of_str (List.nth 1 fields "")) (fun ctime =>
    pbind (PyFloat.float_of_str (List.nth 4 fields "")) (fun rmem =>
    accumulate_all alg net ialg [etime; ctime; rmem] measures))).

(** The body of [for ln in aest]. *)
Definition process_line (alg algesfile : string) (ialg : nat)
  (measures : list Table) (ln : string) : result (list Table) :=
  let ln := PyStr.lstrip ln in
  if (PyStr.is_empty ln || PyStr.startswith "#" ln)%bool then Ok measures
  else
    let fields := PyStr.split_max 5 ln in
    if negb (Nat.eqb (List.length fields) 6)
    then Raise (AssertionError (invalid_format algesfile ln))
    else process_fields alg ialg measures fields.

Fixpoint process_lines (alg algesfile : string) (ialg : nat)
  (measures : list Table) (lines : list string) : result (list Table) :=
  match lines with
  | [] => Ok measures
  | ln :: lines' =>
      pbind (process_line alg algesfile ialg measures ln) (fun measures' =>
      process_lines alg algesfile ialg measures' lines')
  end.

Definition algesfile_of (alg : string) : string :=
  PyStr.join [_RESDIR; alg; "/"; alg; _EXTEXECTIME].

Definition skipped_warning (alg : string) : string :=
  "WARNING, execution results for " ++ dquote ++ alg ++ dquote
    ++ " do not exist, skipped.".

(** [open(algesfile, 'r')] *)
Definition open_read (name : string) : M World string :=
  fun w => match lookup name (disk w) with
           | Some content => (Ok content, w)
           | None => (Raise (IOError name), w)
           end.

(** The body of [for alg in algs]: the [try] with its [except IOError] and
    [else] branches. *)
Definition read_log (alg : string) (a : Agg) : M World Agg :=
  let algesfile := algesfile_of alg in
  try_IOError
    (bind (open_read algesfile) (fun content =>
     bind (lift (process_lines alg algesfile (ialg a) (measures a)
                   (PyStr.readlines content))) (fun measures' =>
     ret (mkAgg measures' (malgs a ++ [alg])%list (S (ialg a))))))
    (fun _ => bind (eprint (skipped_warning alg)) (fun _ => ret a)).

Fixpoint read_logs (algs : list string) (a : Agg) : M World Agg :=
  match algs with
  | [] => ret a
  | alg :: algs' => bind (read_log alg a) (read_logs algs')
  end.

Definition agg0 : Agg := mkAgg [[]; []; []] [] 0.

(** The texts written for one statistic: the cell of the compact report and
    the line of the extended one. *)
Definition cell (malgs : list string) (imsr ialg : nat) (stat : ItemsStatistic.t)
  : result (string * string) :=
  pbind (if ItemsStatistic.fixed stat then Ok stat else ItemsStatistic.fix_ stat)
    (fun stat =>
  pbind (if Nat.ltb imsr (List.length mnames - 1)
         then Ok (ItemsStatistic.sum stat)
         else match ItemsStatistic.avg stat with
              | Some a => Ok a
              | None => Raise (ValueError "format of None")
              end) (fun val =>
  match List.nth_error malgs ialg with
  | None => Raise (IndexError "list index out of range")
  | Some alg =>
      match ItemsStatistic.avg stat with
      | None => Raise (ValueError "format of None")
      | Some avg =>
          Ok (tab ++ PyFloat.format_f 3 val,
              nl ++ tab ++ alg ++ ">" ++ tab ++ "total: " ++ PyFloat.format_f 3 val
                ++ ", per_item: " ++ PyFloat.format_f 6 avg
                ++ " (" ++ PyFloat.format_f 6 (ItemsStatistic.min stat)
                ++ " .. " ++ PyFloat.format_f 6 (ItemsStatistic.max stat) ++ ")")
      end
  end)).

(** [for ialg, stat in enumerate(netstats)], from index [ialg] on. *)
Fixpoint cells (malgs : list string) (imsr ialg : nat)
  (netstats : list ItemsStatistic.t) : result (string * string) :=
  match netstats with
  | [] => Ok ("", "")
  | stat :: rest =>
      pbind (cell malgs imsr ialg stat) (fun c =>
      pbind (cells malgs imsr (S ialg) rest) (fun cs =>
      Ok (fst c ++ fst cs, snd c ++ snd cs)))
  end.

(** [for netname, netstats in viewitems(measures[imsr])]: the rows of the
    compact and of the extended report. *)
Fixpoint rows (malgs : list string) (imsr : nat) (tbl : Table)
  : result (string * string) :=
  match tbl with
  | [] => Ok ("", "")
  | (netname, netstats) :: tbl' =>
      pbind (cells malgs imsr 0 netstats) (fun cs =>
      pbind (rows malgs imsr tbl') (fun rs =>
      Ok (netname ++ fst cs ++ nl ++ fst rs, netname ++ snd cs ++ nl ++ snd rs)))
  end.

Definition header_x : string :=
  "# <network>" ++ nl ++ "#" ++ tab ++ "<alg1_outp>" ++ nl
    ++ "#" ++ tab ++ "<alg2_outp>" ++ nl ++ "#" ++ tab ++ "..." ++ nl.

Definition stamp_line (timestamp : string) : string :=
  "# --- " ++ timestamp ++ " ---" ++ nl.

Definition algs_header (malgs : list string) : string :=
  "# <network>" ++ PyStr.join (List.map (fun alg => tab ++ alg) malgs) ++ nl.

Definition resfile_of (measure : string) : string :=
  PyStr.join [_RESDIR; measure; _EXTAGGRES].

Definition resxfile_of (measure : string) : string :=
  PyStr.join [_RESDIR; measure; _EXTAGGRESEXT].

Definition output_failed (measure err trace : string) : string :=
  "ERROR, " ++ dquote ++ measure ++ dquote
    ++ " results output execution is failed: " ++ err ++ ". " ++ trace.

(** The body of [for imsr, measure in enumerate(mnames)].  [trace] stands for
    the text of [traceback.format_exc()].  The two handles are flushed when
    the [with] block is left. *)
Definition write_report (timestamp trace : string) (malgs : list string)
  (imsr : nat) (measure : string) (tbl : Table) : M World unit :=
  let resfile := resfile_of measure in
  let resxfile := resxfile_of measure in
  try_IOError
    (bind (open_append resfile) (fun _ =>
     bind (open_append resxfile) (fun _ =>
     bind (getsize resxfile) (fun size =>
     bind (lift (rows malgs imsr tbl)) (fun rs =>
     bind (append_text resfile
             (stamp_line timestamp ++ algs_header malgs ++ fst rs)) (fun _ =>
     append_text resxfile
       ((if Nat.eqb size 0 then header_x else "")
          ++ stamp_line timestamp ++ snd rs)))))))
    (fun err => eprint (output_failed measure err trace)).

Fixpoint write_reports (timestamp trace : string) (malgs : list string)
  (imsr : nat) (names : list string) (measures : list Table) : M World unit :=
  match names with
  | [] => ret tt
  | measure :: names' =>
      match measures with
      | [] => raise (IndexError "list index out of range")
      | tbl :: measures' =>
          bind (write_report timestamp trace malgs imsr measure tbl) (fun _ =>
          write_reports timestamp trace malgs (S imsr) names' measures')
      end
  end.

Definition nothing_warning : string :=
  "WARNING, there are no any algortihms execution results to be aggregated.".

(** What [aggexec] does after the reading loop. *)
Definition report_phase (timestamp trace : string) (a : Agg) : M World unit :=
  match malgs a with
  | [] => eprint nothing_warning
  | _ :: _ => write_reports timestamp trace (malgs a) 0 mnames (measures a)
  end.

(** [aggexec(algs)]; [timestamp] is the text of [datetime.utcnow()]. *)
Definition aggexec (timestamp trace : string) (algs : list string) : M World unit :=
  bind (read_logs algs agg0) (report_phase timestamp trace).

End Aggregation.

(** ** The host: interpreters and working directory *)

(** [subprocess.call((name, '-h'), ...)]: the exit code, or [OSError] when
    the program cannot be started. *)
Inductive probe : Type :=
| NotFound
| Exit (code : Z).

Record Host : Type := mkHost {
  PYEXEC : string;               (* [sys.executable] *)
  call_h : string -> probe;      (* the outcome of [name -h] *)
  cwd : list string              (* the components of [os.getcwd()] *)
}.

(** ** [PyBin]: the available Python interpreters *)

Module PyBin.

(** The class attributes [_pypy3], [_pypy], [_python3]. *)
Record t : Type := mk {
  _pypy3 : option string;
  _pypy : option string;
  _python3 : option string
}.

(** The class body: the interpreters are probed in turn inside one [try];
    an [OSError] ends the probing and leaves the remaining attributes
    [None]. *)
Definition init (host : Host) : t :=
  match call_h host "pypy3" with
  | NotFound => mk None None None
  | Exit c3 =>
      let a3 := if (c3 =? 0)%Z then Some "pypy3" else None in
      match call_h host "pypy" with
      | NotFound => mk a3 None None
      | Exit c2 =>
          let a2 := if (c2 =? 0)%Z then Some "pypy" else None in
          match call_h host "python3" with
          | NotFound => mk a3 a2 None
          | Exit c => mk a3 a2 (if (c =? 0)%Z then Some "python3" else None)
          end
      end
  end.

(** The truth value of an attribute: [None] and [''] are false. *)
Definition truthy (attr : option string) : bool :=
  match attr with
  | Some s => negb (PyStr.is_empty s)
  | None => false
  end.

Definition value (attr : option string) : string :=
  match attr with
  | Some s => s
  | None => "None"
  end.

(** [PyBin.bestof(pypy, v3)] *)
Definition bestof (cls : t) (PYEXEC : string) (pypy v3 : bool) : string :=
  let pybin := PYEXEC in
  let pyname := snd (OsPath.split pybin) in
  if (pypy && v3 && truthy (_pypy3 cls))%bool then
    if (PyStr.find "pypy3" pyname =? -1)%Z then value (_pypy3 cls) else pybin
  else if (pypy && truthy (_pypy cls))%bool then
    if ((PyStr.find "pypy" pyname =? -1)
        || (PyStr.find "pypy" pyname =? PyStr.find "pypy3" pyname))%Z%bool
    then value (_pypy cls) else pybin
  else if (v3 && truthy (_python3 cls))%bool then
    if (PyStr.find "python3" pyname =? -1)%Z then value (_python3 cls) else pybin
  else if ((PyStr.find "python" pyname =? -1)
           || (PyStr.find "python" pyname =? PyStr.find "python3" pyname))%Z%bool
  then "python" else pybin.

(** The result [r] is the runtime [name]: the interpreter of that name, or
    the running interpreter when its own name already contains [name]. *)
Definition runs (name PYEXEC r : string) : Prop :=
  r = name
  \/ (r = PYEXEC /\ PyStr.find name (snd (OsPath.split PYEXEC)) <> (-1)%Z).

End PyBin.

(** ** The shape of a path string *)

Fixpoint has_char (c : ascii) (s : string) : bool :=
  match s with
  | EmptyString => false
  | String a s' => Ascii.eqb a c || has_char c s'
  end.

(** The name after the last slash of a path. *)
Definition tail_name (path : string) : string :=
  match OsPath.rsplit_on "/"%char path with
  | Some (_, t) => t
  | None => path
  end.

(** The name of an entry: not empty, not [.] and not [..]. *)
Definition plain (t : string) : bool :=
  negb (String.eqb t "" || String.eqb t "." || String.eqb t "..").


(** The path has a component [..].  Where such a path leads depends on
    whether the components before the [..] exist, which the components that
    [os.path.abspath] leaves do not tell. *)
Definition dotdot (path : string) : bool :=
  List.existsb (String.eqb "..") (OsPath.pieces path).

(** The path ends in a slash or in [.], which only a directory answers to. *)
Definition wants_dir (path : string) : bool :=
  String.eqb (tail_name path) "" || String.eqb (tail_name path) ".".

(** The last name of the path, its trailing slashes apart, is [.]. *)
Definition dot_ended (path : string) : bool :=
  String.eqb
    (tail_name (if String.eqb (tail_name path) ""
                then PyStr.rstrip_char "/"%char path else path)) ".".

(** ** The file system as the builders see it

    A tree of directories and regular files, rooted at [/], without symbolic
    links.  A path string is resolved to its list of components as
    [os.path.abspath] does; for a path without [..] these are the components
    that the operating system follows.  What the code does with a path that
    has a [..] is left open. *)

Module Fs.

Inductive node : Type :=
| File (size : Z)
| Dir (entries : list (string * node)).

(** The node at the components [p] below [n]. *)
Fixpoint find (p : list string) (n : node) : option node :=
  match p with
  | [] => Some n
  | c :: p' =>
      match n with
      | File _ => None
      | Dir es =>
          match lookup c es with
          | Some m => find p' m
          | None => None
          end
      end
  end.

(** The empty directories [c1/c2/...] nested in each other. *)
Fixpoint chain (p : list string) : node :=
  match p with
  | [] => Dir []
  | c :: p' => Dir [(c, chain p')]
  end.

(** [os.makedirs]: creates the directory and its missing ancestors; raises
    when the path exists or passes through a regular file. *)
Fixpoint makedirs (p : list string) (n : node) : result node :=
  match p with
  | [] => Raise (OSError "File exists")
  | c :: p' =>
      match n with
      | File _ => Raise (OSError "Not a directory")
      | Dir es =>
          match lookup c es with
          | Some m => pbind (makedirs p' m) (fun m' => Ok (Dir (store c m' es)))
          | None => Ok (Dir (store c (chain p') es))
          end
      end
  end.

(** Rewrites the entries of the directory at [dir]. *)
Fixpoint alter (dir : list string)
  (f : list (string * node) -> result (list (string * node))) (n : node)
  : result node :=
  match n with
  | File _ => Raise (OSError "Not a directory")
  | Dir es =>
      match dir with
      | [] => pbind (f es) (fun es' => Ok (Dir es'))
      | c :: dir' =>
          match lookup c es with
          | Some m => pbind (alter dir' f m) (fun m' => Ok (Dir (store c m' es)))
          | None => Raise (OSError "No such file or directory")
          end
      end
  end.

(** [os.mkdir]: the parent must exist, the name must be free. *)
Definition mkdir (p : list string) (n : node) : result node :=
  match List.rev p with
  | [] => Raise (OSError "File exists")
  | name :: rdir =>
      alter (List.rev rdir)
        (fun es => match lookup name es with
                   | Some _ => Raise (OSError "File exists")
                   | None => Ok (store name (Dir []) es)
                   end) n
  end.

(** Whether resolving [p] below [n] runs into a regular file. *)
Fixpoint file_above (p : list string) (n : node) : bool :=
  match n with
  | File _ => true
  | Dir es =>
      match p with
      | [] => false
      | c :: p' =>
          match lookup c es with
          | Some m => file_above p' m
          | None => false
          end
      end
  end.

End Fs.

(** ** What a path resolves to *)

Definition regular_file (found : option Fs.node) : bool :=
  match found with
  | Some (Fs.File _) => true
  | _ => false
  end.

(** A backup archive: what was moved out of the live tree, under the base
    path it was taken from and the time of the backup. *)
Record Archive : Type := mkArchive {
  arch_base : string;
  arch_time : string;
  arch_items : list (string * Fs.node)
}.

(** What [utils.mpepool.Job] is constructed with. *)
Inductive Hook : Type :=
| GanxisTidy (workdir : string)
| Oslom2Postexec (netbasepath task netext taskpath workdir : string).

Record Job : Type := mkJob {
  job_name : string;
  job_workdir : string;
  job_args : list string;
  job_timeout : Z;
  job_ondone : option Hook;
  job_stdout : string;
  job_stderr : string;
  job_category : string;
  job_size : Z
}.

(** The state the builders work on. *)
Record Sys : Type := mkSys {
  root : Fs.node;              (* the file system *)
  backups : list Archive;      (* the archives made by [tobackup] *)
  now : string;                (* the time stamp a backup made now would get *)
  pool : list Job              (* the jobs given to [execpool.execute] *)
}.

Section PathPreparer.

Context `{Constants}.

Variable host : Host.

Definition with_root (s : Sys) (r : Fs.node) : Sys :=
  mkSys r (backups s) (now s) (pool s).

Definition locate (path : string) : list string :=
  OsPath.resolve (cwd host) path.

(** [os.stat(path)] as far as the tree tells: the node at the path.  The
    empty path names nothing; a path that is absent from the tree after
    [os.path.abspath] is absent; a regular file does not answer to a path
    that ends in a slash or in [.].  The tree has no symbolic links. *)
Definition os_stat (path : string) : M Sys Fs.node :=
  fun s =>
    if PyStr.is_empty path then (Raise (OSError "No such file or directory"), s)
    else
      match Fs.find (locate path) (root s) with
      | None =>
          (Raise (OSError (if Fs.file_above (locate path) (root s)
                           then "Not a directory"
                           else "No such file or directory")), s)
      | Some n =>
          if dotdot path then (Raise Unmodelled, s)
          else
            match n with
            | Fs.File _ =>
                if wants_dir path then (Raise (OSError "Not a directory"), s)
                else (Ok n, s)
            | Fs.Dir _ => (Ok n, s)
            end
      end.

(** [os.path.exists(path)]: whether [os.stat(path)] succeeds. *)
Definition os_path_exists (path : string) : M Sys bool :=
  fun s => match os_stat path s with
           | (Ok _, _) => (Ok true, s)
           | (Raise (OSError _), _) => (Ok false, s)
           | (Raise e, _) => (Raise e, s)
           end.

(** A relative path starts from the working directory, which has to be
    there. *)
Definition anchored (path : string) (s : Sys) : bool :=
  OsPath.is_abs path
  || match Fs.find (cwd host) (root s) with
     | Some (Fs.Dir _) => true
     | _ => false
     end.

(** [os.makedirs(path)]: for a path that is a regular file already, the
    error is that of [os.mkdir]. *)
Definition os_makedirs (path : string) : M Sys unit :=
  fun s =>
    if PyStr.is_empty path then (Raise (OSError "No such file or directory"), s)
    else if dotdot path then (Raise Unmodelled, s)
    else if negb (anchored path s)
    then (Raise (OSError "No such file or directory"), s)
    else
      match Fs.find (locate path) (root s) with
      | Some (Fs.File _) =>
          (Raise (OSError (if dot_ended path then "Not a directory"
                           else "File exists")), s)
      | _ =>
          match Fs.makedirs (locate path) (root s) with
          | Ok r => (Ok tt, with_root s r)
          | Raise e => (Raise e, s)
          end
      end.

(** [os.mkdir(path)]: the name [.] of a directory exists with the directory
    and cannot be made without it. *)
Definition os_mkdir (path : string) : M Sys unit :=
  fun s =>
    if PyStr.is_empty path then (Raise (OSError "No such file or directory"), s)
    else if dotdot path then (Raise Unmodelled, s)
    else if dot_ended path then
      match os_stat path s with
      | (Ok _, _) => (Raise (OSError "File exists"), s)
      | (Raise e, _) => (Raise e, s)
      end
    else
      match Fs.mkdir (locate path) (root s) with
      | Ok r => (Ok tt, with_root s r)
      | Raise e => (Raise e, s)
      end.

(** [os.path.getsize(path)]: the size that [os.stat(path)] reports.  The
    size of a directory depends on the file system and is not modelled. *)
Definition os_path_getsize (path : string) : M Sys Z :=
  fun s => match os_stat path s with
           | (Ok (Fs.File size), _) => (Ok size, s)
           | (Ok (Fs.Dir _), _) => (Raise Unmodelled, s)
           | (Raise e, _) => (Raise e, s)
           end.

(** Modelled from the spec: [benchutils.dirempty] is not among the sources.
    "If path exists and is empty, do nothing": a path is empty when nothing
    is found inside it. *)
Definition dirempty (path : string) : M Sys bool :=
  fun s => (Ok (match Fs.find (locate path) (root s) with
                | Some (Fs.Dir (_ :: _)) => false
                | _ => true
                end), s).

(** The directory and the name a base path consists of. *)
Definition base_dir (basepath : string) : list string :=
  match OsPath.rsplit_on "/"%char basepath with
  | Some (h, _) => locate (h ++ "/")
  | None => locate ""
  end.

Definition base_name (basepath : string) : string :=
  match OsPath.rsplit_on "/"%char basepath with
  | Some (_, t) => t
  | None => basepath
  end.

(** The entries of a directory that a backup of [name] takes: the entry of
    that name, or with [expand] every entry whose name starts with it. *)
Definition taken (expand : bool) (name : string) (entry : string * Fs.node) : bool :=
  if expand then PyStr.startswith name (fst entry) else String.eqb name (fst entry).

(** Modelled from the spec: [benchutils.tobackup] is not among the sources.
    [tobackup(basepath, True, move=True)] is to "move the entire base subtree
    to a timestamped backup archive": every entry of the directory of
    [basepath] whose name starts with the name of [basepath] goes, with all
    it contains, into a new archive stamped with the current time, and with
    [move] leaves the live tree.  Nothing is archived when nothing matches. *)
Definition tobackup (basepath : string) (expand move : bool) : M Sys unit :=
  fun s =>
    match Fs.find (base_dir basepath) (root s) with
    | Some (Fs.Dir es) =>
        match List.filter (taken expand (base_name basepath)) es with
        | [] => (Ok tt, s)
        | items =>
            let arch := mkArchive basepath (now s) items in
            let keep := if move
                        then List.filter (fun e => negb (taken expand (base_name basepath) e))
                        else fun es => es in
            match Fs.alter (base_dir basepath) (fun es => Ok (keep es)) (root s) with
            | Ok r => (Ok tt, mkSys r (backups s ++ [arch])%list (now s) (pool s))
            | Raise e => (Raise e, s)
            end
        end
    | _ => (Ok tt, s)
    end.

(** [preparePath(taskpath)] *)
Definition preparePath (taskpath : string) : M Sys unit :=
  bind (os_path_exists taskpath) (fun ex =>
  if negb ex then os_makedirs taskpath
  else
    bind (dirempty taskpath) (fun empty =>
    if negb empty then
      let mainpath := delPathSuffix taskpath false in
      bind (tobackup mainpath true true) (fun _ =>
      os_mkdir taskpath)
    else ret tt)).

(** [nameparts[i]] *)
Definition item (parts : list string) (i : nat) : result string :=
  match List.nth_error parts i with
  | Some x => Ok x
  | None => Raise (IndexError "list index out of range")
  end.

(** [prepareResDir(appname, task, odir, pathid)] *)
Definition prepareResDir (appname task : string) (odir : bool) (pathid : string)
  : M Sys string :=
  bind (if odir then
          let nameparts := parseName task true in
          bind (lift (item nameparts 0)) (fun base =>
          bind (lift (item nameparts 2)) (fun inst =>
          ret (PyStr.join [base; inst; "/"; task])))
        else ret task) (fun taskdir =>
  let taskpath := PyStr.join [_RESDIR; appname; "/"; _CLSDIR; taskdir; pathid] in
  bind (preparePath taskpath) (fun _ =>
  ret taskpath)).

End PathPreparer.

(** ** The algorithm builders [exec<Algname>] *)

(** [range(a, b)] *)
Definition range (a b : Z) : list Z :=
  List.map (fun i => (a + Z.of_nat i)%Z) (List.seq 0 (Z.to_nat (b - a))).

(** [not asym] for the tri-state [asym]: [None] and [False] are false. *)
Definition not_asym (asym : option bool) : bool :=
  match asym with
  | Some true => false
  | _ => true
  end.

(** [funcToAppName(funcname)] *)
Definition funcToAppName (funcname : string) : result string :=
  if PyStr.startswith _PREFEXEC funcname
  then Ok (PyStr.drop (String.length _PREFEXEC) funcname)
  else Raise (AssertionError
                ("Executing appliation is expected instead of " ++ dquote
                   ++ funcname ++ dquote)).

(** The message of the assertion on the parameters of a builder; the source
    goes on with the values of the parameters. *)
Definition invalid_input : string := "Invalid input parameters".

Section Builders.

Context `{Constants}.

Variable host : Host.

(** [execpool.execute(job)] *)
Definition execute (job : Job) : M Sys unit :=
  modify (fun s => mkSys (root s) (backups s) (now s) (pool s ++ [job])%list).

(** [netsize = os.path.getsize(netfile)], doubled [if not asym]. *)
Definition network_size (netfile : string) (asym : option bool) : M Sys Z :=
  bind (os_path_getsize host netfile) (fun netsize =>
  ret (if not_asym asym then (netsize * 2)%Z else netsize)).

Definition relpath (workdir path : string) : string :=
  OsPath.relpath (cwd host) path workdir.

(** The arguments every builder starts with: the [exectime] wrapper. *)
Definition xtime_args (workdir algname task pathid : string) : list string :=
  let xtimebin := relpath workdir (_UTILDIR ++ "exectime") in
  let xtimeres :=
    relpath workdir (PyStr.join [_RESDIR; algname; "/"; algname; _EXTEXECTIME]) in
  [xtimebin; "-o=" ++ xtimeres; PyStr.join ["-n="; task; pathid];
   "-s=/etime_" ++ algname].

Definition bestof (pypy v3 : bool) : string :=
  PyBin.bestof (PyBin.init host) (PYEXEC host) pypy v3.

Definition execLouvainIg (execpool : bool) (netfile : string)
  (asym : option bool) (odir : bool) (timeout : Z) (pathid workdir : string)
  (seed : option Z) : M Sys Z :=
  bind (assert (execpool && negb (PyStr.is_empty netfile) && (0 <=? timeout)%Z)
          invalid_input) (fun _ =>
  bind (network_size netfile asym) (fun netsize =>
  let task := fst (OsPath.splitext (snd (OsPath.split netfile))) in
  bind (assert (negb (PyStr.is_empty task)) "The network name should exists") (fun _ =>
  bind (lift (funcToAppName "execLouvainIg")) (fun algname =>
  bind (prepareResDir host algname task odir pathid) (fun taskpath =>
  let pybin := bestof false true in
  let errfile := taskpath ++ _EXTELOG in
  let logfile := taskpath ++ _EXTLOG in
  let netfile := relpath workdir netfile in
  let taskpath := relpath workdir taskpath in
  let args := (xtime_args workdir algname task pathid
                 ++ [pybin; "./louvain_igraph.py";
                     ("-i" ++ (if not_asym asym then "nse" else "nsa"))%string;
                     "-lo"; PyStr.join [taskpath; "/"; task; _EXTCLNODES]; netfile])%list in
  bind (execute (mkJob (PyStr.join_with _SEPNAMEPART [algname; task]) workdir args
                   timeout None logfile errfile algname netsize)) (fun _ =>
  ret 1%Z)))))).

(** The interpreter of [execScp]: [PyBin.bestof(pypy=True, v3=False)], and
    [pypy] when that is not a PyPy and [pypy -h] succeeds. *)
Definition scp_pybin : string :=
  let pybin := bestof true false in
  if (PyStr.find "pypy" pybin =? -1)%Z then
    match call_h host "pypy" with
    | Exit 0 => "pypy"
    | _ => pybin
    end
  else pybin.

Definition execScp (execpool : bool) (netfile : string) (asym : option bool)
  (odir : bool) (timeout : Z) (pathid workdir : string) (seed : option Z)
  : M Sys Z :=
  bind (assert (execpool && negb (PyStr.is_empty netfile) && (0 <=? timeout)%Z)
          invalid_input) (fun _ =>
  bind (network_size netfile asym) (fun netsize =>
  let task := fst (OsPath.splitext (snd (OsPath.split netfile))) in
  bind (assert (negb (PyStr.is_empty task)) "The network name should exists") (fun _ =>
  bind (lift (funcToAppName "execScp")) (fun algname =>
  let netfile := relpath workdir netfile in
  let pybin := scp_pybin in
  let kmin := 3%Z in
  let kmax := 8%Z in
  let steps := "10" in
  bind (for_each (range kmin (kmax + 1)) (fun k =>
    let kstr := PyStr.str_int k in
    let kstrex := "k" ++ kstr in
    let taskbasex := delPathSuffix task true in
    let tasksuf := PyStr.drop (String.length taskbasex) task in
    let ktask := PyStr.join [taskbasex; _SEPPARS; kstrex; tasksuf] in
    bind (prepareResDir host algname ktask odir pathid) (fun taskpath =>
    let errfile := taskpath ++ _EXTELOG in
    let logfile := taskpath ++ _EXTLOG in
    let reltaskpath := relpath workdir taskpath in
    let args := (xtime_args workdir algname ktask pathid
                   ++ [pybin; "./scp.py"; netfile; kstr; steps;
                       PyStr.join [reltaskpath; "/"; ktask; _EXTCLNODES]])%list in
    execute (mkJob (PyStr.join_with _SEPNAMEPART [algname; ktask]) workdir args
               timeout None logfile errfile
               (PyStr.join_with "_" [algname; kstrex]) netsize)))) (fun _ =>
  ret (kmax + 1 - kmin)%Z))))).

Definition execRandcommuns (execpool : bool) (netfile : string)
  (asym : option bool) (odir : bool) (timeout : Z) (pathid workdir : string)
  (seed : option Z) (instances : Z) : M Sys Z :=
  bind (assert (execpool && negb (PyStr.is_empty netfile) && (0 <=? timeout)%Z)
          invalid_input) (fun _ =>
  bind (network_size netfile asym) (fun netsize =>
  let '(netfile, netext) := OsPath.splitext netfile in
  let task := snd (OsPath.split netfile) in
  bind (assert (negb (PyStr.is_empty task)) "The network name should exists") (fun _ =>
  bind (lift (funcToAppName "execRandcommuns")) (fun algname =>
  bind (prepareResDir host algname task odir pathid) (fun taskpath =>
  let errfile := taskpath ++ _EXTELOG in
  let logfile := taskpath ++ _EXTLOG in
  let netfile := relpath workdir netfile in
  let taskpath := relpath workdir taskpath in
  let pybin := bestof true true in
  let originpbase := if odir then fst (OsPath.split netfile) else netfile in
  let gtfile := originpbase ++ _EXTCLNODES in
  let args := (xtime_args workdir algname task pathid
                 ++ [pybin; "./randcommuns.py"; ("-g=" ++ gtfile)%string;
                     PyStr.join ["-i="; netfile; netext]; ("-o=" ++ taskpath)%string;
                     ("-n=" ++ PyStr.str_int instances)%string]
                 ++ match seed with
                    | Some r => [("-r=" ++ PyStr.str_int r)%string]
                    | None => []
                    end)%list in
  bind (execute (mkJob (PyStr.join_with _SEPNAMEPART [algname; task]) workdir args
                   timeout None logfile errfile algname netsize)) (fun _ =>
  ret 1%Z)))))).

(** What [format] raises for a message with more fields than arguments, the
    first field without an argument being the one of index [i]. *)
Definition too_few_arguments (i : Z) : exn :=
  IndexError ("Replacement index " ++ PyStr.str_int i
              ++ " out of range for positional args tuple").

(** [daocGamma]: the message of its assertion has seven fields, [format] gets
    six arguments. *)
Definition daocGamma (algname : string) (execpool : bool) (netfile : string)
  (asym : option bool) (odir : bool) (timeout : Z) (pathid workdir : string)
  (seed : option Z) (rlevout : float) (gamma : option Z) : M Sys Z :=
  bind (assert_failing (negb (PyStr.is_empty algname) && execpool
                && negb (PyStr.is_empty netfile) && (0 <=? timeout)%Z
                && (0 <? rlevout)%float && (rlevout <=? 1)%float
                && match gamma with Some _ => true | None => false end)
          (too_few_arguments 6)) (fun _ =>
  bind (network_size netfile asym) (fun netsize =>
  let task := fst (OsPath.splitext (snd (OsPath.split netfile))) in
  bind (assert (negb (PyStr.is_empty task)) "The network name should exists") (fun _ =>
  bind (prepareResDir host algname task odir pathid) (fun taskpath =>
  let errfile := taskpath ++ _EXTELOG in
  let logfile := taskpath ++ _EXTLOG in
  let netfile := relpath workdir netfile in
  let taskpath := relpath workdir taskpath in
  let args := (xtime_args workdir algname task pathid
                 ++ ["./daoc"; "-w";
                     ("-g=" ++ match gamma with
                               | Some g => PyStr.str_int g
                               | None => "None"
                               end)%string;
                     ("-t" ++ (if not_asym asym then "e" else "a"))%string;
                     PyStr.join ["-cxl[:/"; PyFloat.str_float rlevout; "]s=";
                                 taskpath; _EXTCLNODES];
                     netfile])%list in
  bind (execute (mkJob (PyStr.join_with _SEPNAMEPART [algname; task]) workdir args
                   timeout None logfile errfile algname netsize)) (fun _ =>
  ret 1%Z))))).

Definition execDaoc (execpool : bool) (netfile : string) (asym : option bool)
  (odir : bool) (timeout : Z) (pathid workdir : string) (seed : option Z)
  (rlevout : float) : M Sys Z :=
  bind (lift (funcToAppName "execDaoc")) (fun algname =>
  daocGamma algname execpool netfile asym odir timeout pathid workdir seed
    rlevout (Some 1%Z)).

Definition execDaocA (execpool : bool) (netfile : string) (asym : option bool)
  (odir : bool) (timeout : Z) (pathid workdir : string) (seed : option Z)
  (rlevout : float) : M Sys Z :=
  bind (lift (funcToAppName "execDaocA")) (fun algname =>
  daocGamma algname execpool netfile asym odir timeout pathid workdir seed
    rlevout (Some (-1)%Z)).

Definition execGanxis (execpool : bool) (netfile : string) (asym : option bool)
  (odir : bool) (timeout : Z) (pathid workdir : string) (seed : option Z)
  : M Sys Z :=
  bind (assert (execpool && negb (PyStr.is_empty netfile) && (0 <=? timeout)%Z)
          invalid_input) (fun _ =>
  bind (network_size netfile asym) (fun netsize =>
  let task := fst (OsPath.splitext (snd (OsPath.split netfile))) in
  bind (assert (negb (PyStr.is_empty task)) "The network name should exists") (fun _ =>
  bind (lift (funcToAppName "execGanxis")) (fun algname =>
  bind (prepareResDir host algname task odir pathid) (fun taskpath =>
  let errfile := taskpath ++ _EXTELOG in
  let logfile := taskpath ++ _EXTLOG in
  let netfile := relpath workdir netfile in
  let taskpath := relpath workdir taskpath in
  let args := (xtime_args workdir algname task pathid
                 ++ ["java"; "-jar"; "./GANXiSw.jar"; "-i"; netfile; "-d"; taskpath]
                 ++ (if not_asym asym then ["-Sym"; "1"] else [])
                 ++ match seed with
                    | Some r => ["-seed"; PyStr.str_int r]
                    | None => []
                    end)%list in
  bind (execute (mkJob (PyStr.join_with _SEPNAMEPART [algname; task]) workdir args
                   timeout (Some (GanxisTidy workdir)) logfile errfile algname
                   netsize)) (fun _ =>
  ret 1%Z)))))).

Definition execOslom2 (execpool : bool) (netfile : string) (asym : option bool)
  (odir : bool) (timeout : Z) (pathid workdir : string) (seed : option Z)
  : M Sys Z :=
  bind (assert (execpool && negb (PyStr.is_empty netfile) && (0 <=? timeout)%Z)
          invalid_input) (fun _ =>
  bind (network_size netfile asym) (fun netsize =>
  let '(netbasepath, task) := OsPath.split netfile in
  let '(task, netext) := OsPath.splitext task in
  bind (assert (negb (PyStr.is_empty task)) "The network name should exists") (fun _ =>
  bind (lift (funcToAppName "execOslom2")) (fun algname =>
  bind (prepareResDir host algname task odir pathid) (fun taskpath =>
  let errfile := taskpath ++ _EXTELOG in
  let logfile := taskpath ++ _EXTLOG in
  let netfile := relpath workdir netfile in
  let args := (xtime_args workdir algname task pathid
                 ++ [("./oslom_" ++ (if not_asym asym then "undir" else "dir"))%string;
                     "-f"; netfile; "-w"]
                 ++ match seed with
                    | Some r => ["-seed"; PyStr.str_int r]
                    | None => []
                    end)%list in
  bind (execute (mkJob (PyStr.join_with _SEPNAMEPART [algname; task]) workdir args
                   timeout
                   (Some (Oslom2Postexec netbasepath task netext taskpath workdir))
                   logfile errfile algname netsize)) (fun _ =>
  ret 1%Z)))))).

(** [while eps <= epsMax: body(eps); eps += deps], with [fuel] bounding the
    number of iterations of the model. *)
Fixpoint sweep (fuel : nat) (body : float -> M Sys unit) (eps epsMax deps : float)
  : M Sys unit :=
  match fuel with
  | O => raise OutOfFuel
  | S fuel' =>
      if (eps <=? epsMax)%float
      then bind (body eps) (fun _ => sweep fuel' body (eps + deps)%float epsMax deps)
      else ret tt
  end.

Definition os_devnull : string := "/dev/null".

Definition execPscan_fuel (fuel : nat) (execpool : bool) (netfile : string)
  (asym : option bool) (odir : bool) (timeout : Z) (pathid workdir : string)
  (seed : option Z) : M Sys Z :=
  bind (assert (execpool && negb (PyStr.is_empty netfile) && (0 <=? timeout)%Z)
          invalid_input) (fun _ =>
  bind (network_size netfile asym) (fun netsize =>
  let task := fst (OsPath.splitext (snd (OsPath.split netfile))) in
  bind (assert (negb (PyStr.is_empty task)) "The network name should exists") (fun _ =>
  bind (lift (funcToAppName "execPscan")) (fun algname =>
  let netfile := relpath workdir netfile in
  let eps := 0.05%float in
  let epsMax := 0.9%float in
  let steps := 10%Z in
  let deps := ((epsMax - eps) / PyFloat.of_int steps)%float in
  bind (sweep fuel (fun eps =>
    let prm := PyFloat.str_float eps in
    let prmex := "e" ++ prm in
    let taskbasex := delPathSuffix task true in
    let tasksuf := PyStr.drop (String.length taskbasex) task in
    let ctask := PyStr.join [taskbasex; _SEPPARS; prmex; tasksuf] in
    bind (prepareResDir host algname ctask odir pathid) (fun taskpath =>
    let errfile := taskpath ++ _EXTELOG in
    let reltaskpath := relpath workdir taskpath in
    let args := (xtime_args workdir algname ctask pathid
                   ++ ["./pscan"; "-e"; PyFloat.format_f 2 eps; "-o";
                       PyStr.join [reltaskpath; "/"; ctask; _EXTCLNODES];
                       "-f"; (if not_asym asym then "NSE" else "NSA"); netfile])%list in
    execute (mkJob (PyStr.join_with _SEPNAMEPART [algname; ctask]) workdir args
               timeout None os_devnull errfile
               (PyStr.join_with "_" [algname; prmex]) netsize)))
    eps epsMax deps) (fun _ =>
  ret steps))))).

(** [execPscan]: sixteen iterations are more than its loop ever makes (see
    [execPscan_fuel_enough]). *)
Definition execPscan : bool -> string -> option bool -> bool -> Z -> string
  -> string -> option Z -> M Sys Z :=
  execPscan_fuel 16.

(** [rgmcAlg]: the message of its assertion has [algs[alg]], the item of a
    tuple of three, which there is for [alg] from -3 to 2. *)
Definition rgmcAlg (algname : string) (execpool : bool) (netfile : string)
  (asym : option bool) (odir : bool) (timeout : Z) (pathid workdir : string)
  (seed : option Z) (alg : option Z) : M Sys Z :=
  bind (assert_failing (negb (PyStr.is_empty algname) && execpool
                && negb (PyStr.is_empty netfile) && (0 <=? timeout)%Z
                && match alg with
                   | Some a => ((a =? 1) || (a =? 2) || (a =? 3))%Z
                   | None => false
                   end)
          match alg with
          | Some a =>
              if ((-3 <=? a) && (a <? 3))%Z then AssertionError invalid_input
              else IndexError "tuple index out of range"
          | None =>
              TypeError "tuple indices must be integers or slices, not NoneType"
          end) (fun _ =>
  bind (network_size netfile asym) (fun netsize =>
  let task := fst (OsPath.splitext (snd (OsPath.split netfile))) in
  bind (assert (negb (PyStr.is_empty task)) "The network name should exists") (fun _ =>
  bind (prepareResDir host algname task odir pathid) (fun taskpath =>
  let errfile := taskpath ++ _EXTELOG in
  let logfile := taskpath ++ _EXTLOG in
  let netfile := relpath workdir netfile in
  let taskpath := relpath workdir taskpath in
  let args := (xtime_args workdir algname task pathid
                 ++ ["./rgmc"; "-a";
                     match alg with
                     | Some a => PyStr.str_int a
                     | None => "None"
                     end;
                     "-c"; PyStr.join [taskpath; "/"; task; _EXTCLNODES];
                     "-i"; (if not_asym asym then "e" else "a"); netfile])%list in
  bind (execute (mkJob (PyStr.join_with _SEPNAMEPART [algname; task]) workdir args
                   timeout None logfile errfile algname netsize)) (fun _ =>
  ret 1%Z))))).

Definition execCggcRg (execpool : bool) (netfile : string) (asym : option bool)
  (odir : bool) (timeout : Z) (pathid workdir : string) (seed : option Z)
  : M Sys Z :=
  bind (lift (funcToAppName "execCggcRg")) (fun algname =>
  rgmcAlg algname execpool netfile asym odir timeout pathid workdir seed (Some 2%Z)).

Definition execCggciRg (execpool : bool) (netfile : string) (asym : option bool)
  (odir : bool) (timeout : Z) (pathid workdir : string) (seed : option Z)
  : M Sys Z :=
  bind (lift (funcToAppName "execCggciRg")) (fun algname =>
  rgmcAlg algname execpool netfile asym odir timeout pathid workdir seed (Some 3%Z)).

(** [execScd]: the message of its assertion has five fields, [format] gets
    four arguments. *)
Definition execScd (execpool : bool) (netfile : string) (asym : option bool)
  (odir : bool) (timeout : Z) (pathid workdir : string) (seed : option Z)
  : M Sys Z :=
  bind (assert_failing
          (execpool && negb (PyStr.is_empty netfile) && (0 <=? timeout)%Z)
          (too_few_arguments 4)) (fun _ =>
  bind (network_size netfile asym) (fun netsize =>
  let task := fst (OsPath.splitext (snd (OsPath.split netfile))) in
  bind (assert (negb (PyStr.is_empty task)) "The network name should exists") (fun _ =>
  bind (lift (funcToAppName "execScd")) (fun algname =>
  bind (prepareResDir host algname task odir pathid) (fun taskpath =>
  let errfile := taskpath ++ _EXTELOG in
  let logfile := taskpath ++ _EXTLOG in
  let netfile := relpath workdir netfile in
  let taskpath := relpath workdir taskpath in
  let args := (xtime_args workdir algname task pathid
                 ++ ["./scd"; "-n"; "1"; "-o";
                     PyStr.join [taskpath; "/"; task; _EXTCLNODES]; "-f"; netfile])%list in
  bind (execute (mkJob (PyStr.join_with _SEPNAMEPART [algname; task]) workdir args
                   timeout None logfile errfile algname netsize)) (fun _ =>
  ret 1%Z)))))).

(** The builders of the module, called with the default values of their
    optional parameters other than [pathid], [workdir] and [seed]. *)
Inductive builder : Type :=
| LouvainIg | Scp | Randcommuns | Daoc | DaocA | Ganxis | Oslom2 | Pscan
| CggcRg | CggciRg | Scd.

Definition default_workdir (b : builder) : string :=
  match b with
  | Daoc | DaocA => _ALGSDIR ++ "daoc/"
  | Ganxis => _ALGSDIR ++ "ganxis/"
  | _ => _ALGSDIR
  end.

Definition exec (b : builder) (execpool : bool) (netfile : string)
  (asym : option bool) (odir : bool) (timeout : Z) (pathid : string)
  (workdir : option string) (seed : option Z) : M Sys Z :=
  let workdir := match workdir with
                 | Some d => d
                 | None => default_workdir b
                 end in
  match b with
  | LouvainIg => execLouvainIg execpool netfile asym odir timeout pathid workdir seed
  | Scp => execScp execpool netfile asym odir timeout pathid workdir seed
  | Randcommuns =>
      execRandcommuns execpool netfile asym odir timeout pathid workdir seed 5
  | Daoc => execDaoc execpool netfile asym odir timeout pathid workdir seed 0.8
  | DaocA => execDaocA execpool netfile asym odir timeout pathid workdir seed 0.8
  | Ganxis => execGanxis execpool netfile asym odir timeout pathid workdir seed
  | Oslom2 => execOslom2 execpool netfile asym odir timeout pathid workdir seed
  | Pscan => execPscan execpool netfile asym odir timeout pathid workdir seed
  | CggcRg => execCggcRg execpool netfile asym odir timeout pathid workdir seed
  | CggciRg => execCggciRg execpool netfile asym odir timeout pathid workdir seed
  | Scd => execScd execpool netfile asym odir timeout pathid workdir seed
  end.

End Builders.

(** ** The alignment of the accumulators with the measured algorithms *)

(** The slot [i] of the statistics of [net] belongs to the [i]-th measured
    algorithm and holds at least one result of it. *)
Definition slot_ok (malgs : list string) (net : string) (i : nat)
  (stat : ItemsStatistic.t) : Prop :=
  exists alg,
    List.nth_error malgs i = Some alg
    /\ ItemsStatistic.name stat = PyStr.join_with "_" [alg; net]
    /\ (1 <= ItemsStatistic.count stat)%Z
    /\ ItemsStatistic.fixed stat = false.

(** The statistics of one network: never empty, every slot aligned. *)
Definition entry_aligned (malgs : list string)
  (entry : string * list ItemsStatistic.t) : Prop :=
  snd entry <> []
  /\ forall i stat,
       List.nth_error (snd entry) i = Some stat -> slot_ok malgs (fst entry) i stat.

Definition table_aligned (malgs : list string) (tbl : Table) : Prop :=
  Forall (entry_aligned malgs) tbl.

(** [open(algesfile, 'r')] succeeds. *)
Definition has_log `{Constants} (w : World) (alg : string) : bool :=
  match lookup (algesfile_of alg) (disk w) with
  | Some _ => true
  | None => false
  end.

(** A slot before the result of the current line is added to it. *)
Definition slot_pre (malgs : list string) (net : string) (i : nat)
  (stat : ItemsStatistic.t) : Prop :=
  exists alg,
    List.nth_error malgs i = Some alg
    /\ ItemsStatistic.name stat = PyStr.join_with "_" [alg; net]
    /\ (0 <= ItemsStatistic.count stat)%Z
    /\ ItemsStatistic.fixed stat = false.

(** Parsing and accumulating never raise [IOError]. *)
Definition not_io {A : Type} (r : result A) : Prop :=
  match r with
  | Raise (IOError _) => False
  | _ => True
  end.

(** [m] treats [sys.stderr] as write-only: its result and its effect on the
    files are the same whatever was printed before, and it only adds lines. *)
Definition stderr_only_grows {A : Type} (m : M World A) : Prop :=
  forall d dn, exists r d' dn' out,
    forall e, m (mkWorld d dn e) = (r, mkWorld d' dn' (e ++ out)).

(** The statistic of a slot that received the samples [v :: vs]. *)
Definition accumulated (name : string) (v : float) (vs : list float)
  : ItemsStatistic.t :=
  List.fold_left (fun s x => ItemsStatistic.add x s) (v :: vs)
    (ItemsStatistic.new name v v).

(** The text of a file, empty when the file does not exist. *)
Definition file_text (name : string) (w : World) : string :=
  match lookup name (disk w) with
  | Some c => c
  | None => ""
  end.

(** What holds between two algorithms of the reading loop. *)
Definition agg_inv `{Constants} (w : World) (done : list string) (a : Agg) : Prop :=
  malgs a = List.filter (has_log w) done
  /\ ialg a = List.length (malgs a)
  /\ Forall (table_aligned (malgs a)) (measures a).

(** ** What a computation adds to the execution pool *)

(** [m] leaves the execution pool alone. *)
Definition quiet {A : Type} (m : M Sys A) : Prop :=
  forall s, pool (snd (m s)) = pool s.

(** Started in [s], [m] adds to the pool jobs that all satisfy [P]; and when
    it returns, it has added [k] jobs and its result satisfies [post]. *)
Definition builds_at {A : Type} (P : Job -> Prop) (k : nat) (post : A -> Prop)
  (m : M Sys A) (s : Sys) : Prop :=
  exists new,
    pool (snd (m s)) = (pool s ++ new)%list
    /\ Forall P new
    /\ forall r, fst (m s) = Ok r -> List.length new = k /\ post r.

(** The number of iterations of [while eps <= epsMax: ...; eps += deps], when
    [fuel] iterations are enough to leave the loop. *)
Fixpoint iterations (fuel : nat) (eps epsMax deps : float) : option nat :=
  match fuel with
  | O => None
  | S fuel' =>
      if (eps <=? epsMax)%float
      then option_map S (iterations fuel' (eps + deps)%float epsMax deps)
      else Some 0
  end.

(** The size estimate of the jobs of a network file of [size] bytes. *)
Definition size_estimate (asym : option bool) (size : Z) : Z :=
  match asym with
  | Some true => size
  | _ => (2 * size)%Z
  end.

(** The number of jobs a builder submits, and what it returns. *)
Definition jobs_of (b : builder) : nat :=
  match b with
  | Scp => 6
  | Pscan => 11
  | _ => 1
  end.

Definition returned_by (b : builder) : Z :=
  match b with
  | Scp => 6
  | Pscan => 10
  | _ => 1
  end.


(** ** What the reading loop of [aggexec] can raise *)

(** A result that is a value, a failed assertion or a [ValueError]: the
    outcomes of reading well-formed or malformed data. *)
Definition bad_data {A : Type} (r : result A) : Prop :=
  match r with
  | Ok _ => True
  | Raise (AssertionError _) => True
  | Raise (ValueError _) => True
  | Raise _ => False
  end.

(** A line that the reading loop skips: blank, or a comment. *)
Definition skipped (ln : string) : bool :=
  PyStr.is_empty (PyStr.lstrip ln) || PyStr.startswith "#" (PyStr.lstrip ln).

(** ** What the lines of a log contribute to the tables *)

Section LogLines.

Context `{Constants}.

(** The network and the three measures - execution time, CPU time, peak
    memory - of a line that the reading loop accumulates: the line is not
    skipped, [split(None, 5)] gives six fields, the sixth holds a network
    name and the first, the second and the fifth are numbers. *)
Definition line_values (ln : string) : option (string * list float) :=
  if skipped ln then None
  else
    let fields := PyStr.split_max 5 (PyStr.lstrip ln) in
    if negb (Nat.eqb (List.length fields) 6) then None
    else
      let net := delPathSuffix (PyStr.rstrip (List.nth 5 fields "")) true in
      if PyStr.is_empty net then None
      else
        match PyFloat.float_of_str (List.nth 0 fields ""),
              PyFloat.float_of_str (List.nth 1 fields ""),
              PyFloat.float_of_str (List.nth 4 fields "") with
        | Ok etime, Ok ctime, Ok rmem => Some (net, [etime; ctime; rmem])
        | _, _, _ => None
        end.

(** The samples of the measure of index [imsr] that the lines hold for the
    network [net], in the order of the lines. *)
Definition samples (imsr : nat) (net : string) (lines : list string) : list float :=
  List.flat_map
    (fun ln => match line_values ln with
               | Some (n, vals) =>
                   if String.eqb n net then [List.nth imsr vals 0%float] else []
               | None => []
               end) lines.

(** Some line holds a result for the network. *)
Definition mentions (net : string) (lines : list string) : bool :=
  negb (Nat.eqb (List.length (samples 0 net lines)) 0).

(** The lines of the log of [alg]; none when the log cannot be opened. *)
Definition log_lines (w : World) (alg : string) : list string :=
  match lookup (algesfile_of alg) (disk w) with
  | Some content => PyStr.readlines content
  | None => []
  end.




End LogLines.

(** [netstats] with [val] added to its last statistic. *)
Fixpoint bump (val : float) (netstats : list ItemsStatistic.t)
  : list ItemsStatistic.t :=
  match netstats with
  | [] => []
  | [s] => [ItemsStatistic.add val s]
  | s :: rest => s :: bump val rest
  end.

(** The statistics of a network after a result [val] of the algorithm of
    index [ialg]: the first result of the algorithm opens its slot. *)
Definition feed (alg net : string) (ialg : nat) (netstats : list ItemsStatistic.t)
  (val : float) : list ItemsStatistic.t :=
  bump val
    (if Nat.eqb (List.length netstats) ialg
     then (netstats
             ++ [ItemsStatistic.new (PyStr.join_with "_" [alg; net]) val val])%list
     else netstats).

(** The statistics that a table has for a network, none for an unknown one. *)
Definition stats_of (net : string) (tbl : Table) : list ItemsStatistic.t :=
  match lookup net tbl with
  | Some l => l
  | None => []
  end.

(** The report files of [aggexec]. *)
Definition report_files `{Constants} : list string :=
  List.flat_map (fun measure => [resfile_of measure; resxfile_of measure]) mnames.

(** The report files of two measures are four different files. *)
Definition apart `{Constants} (m1 m2 : string) : Prop :=
  resfile_of m1 <> resfile_of m2 /\ resfile_of m1 <> resxfile_of m2
  /\ resxfile_of m1 <> resfile_of m2 /\ resxfile_of m1 <> resxfile_of m2.

(** ** What the jobs of a builder have in common *)

(** The algorithm name of a builder: the name of its function without the
    prefix [exec]. *)
Definition algname_of (b : builder) : string :=
  match b with
  | LouvainIg => "LouvainIg"
  | Scp => "Scp"
  | Randcommuns => "Randcommuns"
  | Daoc => "Daoc"
  | DaocA => "DaocA"
  | Ganxis => "Ganxis"
  | Oslom2 => "Oslom2"
  | Pscan => "Pscan"
  | CggcRg => "CggcRg"
  | CggciRg => "CggciRg"
  | Scd => "Scd"
  end.

(** A job of the algorithm [algname]: it runs in [workdir] with the timeout
    given, its category starts with the name of the algorithm, and for some
    task its name is [algname _SEPNAMEPART task] and its command line starts
    with the [exectime] wrapper, told to append to the resource consumption
    log of the algorithm - the file that [aggexec] reads for [algname] -
    under the name of the task followed by the path id. *)
Definition wrapped `{Constants} (host : Host) (algname workdir : string)
  (timeout : Z) (pathid : string) (job : Job) : Prop :=
  job_workdir job = workdir
  /\ job_timeout job = timeout
  /\ PyStr.startswith algname (job_category job) = true
  /\ exists task,
       job_name job = algname ++ _SEPNAMEPART ++ task
       /\ List.firstn 4 (job_args job)
          = [relpath host workdir (_UTILDIR ++ "exectime");
             "-o=" ++ relpath host workdir (algesfile_of algname);
             "-n=" ++ task ++ pathid;
             "-s=/etime_" ++ algname].

(** The builders whose assertion on the parameters has a message that can be
    formatted: the argument of [format] has as many items as the message has
    fields.  In [daocGamma] and [execScd] the message has one field more than
    [format] has arguments, and [rgmcAlg] indexes [algs] with [alg], which is
    out of range for [alg = 3]: there the evaluation of the message raises an
    error of its own when the assertion fails. *)
Definition plain_assertion (b : builder) : bool :=
  match b with
  | LouvainIg | Scp | Randcommuns | Ganxis | Oslom2 | Pscan => true
  | _ => false
  end.

(** ** The clean-up hook of [execGanxis] *)

(** The tree without the entry at [p] and all it contains; raises when
    there is no such entry. *)
Fixpoint remove_tree (p : list string) (n : Fs.node) : result Fs.node :=
  match n with
  | Fs.File _ => Raise (OSError "Not a directory")
  | Fs.Dir es =>
      match p with
      | [] => Raise (OSError "Device or resource busy")
      | c :: p' =>
          match lookup c es with
          | None => Raise (OSError "No such file or directory")
          | Some m =>
              match p' with
              | [] => Ok (Fs.Dir (List.filter
                                    (fun e => negb (String.eqb c (fst e))) es))
              | _ :: _ =>
                  pbind (remove_tree p' m) (fun m' => Ok (Fs.Dir (store c m' es)))
              end
          end
      end
  end.

Section Hooks.

Variable host : Host.

(** [shutil.rmtree(path)]: lists the directory, removes what it contains and
    then the directory itself.  It refuses a symbolic link, which the tree
    does not have: where the model returns, [path] being a link the code
    raises. *)
Definition shutil_rmtree (path : string) : M Sys unit :=
  fun s =>
    if PyStr.is_empty path then (Raise (OSError "No such file or directory"), s)
    else if dotdot path then (Raise Unmodelled, s)
    else
      match Fs.find (locate host path) (root s) with
      | Some (Fs.Dir _) =>
          match remove_tree (locate host path) (root s) with
          | Ok r => (Ok tt, with_root s r)
          | Raise e => (Raise e, s)
          end
      | Some (Fs.File _) => (Raise (OSError "Not a directory"), s)
      | None => (Raise (OSError "No such file or directory"), s)
      end.

(** The function [tidy] that [execGanxis] defines and gives to its job as
    [ondone]. *)
Definition tidy (workdir : string) : M Sys unit :=
  let tmp := workdir ++ "output/" in
  bind (os_path_exists host tmp) (fun found =>
  if found then shutil_rmtree tmp else ret tt).

End Hooks.

(** What is at a path: nothing, a directory, or a file of some size. *)
Inductive kind : Type :=
| Absent
| Directory
| Regular (size : Z).

Definition kind_of (found : option Fs.node) : kind :=
  match found with
  | None => Absent
  | Some (Fs.Dir _) => Directory
  | Some (Fs.File size) => Regular size
  end.

(** [p] is [q] or an ancestor of [q]. *)
Fixpoint within (p q : list string) : bool :=
  match p, q with
  | [], _ => true
  | c :: p', d :: q' => String.eqb c d && within p' q'
  | _ :: _, [] => false
  end.

(** ** The thresholds of [execPscan] *)

(** The values of [eps] for which the body of
    [while eps <= epsMax: ...; eps += deps] runs, when [fuel] iterations are
    enough to leave the loop. *)
Fixpoint sweep_values (fuel : nat) (eps epsMax deps : float) : option (list float) :=
  match fuel with
  | O => None
  | S fuel' =>
      if (eps <=? epsMax)%float
      then option_map (cons eps) (sweep_values fuel' (eps + deps)%float epsMax deps)
      else Some []
  end.

(** The thresholds of [execPscan], from [eps = 0.05] in steps of
    [deps = (epsMax - eps) / steps]. *)
Definition pscan_thresholds : list float :=
  match sweep_values 16 0.05 0.9 ((0.9 - 0.05) / PyFloat.of_int 10) with
  | Some xs => xs
  | None => []
  end.

(** A job of [execPscan] for the threshold [eps]: the threshold as the
    program gets it, after [-e], and as the category of the job has it. *)
Definition pscan_job (eps : float) (job : Job) : Prop :=
  List.nth 5 (job_args job) "" = "-e"
  /\ List.nth 6 (job_args job) "" = PyFloat.format_f 2 eps
  /\ job_category job = "Pscan_e" ++ PyFloat.str_float eps.

(** A job of [execScp] for the clique size [k]: the size and the number of
    scale levels as the program gets them, and the category of the job. *)
Definition scp_job (k : Z) (job : Job) : Prop :=
  List.nth 5 (job_args job) "" = "./scp.py"
  /\ List.nth 7 (job_args job) "" = PyStr.str_int k
  /\ List.nth 8 (job_args job) "" = "10"
  /\ job_category job = "Scp_k" ++ PyStr.str_int k.

(** ** Sample inputs

    A configuration of the constants and small worlds, to run the functions
    on. *)

Definition sample_parseName (task : string) (nameonly : bool) : list string :=
  [task; ""; ""; ""; ""].

Definition sample_constants : Constants := {|
  _SEPPARS := "!";
  _UTILDIR := "utils/";
  _SEPNAMEPART := ">";
  _ALGSDIR := "algorithms/";
  _RESDIR := "results/";
  _CLSDIR := "clusters/";
  _EXTEXECTIME := ".rcp";
  _EXTAGGRES := ".res";
  _EXTAGGRESEXT := ".resx";
  suffix_seps := ["^"; "%"; "#"]%char;
  parseName := sample_parseName
|}.

(** A line of a resource consumption log. *)
Definition logline (etime ctime cusr ckern rss task : string) : string :=
  PyStr.join_with tab [etime; ctime; cusr; ckern; rss; task] ++ nl.

Definition log_header : string :=
  "# ExecTime(sec)" ++ tab ++ "CPU_time(sec)" ++ tab ++ "CPU_usr(sec)" ++ tab
    ++ "CPU_kern(sec)" ++ tab ++ "RSS_RAM_peak(Mb)" ++ tab ++ "TaskName" ++ nl.

(** The log of [algX]: two runs on [graph1], one on [graph2]. *)
Definition algX_log : string :=
  log_header
    ++ logline "0.5" "0.4" "0.3" "0.1" "2.5" "graph1"
    ++ logline "0.7" "0.6" "0.5" "0.1" "3.5" "graph1"
    ++ logline "1.2" "1.0" "0.9" "0.1" "4.0" "graph2".

Definition algX_world : World :=
  mkWorld [("results/algX/algX.rcp", algX_log)] [] [].

(** Two algorithms: the log of [alg1] covers the networks [A] and [B], the
    log of [alg2] the network [A] only. *)
Definition alg1_log : string :=
  logline "1.5" "1.4" "1.3" "0.1" "2.0" "A"
    ++ logline "2.5" "2.4" "2.3" "0.1" "3.0" "B".

Definition alg2_log : string :=
  logline "0.25" "0.2" "0.1" "0.1" "8.0" "A#1".

Definition two_logs_world : World :=
  mkWorld [("results/alg1/alg1.rcp", alg1_log);
           ("results/alg2/alg2.rcp", alg2_log)] [] [].

Definition empty_world : World := mkWorld [] [] [].

Definition sample_stamp : string := "2018-06-01 10:00:00".
Definition later_stamp : string := "2018-06-02 10:00:00".

(** Log lines with five and with seven fields. *)
Definition line5 : string :=
  PyStr.join_with tab ["0.5"; "0.4"; "0.3"; "0.1"; "graph1"] ++ nl.

Definition line7 : string :=
  PyStr.join_with tab ["0.5"; "0.4"; "0.3"; "0.1"; "2.5"; "graph1"; "extra"] ++ nl.

(** A host whose [sys.executable] is [/usr/bin/python2], working in
    [/home/bench], with [pypy] installed. *)
Definition sample_host : Host :=
  mkHost "/usr/bin/python2"
    (fun name => if String.eqb name "pypy" then Exit 0 else NotFound)
    ["home"; "bench"].

(** A tree with a network file and the results of an earlier run of Scp. *)
Definition sample_tree : Fs.node :=
  Fs.Dir
    [("home",
      Fs.Dir
        [("bench",
          Fs.Dir
            [("nets", Fs.Dir [("karate.nse", Fs.File 1000)]);
             ("results",
              Fs.Dir
                [("Scp",
                  Fs.Dir
                    [("clusters",
                      Fs.Dir
                        [("karate!k3", Fs.Dir [("karate!k3.cnl", Fs.File 5)]);
                         ("karate!k3#1", Fs.Dir [("karate!k3.cnl", Fs.File 7)]);
                         ("karate!k4", Fs.Dir [])])])])])])].

Definition sample_sys : Sys := mkSys sample_tree [] sample_stamp [].

(** The names of the entries of the directory at [path]. *)
Definition listdir (host : Host) (path : string) (s : Sys) : list string :=
  match Fs.find (locate host path) (root s) with
  | Some (Fs.Dir es) => List.map fst es
  | _ => []
  end.

(** The rows that the aggregation of [algX_log] writes for the measure
    [exectime]: in the compact and in the extended report. *)
Definition exectime_rows : string :=
  "graph1" ++ tab ++ "1.200" ++ nl ++ "graph2" ++ tab ++ "1.200" ++ nl.

Definition exectime_rows_x : string :=
  "graph1" ++ nl ++ tab ++ "algX>" ++ tab
    ++ "total: 1.200, per_item: 0.600000 (0.500000 .. 0.700000)" ++ nl
    ++ "graph2" ++ nl ++ tab ++ "algX>" ++ tab
    ++ "total: 1.200, per_item: 1.200000 (1.200000 .. 1.200000)" ++ nl.

(** What a reading loop leaves, or the start state if it raised. *)
Definition agg_of (run : result Agg * World) : Agg :=
  match fst run with
  | Ok a => a
  | Raise _ => mkAgg [] [] 0
  end.

Definition tables_of (r : result (list Table)) : list Table :=
  match r with
  | Ok tables => tables
  | Raise _ => []
  end.

(** The names of the statistics of each network of a table. *)
Definition slots (tbl : Table) : list (string * list string) :=
  List.map (fun entry => (fst entry, List.map ItemsStatistic.name (snd entry))) tbl.

(** A world in which the extended report of [exectime] cannot be written. *)
Definition readonly_world : World :=
  mkWorld (disk algX_world) ["results/exectime.resx"] [].

(** The lines of the log of [algX] without its header. *)
Definition algX_lines : list string :=
  [logline "0.5" "0.4" "0.3" "0.1" "2.5" "graph1";
   logline "0.7" "0.6" "0.5" "0.1" "3.5" "graph1";
   logline "1.2" "1.0" "0.9" "0.1" "4.0" "graph2"].

(** The working directory of GANXiS after a run: the program, and the
    directory [output] that it leaves, which is not empty here. *)
Definition ganxis_sys : Sys :=
  mkSys
    (Fs.Dir
       [("home",
         Fs.Dir
           [("bench",
             Fs.Dir
               [("algorithms",
                 Fs.Dir
                   [("ganxis",
                     Fs.Dir
                       [("GANXiSw.jar", Fs.File 4000);
                        ("output", Fs.Dir [("tmp.icpm", Fs.File 12)])])])])])])
    [] sample_stamp [].

(** The logs of three algorithms, that of [algE] without a line. *)
Definition empty_log_world : World :=
  mkWorld [("results/alg1/alg1.rcp", alg1_log);
           ("results/algE/algE.rcp", "");
           ("results/alg2/alg2.rcp", alg2_log)] [] [].

(** A log whose second line has five fields, and a log of one line with
    seven. *)
Definition short_log : string :=
  logline "0.5" "0.4" "0.3" "0.1" "2.5" "graph1"
    ++ line5
    ++ logline "1.2" "1.0" "0.9" "0.1" "4.0" "graph2".

Definition short_world : World :=
  mkWorld [("results/algX/algX.rcp", short_log)] [] [].

Definition long_world : World :=
  mkWorld [("results/algX/algX.rcp", line7)] [] [].

(** * Properties of [aggexec] *)

(** ** Field counts of [str.split] *)

Lemma split_scan_some_length (m : nat) (w s : string) :
  1 <= List.length (PyStr.split_scan m (Some w) s).
Proof.
  revert m w. induction s as [|c s IH]; intros m w; simpl; [lia|].
  destruct (PyStr.is_space c); simpl; [lia|apply IH].
Qed.

(** A run of the scanner that may split [m] times yields the fields of an
    unbounded run, up to [m + 1] of them. *)
Lemma split_scan_bounded (s : string) :
  forall (cur : option string) (m n : nat),
    match cur with
    | None => String.length s <= n
    | Some _ => 1 <= m /\ String.length s < n
    end ->
    List.length (PyStr.split_scan m cur s)
    = Nat.min (List.length (PyStr.split_scan n cur s)) (S m).
Proof.
  induction s as [|c s IH]; intros cur m n Hn.
  - destruct cur; simpl; lia.
  - destruct cur as [w|]; simpl in Hn |- *.
    + destruct Hn as [Hm Hn]. destruct (PyStr.is_space c).
      * simpl. rewrite (IH None (Nat.pred m) (Nat.pred n)) by (simpl; lia).
        destruct m; simpl; lia.
      * apply IH. simpl. lia.
    + destruct (PyStr.is_space c).
      * apply IH. simpl. lia.
      * destruct n as [|n]; [lia|]. destruct m as [|m].
        -- pose proof (split_scan_some_length (S n) (String c "") s). simpl. lia.
        -- apply IH. simpl. lia.
Qed.

Lemma lstrip_length (s : string) : String.length (PyStr.lstrip s) <= String.length s.
Proof.
  induction s as [|c s IH]; simpl; [lia|].
  destruct (PyStr.is_space c); simpl; lia.
Qed.

Lemma split_scan_lstrip (m : nat) (s : string) :
  PyStr.split_scan m None (PyStr.lstrip s) = PyStr.split_scan m None s.
Proof.
  induction s as [|c s IH]; [reflexivity|]. simpl.
  destruct (PyStr.is_space c) eqn:E; [exact IH|]. simpl. now rewrite E.
Qed.

(** [ln.lstrip().split(None, 5)] has as many fields as [ln.split()], but at
    most six. *)
Lemma split_max_length (ln : string) :
  List.length (PyStr.split_max 5 (PyStr.lstrip ln))
  = Nat.min (List.length (PyStr.split ln)) 6.
Proof.
  unfold PyStr.split_max, PyStr.split. rewrite split_scan_lstrip.
  apply (split_scan_bounded ln None 5 (String.length ln)). simpl. lia.
Qed.


Section LookupStore.

Variable A : Type.

Lemma lookup_store_same (k : string) (v : A) (l : list (string * A)) :
  lookup k (store k v l) = Some v.
Proof.
  induction l as [|[k' v'] l IH]; simpl.
  - now rewrite String.eqb_refl.
  - destruct (String.eqb k k') eqn:E; simpl.
    + now rewrite String.eqb_refl.
    + now rewrite E.
Qed.

Lemma lookup_store_other (k k' : string) (v : A) (l : list (string * A)) :
  k <> k' -> lookup k' (store k v l) = lookup k' l.
Proof.
  intros Hne. induction l as [|[k0 v0] l IH]; simpl.
  - destruct (String.eqb k' k) eqn:E; [|reflexivity].
    apply String.eqb_eq in E. congruence.
  - destruct (String.eqb k k0) eqn:E; simpl.
    + apply String.eqb_eq in E. subst k0.
      destruct (String.eqb k' k) eqn:E'; [|reflexivity].
      apply String.eqb_eq in E'. congruence.
    + now rewrite IH.
Qed.

Lemma lookup_In (k : string) (v : A) (l : list (string * A)) :
  lookup k l = Some v -> In (k, v) l.
Proof.
  induction l as [|[k' v'] l IH]; simpl; [discriminate|].
  destruct (String.eqb_spec k k') as [<-|Hne].
  - intros Heq. injection Heq as <-. now left.
  - intros Hl. right. now apply IH.
Qed.

Lemma Forall_store (P : string * A -> Prop) (k : string) (v : A)
  (l : list (string * A)) :
  Forall P l -> P (k, v) -> Forall P (store k v l).
Proof.
  intros Hl Hkv. induction Hl as [|[k' v'] l Hx Hl IH]; simpl.
  - now constructor.
  - destruct (String.eqb k k'); constructor; auto.
Qed.

End LookupStore.

Lemma pbind_Ok {A B : Type} (r : result A) (k : A -> result B) (b : B) :
  pbind r k = Ok b -> exists a, r = Ok a /\ k a = Ok b.
Proof. destruct r; simpl; [eauto | discriminate]. Qed.

Lemma add_last_Ok (val : float) (l l' : list ItemsStatistic.t) :
  add_last val l = Ok l' ->
  exists pre s, l = (pre ++ [s])%list /\ l' = (pre ++ [ItemsStatistic.add val s])%list.
Proof.
  revert l'. induction l as [|s l IH]; intros l' Hl; [discriminate|].
  destruct l as [|s' l].
  - simpl in Hl. injection Hl as <-. now exists [], s.
  - change (add_last val (s :: s' :: l))
      with (pbind (add_last val (s' :: l)) (fun r => Ok (s :: r))) in Hl.
    apply pbind_Ok in Hl as (r & Hr & Hl). injection Hl as <-.
    destruct (IH _ Hr) as (pre & s0 & -> & ->).
    now exists (s :: pre), s0.
Qed.

Lemma slot_ok_pre (malgs : list string) (net : string) (i : nat)
  (stat : ItemsStatistic.t) :
  slot_ok malgs net i stat -> slot_pre malgs net i stat.
Proof.
  intros (alg & Hal & Hn & Hc & Hf). exists alg. repeat split; auto. lia.
Qed.

Lemma slot_pre_add (malgs : list string) (net : string) (i : nat) (val : float)
  (stat : ItemsStatistic.t) :
  slot_pre malgs net i stat -> slot_ok malgs net i (ItemsStatistic.add val stat).
Proof.
  intros (alg & Hal & Hn & Hc & Hf). exists alg. simpl. repeat split; auto. lia.
Qed.

Lemma table_aligned_more (malgs : list string) (alg : string) (tbl : Table) :
  table_aligned malgs tbl -> table_aligned (malgs ++ [alg]) tbl.
Proof.
  apply Forall_impl. intros [net netstats] [Hne Hs]. split; [exact Hne|].
  intros i stat Hi. destruct (Hs _ _ Hi) as (a & Ha & Hrest).
  exists a. split; [|exact Hrest].
  rewrite List.nth_error_app1; [exact Ha|].
  apply List.nth_error_Some. congruence.
Qed.

(** One accumulation keeps a table aligned with the algorithms measured so
    far, the one being read included. *)
Lemma accumulate_aligned (malgs : list string) (alg net : string) (val : float)
  (tbl tbl' : Table) :
  table_aligned (malgs ++ [alg]) tbl ->
  accumulate alg net (List.length malgs) val tbl = Ok tbl' ->
  table_aligned (malgs ++ [alg]) tbl'.
Proof.
  intros Ht Hacc. unfold accumulate in Hacc.
  apply pbind_Ok in Hacc as (ns1 & Hns1 & Hacc).
  apply pbind_Ok in Hacc as (ns2 & Hns2 & Hacc). injection Hacc as <-.
  apply add_last_Ok in Hns2 as (pre & s & -> & ->).
  apply Forall_store; [exact Ht|].
  split; [now destruct pre|]. simpl.
  assert (Hall : (forall i stat, List.nth_error pre i = Some stat ->
                                 slot_ok (malgs ++ [alg]) net i stat)
                 /\ slot_pre (malgs ++ [alg]) net (List.length pre) s).
  { destruct (lookup net tbl) as [l|] eqn:El.
    - apply lookup_In in El.
      destruct (proj1 (List.Forall_forall _ _) Ht _ El) as [_ Hs]. simpl in Hs.
      destruct (Nat.leb (List.length l) (List.length malgs)) eqn:Ele.
      + destruct (Nat.eqb (List.length l) (List.length malgs)) eqn:Eeq; [|discriminate].
        apply Nat.eqb_eq in Eeq. injection Hns1 as Hns1.
        apply List.app_inj_tail in Hns1 as [<- <-]. split; [exact Hs|].
        exists alg. simpl. rewrite Eeq.
        rewrite List.nth_error_app2 by lia. rewrite Nat.sub_diag.
        repeat split; auto. lia.
      + injection Hns1 as ->. split.
        * intros i stat Hi. apply Hs. rewrite List.nth_error_app1; [exact Hi|].
          apply List.nth_error_Some. congruence.
        * apply slot_ok_pre, Hs.
          rewrite List.nth_error_app2 by lia. now rewrite Nat.sub_diag.
    - destruct malgs as [|m malgs]; cbn [List.length Nat.leb Nat.eqb] in Hns1;
        [|discriminate].
      injection Hns1 as Hns1.
      apply (@List.app_inj_tail _ [] pre) in Hns1 as [<- <-]. split.
      + intros i stat Hi. now destruct i.
      + exists alg. simpl. repeat split; auto. lia. }
  destruct Hall as [Hpre Hs].
  intros i stat Hi.
  destruct (Nat.lt_ge_cases i (List.length pre)) as [Hlt|Hge].
  - rewrite List.nth_error_app1 in Hi by exact Hlt. now apply Hpre.
  - rewrite List.nth_error_app2 in Hi by exact Hge.
    destruct (i - List.length pre) as [|k] eqn:Ek; [|now destruct k].
    injection Hi as <-. assert (i = List.length pre) by lia. subst i.
    now apply slot_pre_add.
Qed.

Lemma accumulate_all_aligned (cur : list string) (malgs : list string)
  (alg net : string) (vals : list float) :
  cur = (malgs ++ [alg])%list ->
  forall measures measures',
    Forall (table_aligned cur) measures ->
    accumulate_all alg net (List.length malgs) vals measures = Ok measures' ->
    Forall (table_aligned cur) measures'.
Proof.
  intros ->. induction vals as [|val vals IH]; intros measures measures' Hm Hacc.
  - injection Hacc as <-. exact Hm.
  - destruct measures as [|tbl measures]; [discriminate|]. simpl in Hacc.
    apply pbind_Ok in Hacc as (tbl' & Htbl & Hacc).
    apply pbind_Ok in Hacc as (rest & Hrest & Hacc). injection Hacc as <-.
    inversion Hm as [|? ? Ht Hms]; subst. constructor.
    + eapply accumulate_aligned; eauto.
    + eapply IH; eauto.
Qed.

Lemma pbind_not_io {A B : Type} (r : result A) (k : A -> result B) :
  not_io r -> (forall a, not_io (k a)) -> not_io (pbind r k).
Proof. destruct r; simpl; auto. Qed.

Lemma add_last_not_io (val : float) (l : list ItemsStatistic.t) :
  not_io (add_last val l).
Proof.
  induction l as [|s l IH]; [exact I|].
  destruct l as [|s' l]; [exact I|].
  change (add_last val (s :: s' :: l))
    with (pbind (add_last val (s' :: l)) (fun r => Ok (s :: r))).
  apply pbind_not_io; [exact IH|]. intros; exact I.
Qed.

Lemma accumulate_not_io (alg net : string) (ialg : nat) (val : float) (tbl : Table) :
  not_io (accumulate alg net ialg val tbl).
Proof.
  unfold accumulate. apply pbind_not_io.
  - destruct (Nat.leb _ _); [destruct (Nat.eqb _ _)|]; exact I.
  - intros l. apply pbind_not_io; [apply add_last_not_io|]. intros; exact I.
Qed.

Lemma accumulate_all_not_io (alg net : string) (ialg : nat) (vals : list float) :
  forall measures, not_io (accumulate_all alg net ialg vals measures).
Proof.
  induction vals as [|val vals IH]; intros measures; [exact I|].
  destruct measures as [|tbl measures]; [exact I|]. simpl.
  apply pbind_not_io; [apply accumulate_not_io|]. intros tbl'.
  apply pbind_not_io; [apply IH|]. intros; exact I.
Qed.

Lemma float_of_str_not_io (s : string) : not_io (PyFloat.float_of_str s).
Proof.
  unfold PyFloat.float_of_str.
  destruct (PyFloat.read_sign _) as [neg s1].
  destruct (_ || _)%bool; [exact I|].
  destruct (String.eqb _ _); [exact I|].
  destruct (PyFloat.read_digits 0 0 s1) as [[ip ni] s2].
  destruct (match s2 with
            | String "."%char s' => PyFloat.read_digits ip 0 s'
            | _ => (ip, 0, s2)
            end) as [[mant nf] s3].
  destruct (Nat.eqb _ _); [exact I|].
  destruct s3 as [|c s4]; [exact I|].
  destruct (Ascii.eqb _ _); [|exact I].
  destruct (PyFloat.read_sign s4) as [eneg s5].
  destruct (PyFloat.read_digits 0 0 s5) as [[ev ne] s6].
  destruct (_ || _)%bool; exact I.
Qed.

Section AggregationFacts.

Context `{Constants}.

Lemma process_line_aligned (malgs : list string) (alg file ln : string)
  (measures measures' : list Table) :
  Forall (table_aligned (malgs ++ [alg])) measures ->
  process_line alg file (List.length malgs) measures ln = Ok measures' ->
  Forall (table_aligned (malgs ++ [alg])) measures'.
Proof.
  intros Hm Hp. unfold process_line in Hp.
  destruct (PyStr.is_empty (PyStr.lstrip ln) || PyStr.startswith "#" (PyStr.lstrip ln))%bool.
  { injection Hp as <-. exact Hm. }
  destruct (negb _); [discriminate|]. unfold process_fields in Hp.
  destruct (PyStr.is_empty _); [discriminate|].
  apply pbind_Ok in Hp as (etime & _ & Hp).
  apply pbind_Ok in Hp as (ctime & _ & Hp).
  apply pbind_Ok in Hp as (rmem & _ & Hp).
  eapply accumulate_all_aligned; eauto.
Qed.

Lemma process_lines_aligned (malgs : list string) (alg file : string)
  (lines : list string) :
  forall measures measures',
    Forall (table_aligned (malgs ++ [alg])) measures ->
    process_lines alg file (List.length malgs) measures lines = Ok measures' ->
    Forall (table_aligned (malgs ++ [alg])) measures'.
Proof.
  induction lines as [|ln lines IH]; intros measures measures' Hm Hp.
  - injection Hp as <-. exact Hm.
  - simpl in Hp. apply pbind_Ok in Hp as (m1 & H1 & Hp).
    eapply IH; [|exact Hp]. eapply process_line_aligned; eauto.
Qed.

Lemma process_line_not_io (alg file : string) (ialg : nat)
  (measures : list Table) (ln : string) :
  not_io (process_line alg file ialg measures ln).
Proof.
  unfold process_line.
  destruct (_ || _)%bool; [exact I|].
  destruct (negb _); [exact I|]. unfold process_fields.
  destruct (PyStr.is_empty _); [exact I|].
  apply pbind_not_io; [apply float_of_str_not_io|]. intros etime.
  apply pbind_not_io; [apply float_of_str_not_io|]. intros ctime.
  apply pbind_not_io; [apply float_of_str_not_io|]. intros rmem.
  apply accumulate_all_not_io.
Qed.

Lemma process_lines_not_io (alg file : string) (ialg : nat) (lines : list string) :
  forall measures, not_io (process_lines alg file ialg measures lines).
Proof.
  induction lines as [|ln lines IH]; intros measures; [exact I|]. simpl.
  apply pbind_not_io; [apply process_line_not_io|]. exact IH.
Qed.

(** [read_log] by cases on whether the log can be opened. *)
Lemma read_log_opened (alg content : string) (a : Agg) (w : World) :
  lookup (algesfile_of alg) (disk w) = Some content ->
  read_log alg a w =
    (match process_lines alg (algesfile_of alg) (ialg a) (measures a)
             (PyStr.readlines content) with
     | Ok measures' => Ok (mkAgg measures' (malgs a ++ [alg]) (S (ialg a)))
     | Raise e => Raise e
     end, w).
Proof.
  intros Hl. unfold read_log, try_IOError, bind, open_read, lift, ret. rewrite Hl.
  pose proof (process_lines_not_io alg (algesfile_of alg) (ialg a)
                (PyStr.readlines content) (measures a)) as Hio.
  destruct (process_lines _ _ _ _ _) as [ms|e]; [reflexivity|].
  destruct e; simpl in Hio; try reflexivity. contradiction.
Qed.

Lemma read_log_missing (alg : string) (a : Agg) (w : World) :
  lookup (algesfile_of alg) (disk w) = None ->
  read_log alg a w =
    (Ok a, mkWorld (disk w) (denied w) (stderr w ++ [skipped_warning alg])).
Proof.
  intros Hl. unfold read_log, try_IOError, bind, open_read. now rewrite Hl.
Qed.

Lemma read_log_inv (alg : string) (done : list string) (a a' : Agg) (w0 w w' : World) :
  disk w = disk w0 ->
  agg_inv w0 done a ->
  read_log alg a w = (Ok a', w') ->
  agg_inv w0 (done ++ [alg]) a' /\ disk w' = disk w0 /\ denied w' = denied w.
Proof.
  intros Hd (Hm & Hi & Ht) Hr. unfold agg_inv. rewrite List.filter_app. simpl.
  unfold has_log at 2. rewrite <- Hd.
  destruct (lookup (algesfile_of alg) (disk w)) as [content|] eqn:Hl.
  - rewrite read_log_opened with (content := content) in Hr by exact Hl.
    destruct (process_lines _ _ _ _ _) as [ms|e] eqn:Hp; [|discriminate].
    injection Hr as <- <-. simpl. rewrite <- Hm. repeat split; auto.
    + rewrite List.length_app. simpl. lia.
    + rewrite Hi in Hp. eapply process_lines_aligned; [|exact Hp].
      eapply Forall_impl; [|exact Ht]. intros tbl. apply table_aligned_more.
  - rewrite read_log_missing in Hr by exact Hl. injection Hr as <- <-. simpl.
    rewrite List.app_nil_r. repeat split; auto.
Qed.

Lemma read_logs_inv (algs : list string) :
  forall (done : list string) (a a' : Agg) (w0 w w' : World),
    disk w = disk w0 ->
    agg_inv w0 done a ->
    read_logs algs a w = (Ok a', w') ->
    agg_inv w0 (done ++ algs) a' /\ disk w' = disk w0 /\ denied w' = denied w.
Proof.
  induction algs as [|alg algs IH]; intros done a a' w0 w w' Hd Hinv Hr.
  - injection Hr as <- <-. rewrite List.app_nil_r. auto.
  - simpl in Hr. unfold bind in Hr.
    destruct (read_log alg a w) as [[a1|e] w1] eqn:H1; [|discriminate].
    eapply read_log_inv in H1 as (Hinv1 & Hd1 & Hden1); [|exact Hd|exact Hinv].
    eapply IH in Hr as (Hinv' & Hd' & Hden'); [|exact Hd1|exact Hinv1].
    rewrite <- List.app_assoc in Hinv'. simpl in Hinv'. repeat split; auto; try apply Hinv'.
    congruence.
Qed.

Lemma agg_inv_start (w : World) : agg_inv w [] agg0.
Proof.
  repeat split; auto. simpl. repeat constructor.
Qed.

(** A data line of a log (not blank, not a comment) with fewer than six
    whitespace-separated fields fails the assertion on the number of fields;
    with six fields or more it passes the assertion and is processed with
    the fields of [split(None, 5)], the sixth of which takes the rest of the
    line. *)
Lemma process_line_field_count (alg file : string) (ialg : nat)
  (measures : list Table) (ln : string) :
  PyStr.is_empty (PyStr.lstrip ln) = false ->
  PyStr.startswith "#" (PyStr.lstrip ln) = false ->
  List.length (PyStr.split_max 5 (PyStr.lstrip ln))
  = Nat.min (List.length (PyStr.split ln)) 6
  /\ process_line alg file ialg measures ln
     = if Nat.ltb (List.length (PyStr.split ln)) 6
       then Raise (AssertionError (invalid_format file (PyStr.lstrip ln)))
       else process_fields alg ialg measures (PyStr.split_max 5 (PyStr.lstrip ln)).
Proof.
  intros Hne Hnc. split; [apply split_max_length|].
  unfold process_line. rewrite Hne, Hnc. simpl. rewrite split_max_length.
  destruct (Nat.ltb_spec (List.length (PyStr.split ln)) 6) as [Hlt|Hge].
  - rewrite Nat.min_l by lia.
    destruct (Nat.eqb_spec (List.length (PyStr.split ln)) 6); [lia|reflexivity].
  - rewrite Nat.min_r by lia. reflexivity.
Qed.

(** *** Messages on [sys.stderr] do not influence the aggregation *)

Lemma grows_ret {A : Type} (a : A) : stderr_only_grows (ret a).
Proof.
  intros d dn. exists (Ok a), d, dn, []. intros e. unfold ret.
  now rewrite List.app_nil_r.
Qed.

Lemma grows_raise {A : Type} (x : exn) : stderr_only_grows (@raise World A x).
Proof.
  intros d dn. exists (Raise x), d, dn, []. intros e. unfold raise.
  now rewrite List.app_nil_r.
Qed.

Lemma grows_lift {A : Type} (r : result A) : stderr_only_grows (lift r).
Proof.
  intros d dn. exists r, d, dn, []. intros e. unfold lift.
  now rewrite List.app_nil_r.
Qed.

Lemma grows_bind {A B : Type} (m : M World A) (k : A -> M World B) :
  stderr_only_grows m -> (forall a, stderr_only_grows (k a)) ->
  stderr_only_grows (bind m k).
Proof.
  intros Hm Hk d dn. destruct (Hm d dn) as (r & d1 & dn1 & out1 & H1).
  destruct r as [a|x].
  - destruct (Hk a d1 dn1) as (r2 & d2 & dn2 & out2 & H2).
    exists r2, d2, dn2, (out1 ++ out2)%list. intros e. unfold bind.
    rewrite H1, H2. now rewrite List.app_assoc.
  - exists (Raise x), d1, dn1, out1. intros e. unfold bind. now rewrite H1.
Qed.

Lemma grows_try {A : Type} (m : M World A) (h : string -> M World A) :
  stderr_only_grows m -> (forall err, stderr_only_grows (h err)) ->
  stderr_only_grows (try_IOError m h).
Proof.
  intros Hm Hh d dn. destruct (Hm d dn) as (r & d1 & dn1 & out1 & H1).
  destruct r as [a|x].
  - exists (Ok a), d1, dn1, out1. intros e. unfold try_IOError. now rewrite H1.
  - destruct x as [msg|err|msg|msg|msg|msg| |];
      try (eexists _, d1, dn1, out1; intros e; unfold try_IOError; now rewrite H1).
    destruct (Hh err d1 dn1) as (r2 & d2 & dn2 & out2 & H2).
    exists r2, d2, dn2, (out1 ++ out2)%list. intros e. unfold try_IOError.
    rewrite H1, H2. now rewrite List.app_assoc.
Qed.

Lemma grows_eprint (msg : string) : stderr_only_grows (eprint msg).
Proof. intros d dn. now exists (Ok tt), d, dn, [msg]. Qed.

Lemma grows_open_append (name : string) : stderr_only_grows (open_append name).
Proof.
  intros d dn. unfold open_append. simpl.
  destruct (List.existsb (String.eqb name) dn).
  - exists (Raise (IOError name)), d, dn, []. intros e. now rewrite List.app_nil_r.
  - destruct (lookup name d).
    + exists (Ok tt), d, dn, []. intros e. now rewrite List.app_nil_r.
    + exists (Ok tt), (store name "" d), dn, []. intros e. now rewrite List.app_nil_r.
Qed.

Lemma grows_getsize (name : string) : stderr_only_grows (getsize name).
Proof.
  intros d dn. unfold getsize. simpl. destruct (lookup name d) as [c|].
  - exists (Ok (String.length c)), d, dn, []. intros e. now rewrite List.app_nil_r.
  - exists (Raise (OSError name)), d, dn, []. intros e. now rewrite List.app_nil_r.
Qed.

Lemma grows_append_text (name text : string) :
  stderr_only_grows (append_text name text).
Proof.
  intros d dn. unfold append_text, modify. simpl. destruct (lookup name d) as [c|].
  - exists (Ok tt), (store name (c ++ text) d), dn, []. intros e.
    now rewrite List.app_nil_r.
  - exists (Ok tt), (store name text d), dn, []. intros e. now rewrite List.app_nil_r.
Qed.

Lemma grows_open_read (name : string) : stderr_only_grows (open_read name).
Proof.
  intros d dn. unfold open_read. simpl. destruct (lookup name d) as [c|].
  - exists (Ok c), d, dn, []. intros e. now rewrite List.app_nil_r.
  - exists (Raise (IOError name)), d, dn, []. intros e. now rewrite List.app_nil_r.
Qed.

Lemma grows_read_log (alg : string) (a : Agg) : stderr_only_grows (read_log alg a).
Proof.
  unfold read_log. apply grows_try.
  - apply grows_bind; [apply grows_open_read|]. intros content.
    apply grows_bind; [apply grows_lift|]. intros ms. apply grows_ret.
  - intros err. apply grows_bind; [apply grows_eprint|]. intros _. apply grows_ret.
Qed.

Lemma grows_read_logs (algs : list string) :
  forall a, stderr_only_grows (read_logs algs a).
Proof.
  induction algs as [|alg algs IH]; intros a; simpl.
  - apply grows_ret.
  - apply grows_bind; [apply grows_read_log|exact IH].
Qed.

Lemma grows_write_report (timestamp trace : string) (malgs : list string)
  (imsr : nat) (measure : string) (tbl : Table) :
  stderr_only_grows (write_report timestamp trace malgs imsr measure tbl).
Proof.
  unfold write_report. apply grows_try.
  - apply grows_bind; [apply grows_open_append|]. intros _.
    apply grows_bind; [apply grows_open_append|]. intros _.
    apply grows_bind; [apply grows_getsize|]. intros size.
    apply grows_bind; [apply grows_lift|]. intros rs.
    apply grows_bind; [apply grows_append_text|]. intros _.
    apply grows_append_text.
  - intros err. apply grows_eprint.
Qed.

Lemma grows_write_reports (timestamp trace : string) (malgs : list string)
  (names : list string) :
  forall imsr measures,
    stderr_only_grows (write_reports timestamp trace malgs imsr names measures).
Proof.
  induction names as [|measure names IH]; intros imsr measures; simpl.
  - apply grows_ret.
  - destruct measures as [|tbl measures]; [apply grows_raise|].
    apply grows_bind; [apply grows_write_report|]. intros _. apply IH.
Qed.

Lemma read_logs_app (algs1 algs2 : list string) :
  forall a w,
    read_logs (algs1 ++ algs2) a w = bind (read_logs algs1 a) (read_logs algs2) w.
Proof.
  induction algs1 as [|alg algs1 IH]; intros a w; simpl.
  - reflexivity.
  - unfold bind. destruct (read_log alg a w) as [[a1|e] w1]; [|reflexivity].
    rewrite IH. reflexivity.
Qed.

Lemma grows_report_phase (timestamp trace : string) (a : Agg) :
  stderr_only_grows (report_phase timestamp trace a).
Proof.
  unfold report_phase. destruct (malgs a); [apply grows_eprint|apply grows_write_reports].
Qed.

Lemma bind_bind_run {A B C : Type} (m : M World A) (k1 : A -> M World B)
  (k2 : B -> M World C) (a : A) (w w' : World) :
  m w = (Ok a, w') -> bind (bind m k1) k2 w = bind (k1 a) k2 w'.
Proof. intros Hm. unfold bind. now rewrite Hm. Qed.

Lemma aggexec_app (timestamp trace : string) (algs1 algs2 : list string) (w : World) :
  aggexec timestamp trace (algs1 ++ algs2) w
  = match read_logs algs1 agg0 w with
    | (Ok a1, w1) => bind (read_logs algs2 a1) (report_phase timestamp trace) w1
    | (Raise e, w1) => (Raise e, w1)
    end.
Proof.
  unfold aggexec. unfold bind at 1. rewrite read_logs_app. unfold bind at 1.
  destruct (read_logs algs1 agg0 w) as [[a1|x] w1]; reflexivity.
Qed.

(** C7. If the log of [alg] cannot be opened, the aggregation over a list
    that contains [alg] returns (or raises) what the aggregation over the
    list without it does and leaves the same files, so [alg] has no column in
    any report; and when the loop reaches [alg] (the logs before it were read
    without a fatal error) it prints the warning for [alg] and goes on with
    the algorithms after it. *)
Theorem aggexec_skips_missing_log (timestamp trace : string)
  (algs1 algs2 : list string) (alg : string) (w : World) :
  has_log w alg = false ->
  let without := aggexec timestamp trace (algs1 ++ algs2) w in
  let with_alg := aggexec timestamp trace (algs1 ++ alg :: algs2) w in
  fst with_alg = fst without
  /\ disk (snd with_alg) = disk (snd without)
  /\ (forall a w1, read_logs algs1 agg0 w = (Ok a, w1) ->
      exists out,
        stderr (snd without) = (stderr w1 ++ out)%list
        /\ stderr (snd with_alg) = (stderr w1 ++ skipped_warning alg :: out)%list).
Proof.
  intros Hlog without with_alg. subst without with_alg.
  rewrite !aggexec_app.
  destruct (read_logs algs1 agg0 w) as [[a1|x] w1] eqn:H1.
  2:{ split; [reflexivity|]. split; [reflexivity|].
      intros a w2 Heq. discriminate. }
  assert (Hd1 : disk w1 = disk w).
  { eapply read_logs_inv in H1 as (_ & Hd & _);
      [exact Hd|reflexivity|apply agg_inv_start]. }
  assert (Hstep : read_log alg a1 w1
                  = (Ok a1, mkWorld (disk w1) (denied w1)
                              (stderr w1 ++ [skipped_warning alg]))).
  { apply read_log_missing. unfold has_log in Hlog. rewrite Hd1.
    destruct (lookup (algesfile_of alg) (disk w)); [discriminate|reflexivity]. }
  simpl read_logs.
  rewrite !(@bind_bind_run _ _ _ _ _ _ _ _ _ Hstep).
  assert (Hg : stderr_only_grows
                 (bind (read_logs algs2 a1) (report_phase timestamp trace))).
  { apply grows_bind; [apply grows_read_logs|]. intros a. apply grows_report_phase. }
  destruct (Hg (disk w1) (denied w1)) as (r & d' & dn' & out & Hrun).
  pose proof (Hrun (stderr w1)) as Ha.
  pose proof (Hrun (stderr w1 ++ [skipped_warning alg])%list) as Hb.
  destruct w1 as [d1 dn1 e1]. simpl in Ha, Hb |- *.
  rewrite Ha, Hb. simpl.
  split; [reflexivity|]. split; [reflexivity|].
  intros a w4 Heq. injection Heq as <- <-. exists out.
  split; [reflexivity|]. simpl. now rewrite <- List.app_assoc.
Qed.

Lemma read_logs_all_missing (w0 : World) (algs : list string) :
  List.forallb (fun alg => negb (has_log w0 alg)) algs = true ->
  forall a w,
    disk w = disk w0 ->
    read_logs algs a w
    = (Ok a, mkWorld (disk w) (denied w)
               (stderr w ++ List.map skipped_warning algs)).
Proof.
  induction algs as [|alg algs IH]; intros Hall a w Hd; simpl.
  - unfold ret. rewrite List.app_nil_r. now destruct w.
  - simpl in Hall. apply andb_prop in Hall as [Hlog Hall].
    unfold bind. rewrite read_log_missing.
    + rewrite IH by auto. simpl. now rewrite <- List.app_assoc.
    + unfold has_log in Hlog. rewrite Hd.
      destruct (lookup (algesfile_of alg) (disk w0)); [discriminate|reflexivity].
Qed.

(** C8 (amended). When no log of the algorithms of the list can be opened
    (the empty list included), [aggexec] returns without creating or changing
    any file, having printed one warning for each algorithm of the list and
    then the warning that there is nothing to aggregate, which is the only
    one for the empty list. *)
Theorem aggexec_nothing_to_aggregate (timestamp trace : string)
  (algs : list string) (w : World) :
  List.forallb (fun alg => negb (has_log w alg)) algs = true ->
  aggexec timestamp trace algs w
  = (Ok tt, mkWorld (disk w) (denied w)
              (stderr w ++ List.map skipped_warning algs ++ [nothing_warning])).
Proof.
  intros Hall. unfold aggexec, bind.
  rewrite read_logs_all_missing with (w0 := w) by auto.
  unfold report_phase, eprint, modify. simpl. now rewrite <- List.app_assoc.
Qed.

(** *** The cells of the reports *)



(** *** Appending to the report files *)

Lemma string_app_inv_head (a x y : string) : a ++ x = a ++ y -> x = y.
Proof.
  induction a as [|c a IH]; simpl; intros Heq; [exact Heq|].
  injection Heq as Heq. now apply IH.
Qed.

Lemma report_names_differ (measure : string) :
  _EXTAGGRES <> _EXTAGGRESEXT -> resfile_of measure <> resxfile_of measure.
Proof.
  intros Hne Heq. apply Hne. unfold resfile_of, resxfile_of, PyStr.join in Heq.
  simpl in Heq. now do 2 apply string_app_inv_head in Heq.
Qed.

Lemma open_append_run (name : string) (w : World) :
  List.existsb (String.eqb name) (denied w) = false ->
  exists w1,
    open_append name w = (Ok tt, w1)
    /\ lookup name (disk w1) = Some (file_text name w)
    /\ (forall f, name <> f -> lookup f (disk w1) = lookup f (disk w))
    /\ denied w1 = denied w /\ stderr w1 = stderr w.
Proof.
  intros Hd. unfold open_append, file_text. rewrite Hd.
  destruct (lookup name (disk w)) as [c|] eqn:Hl.
  - exists w. repeat split; auto.
  - eexists. split; [reflexivity|]. simpl. split; [apply lookup_store_same|].
    split; [|auto]. intros f Hf. now apply lookup_store_other.
Qed.

Lemma append_text_run (name text c : string) (w : World) :
  lookup name (disk w) = Some c ->
  exists w1,
    append_text name text w = (Ok tt, w1)
    /\ lookup name (disk w1) = Some (c ++ text)
    /\ (forall f, name <> f -> lookup f (disk w1) = lookup f (disk w))
    /\ denied w1 = denied w /\ stderr w1 = stderr w.
Proof.
  intros Hl. unfold append_text, modify. rewrite Hl.
  eexists. split; [reflexivity|]. simpl. split; [apply lookup_store_same|].
  split; [|auto]. intros f Hf. now apply lookup_store_other.
Qed.

(** C6 (amended). When [aggexec] writes the reports of a measure, the compact
    and the extended file are opened for appending: each keeps its previous
    text and receives a new section after it.  The section starts with the
    timestamp line in both files on every run; in the extended file the
    unified format header is written before it only if that file was empty
    (or did not exist) before. *)
Theorem write_report_appends (timestamp trace : string) (malgs : list string)
  (imsr : nat) (measure : string) (tbl : Table) (rs : string * string) (w : World) :
  _EXTAGGRES <> _EXTAGGRESEXT ->
  List.existsb (String.eqb (resfile_of measure)) (denied w) = false ->
  List.existsb (String.eqb (resxfile_of measure)) (denied w) = false ->
  rows malgs imsr tbl = Ok rs ->
  let old := file_text (resfile_of measure) w in
  let oldx := file_text (resxfile_of measure) w in
  let run := write_report timestamp trace malgs imsr measure tbl w in
  fst run = Ok tt
  /\ lookup (resfile_of measure) (disk (snd run))
     = Some (old ++ stamp_line timestamp ++ algs_header malgs ++ fst rs)
  /\ lookup (resxfile_of measure) (disk (snd run))
     = Some (oldx ++ (if Nat.eqb (String.length oldx) 0 then header_x else "")
               ++ stamp_line timestamp ++ snd rs)
  /\ stderr (snd run) = stderr w.
Proof.
  intros Hext Hd Hdx Hrows old oldx run.
  pose proof (report_names_differ measure Hext) as Hne.
  destruct (open_append_run _ _ Hd) as (w1 & H1 & Hl1 & Ho1 & Hden1 & He1).
  rewrite <- Hden1 in Hdx.
  destruct (open_append_run _ _ Hdx) as (w2 & H2 & Hl2 & Ho2 & Hden2 & He2).
  assert (Hx2 : lookup (resxfile_of measure) (disk w2) = Some oldx).
  { rewrite Hl2. unfold oldx, file_text. now rewrite Ho1. }
  assert (Hr2 : lookup (resfile_of measure) (disk w2) = Some old).
  { rewrite Ho2 by congruence. exact Hl1. }
  destruct (append_text_run _
              (stamp_line timestamp ++ algs_header malgs ++ fst rs) _ _ Hr2)
    as (w3 & H3 & Hl3 & Ho3 & Hden3 & He3).
  assert (Hx3 : lookup (resxfile_of measure) (disk w3) = Some oldx).
  { rewrite Ho3 by exact Hne. exact Hx2. }
  destruct (append_text_run _
              ((if Nat.eqb (String.length oldx) 0 then header_x else "")
                 ++ stamp_line timestamp ++ snd rs) _ _ Hx3)
    as (w4 & H4 & Hl4 & Ho4 & Hden4 & He4).
  assert (Hrun : run = (Ok tt, w4)).
  { unfold run, write_report, try_IOError, bind.
    rewrite H1, H2. unfold getsize. rewrite Hx2.
    unfold lift. rewrite Hrows, H3, H4. reflexivity. }
  rewrite Hrun. simpl. split; [reflexivity|]. split.
  - rewrite Ho4 by congruence. exact Hl3.
  - split; [exact Hl4|]. congruence.
Qed.

End AggregationFacts.

(** * Properties of [PyBin.bestof] *)

Lemma init_attrs (host : Host) :
  let cls := PyBin.init host in
  (PyBin._pypy3 cls = None \/ PyBin._pypy3 cls = Some "pypy3")
  /\ (PyBin._pypy cls = None \/ PyBin._pypy cls = Some "pypy")
  /\ (PyBin._python3 cls = None \/ PyBin._python3 cls = Some "python3").
Proof.
  unfold PyBin.init.
  destruct (call_h host "pypy3") as [|c3]; simpl; [auto|].
  destruct (call_h host "pypy") as [|c2]; simpl.
  { destruct (c3 =? 0)%Z; auto. }
  destruct (call_h host "python3") as [|c]; simpl;
    destruct (c3 =? 0)%Z; destruct (c2 =? 0)%Z; try destruct (c =? 0)%Z; auto.
Qed.

(** C9. [PyBin.bestof(pypy, v3)] is a function of the probed interpreters,
    of the running interpreter and of its two arguments, and follows the
    priority order: pypy3 when [pypy] and [v3] are requested and pypy3 is
    available; otherwise pypy when [pypy] is requested and pypy is available;
    otherwise python3 when [v3] is requested and python3 is available;
    otherwise the running interpreter or the generic name [python].  In the
    first three cases the answer is the name of that runtime, or the running
    interpreter when it is that runtime already. *)
Theorem bestof_priority (host : Host) (pypy v3 : bool) :
  let cls := PyBin.init host in
  let r := PyBin.bestof cls (PYEXEC host) pypy v3 in
  if (pypy && v3 && PyBin.truthy (PyBin._pypy3 cls))%bool
  then PyBin.runs "pypy3" (PYEXEC host) r
  else if (pypy && PyBin.truthy (PyBin._pypy cls))%bool
  then PyBin.runs "pypy" (PYEXEC host) r
  else if (v3 && PyBin.truthy (PyBin._python3 cls))%bool
  then PyBin.runs "python3" (PYEXEC host) r
  else r = PYEXEC host \/ r = "python".
Proof.
  intros cls r. subst r. unfold PyBin.bestof, PyBin.runs.
  destruct (init_attrs host) as (H3 & H2 & Hp). fold cls in H3, H2, Hp.
  set (pyname := snd (OsPath.split (PYEXEC host))).
  destruct (pypy && v3 && PyBin.truthy (PyBin._pypy3 cls))%bool eqn:E3.
  { destruct H3 as [H3|H3]; rewrite H3 in E3 |- *.
    - simpl in E3. now rewrite !andb_false_r in E3.
    - simpl. destruct (Z.eqb_spec (PyStr.find "pypy3" pyname) (-1)); auto. }
  destruct (pypy && PyBin.truthy (PyBin._pypy cls))%bool eqn:E2.
  { destruct H2 as [H2|H2]; rewrite H2 in E2 |- *.
    - simpl in E2. now rewrite andb_false_r in E2.
    - simpl. destruct (Z.eqb_spec (PyStr.find "pypy" pyname) (-1)); simpl; auto.
      destruct (Z.eqb (PyStr.find "pypy" pyname) (PyStr.find "pypy3" pyname)); auto. }
  destruct (v3 && PyBin.truthy (PyBin._python3 cls))%bool eqn:Ep.
  { destruct Hp as [Hp|Hp]; rewrite Hp in Ep |- *.
    - simpl in Ep. now rewrite andb_false_r in Ep.
    - simpl. destruct (Z.eqb_spec (PyStr.find "python3" pyname) (-1)); auto. }
  destruct (_ || _)%bool; auto.
Qed.

(** * Properties of [preparePath] *)

(** ** Splitting and resolving path strings *)

Lemma rsplit_on_spec (c : ascii) (s h t : string) :
  OsPath.rsplit_on c s = Some (h, t) ->
  s = h ++ String c t /\ has_char c t = false.
Proof.
  revert h t. induction s as [|a s IH]; intros h t Hs; simpl in Hs; [discriminate|].
  destruct (OsPath.rsplit_on c s) as [[h' t']|] eqn:E.
  - injection Hs as <- <-. destruct (IH _ _ eq_refl) as [-> Ht]. now split.
  - destruct (Ascii.eqb_spec a c) as [->|Hne]; [|discriminate].
    injection Hs as <- <-. split; [reflexivity|].
    clear IH. induction s as [|b s IHs]; [reflexivity|]. simpl in E |- *.
    destruct (OsPath.rsplit_on c s) as [[h' t']|]; [discriminate|].
    destruct (Ascii.eqb b c); [discriminate|]. now apply IHs.
Qed.


Lemma rsplit_on_none_inv (c : ascii) (s : string) :
  OsPath.rsplit_on c s = None -> has_char c s = false.
Proof.
  induction s as [|a s IH]; simpl; [reflexivity|].
  destruct (OsPath.rsplit_on c s) as [[h t]|]; [discriminate|].
  destruct (Ascii.eqb a c); [discriminate|]. intros _. now apply IH.
Qed.


Lemma pieces_nonempty (s : string) : OsPath.pieces s <> [].
Proof.
  destruct s as [|c s]; simpl; [discriminate|].
  destruct (Ascii.eqb c "/"); [discriminate|].
  destruct (OsPath.pieces s); discriminate.
Qed.

Lemma pieces_app (h t : string) :
  OsPath.pieces (h ++ String "/" t) = (OsPath.pieces h ++ OsPath.pieces t)%list.
Proof.
  induction h as [|c h IH]; simpl; [reflexivity|].
  destruct (Ascii.eqb c "/"); [now rewrite IH|].
  rewrite IH. pose proof (pieces_nonempty h) as Hne.
  destruct (OsPath.pieces h); [contradiction|reflexivity].
Qed.

Lemma pieces_plain (t : string) :
  has_char "/" t = false -> OsPath.pieces t = [t].
Proof.
  induction t as [|c t IH]; simpl; [reflexivity|]. intros Ht.
  apply orb_false_elim in Ht as [Hc Ht']. now rewrite Hc, (IH Ht').
Qed.

Lemma normalize_snoc (t : string) (xs : list string) :
  plain t = true ->
  forall done,
    OsPath.normalize done (xs ++ [t]) = (OsPath.normalize done xs ++ [t])%list.
Proof.
  intros Ht. apply negb_true_iff in Ht.
  apply orb_false_elim in Ht as [Ht H2]. apply orb_false_elim in Ht as [H0 H1].
  induction xs as [|x xs IH]; intros done; simpl.
  - now rewrite H0, H1, H2.
  - destruct (String.eqb x "" || String.eqb x "."); [apply IH|].
    destruct (String.eqb x ".."); apply IH.
Qed.

Lemma normalize_snoc_empty (xs : list string) :
  forall done, OsPath.normalize done (xs ++ [""]) = OsPath.normalize done xs.
Proof.
  induction xs as [|x xs IH]; intros done; simpl; [reflexivity|].
  destruct (String.eqb x "" || String.eqb x "."); [apply IH|].
  destruct (String.eqb x ".."); apply IH.
Qed.


Section PathFacts.

Context `{Constants}.

Variable host : Host.






End PathFacts.

(** ** The directory tree *)

Lemma find_app (p q : list string) :
  forall n,
    Fs.find (p ++ q) n = match Fs.find p n with
                         | Some m => Fs.find q m
                         | None => None
                         end.
Proof.
  induction p as [|c p IH]; intros n; simpl; [reflexivity|].
  destruct n as [size|es]; [reflexivity|].
  destruct (lookup c es); [apply IH|reflexivity].
Qed.

Lemma find_chain (p : list string) : Fs.find p (Fs.chain p) = Some (Fs.Dir []).
Proof.
  induction p as [|c p IH]; simpl; [reflexivity|]. now rewrite String.eqb_refl.
Qed.

(** [os.makedirs] creates a missing path as an empty directory, unless the
    path runs into a regular file. *)
Lemma makedirs_creates (p : list string) :
  forall n,
    Fs.find p n = None -> Fs.file_above p n = false ->
    exists n', Fs.makedirs p n = Ok n' /\ Fs.find p n' = Some (Fs.Dir []).
Proof.
  induction p as [|c p IH]; intros n Hf Ha; [discriminate|].
  destruct n as [size|es]; [discriminate|]. simpl in *.
  destruct (lookup c es) as [m|] eqn:El.
  - destruct (IH m Hf Ha) as (m' & Hm & Hfm). rewrite Hm. simpl.
    eexists. split; [reflexivity|]. simpl. now rewrite lookup_store_same.
  - eexists. split; [reflexivity|]. simpl. rewrite lookup_store_same.
    apply find_chain.
Qed.

Lemma makedirs_blocked (p : list string) :
  forall n,
    Fs.find p n = None -> Fs.file_above p n = true ->
    Fs.makedirs p n = Raise (OSError "Not a directory").
Proof.
  induction p as [|c p IH]; intros n Hf Ha; [discriminate|].
  destruct n as [size|es]; [reflexivity|]. simpl in *.
  destruct (lookup c es) as [m|] eqn:El; [|discriminate].
  now rewrite (IH m Hf Ha).
Qed.



Lemma lookup_filter_none {A : Type} (f : string * A -> bool) (k : string)
  (l : list (string * A)) :
  (forall v, f (k, v) = false) -> lookup k (List.filter f l) = None.
Proof.
  intros Hf. induction l as [|[k' v'] l IH]; simpl; [reflexivity|].
  destruct (f (k', v')) eqn:E; [|exact IH]. simpl.
  destruct (String.eqb_spec k k') as [->|Hne]; [|exact IH].
  now rewrite Hf in E.
Qed.

(** ** What the operating system answers *)


Section StatFacts.

Context `{Constants}.

Variable host : Host.

Lemma os_stat_state (path : string) (s : Sys) : snd (os_stat host path s) = s.
Proof.
  unfold os_stat. destruct (PyStr.is_empty path); [reflexivity|].
  destruct (Fs.find (locate host path) (root s)) as [[size|es]|]; [| |reflexivity].
  - destruct (dotdot path); [reflexivity|]. now destruct (wants_dir path).
  - now destruct (dotdot path).
Qed.

(** What [os.stat] returns is the node at the components of the path. *)
Lemma os_stat_node (path : string) (s s' : Sys) (n : Fs.node) :
  os_stat host path s = (Ok n, s') ->
  s' = s /\ Fs.find (locate host path) (root s) = Some n
  /\ PyStr.is_empty path = false /\ dotdot path = false
  /\ (regular_file (Some n) = true -> wants_dir path = false).
Proof.
  unfold os_stat. destruct (PyStr.is_empty path); [discriminate|].
  destruct (Fs.find (locate host path) (root s)) as [[size|es]|]; [| |discriminate].
  - destruct (dotdot path); [discriminate|]. destruct (wants_dir path); [discriminate|].
    intros Heq. injection Heq as <- <-. auto.
  - destruct (dotdot path); [discriminate|].
    intros Heq. injection Heq as <- <-. repeat split; auto. discriminate.
Qed.

Lemma os_stat_dir (path : string) (s : Sys) (es : list (string * Fs.node)) :
  PyStr.is_empty path = false -> dotdot path = false ->
  Fs.find (locate host path) (root s) = Some (Fs.Dir es) ->
  os_stat host path s = (Ok (Fs.Dir es), s).
Proof. intros He Hd Hf. unfold os_stat. now rewrite He, Hf, Hd. Qed.

Lemma os_stat_file (path : string) (s : Sys) (size : Z) :
  PyStr.is_empty path = false -> dotdot path = false -> wants_dir path = false ->
  Fs.find (locate host path) (root s) = Some (Fs.File size) ->
  os_stat host path s = (Ok (Fs.File size), s).
Proof. intros He Hd Hw Hf. unfold os_stat. now rewrite He, Hf, Hd, Hw. Qed.

(** A path that is absent from the tree is absent. *)
Lemma os_stat_absent (path : string) (s : Sys) :
  Fs.find (locate host path) (root s) = None ->
  exists msg, os_stat host path s = (Raise (OSError msg), s).
Proof.
  intros Hf. unfold os_stat. destruct (PyStr.is_empty path); [now eexists|].
  rewrite Hf. now eexists.
Qed.

Lemma os_path_exists_state (path : string) (s : Sys) :
  snd (os_path_exists host path s) = s.
Proof.
  unfold os_path_exists. destruct (os_stat host path s) as [[n|e] s1]; [reflexivity|].
  now destruct e.
Qed.

Lemma os_path_exists_dir (path : string) (s : Sys) (es : list (string * Fs.node)) :
  PyStr.is_empty path = false -> dotdot path = false ->
  Fs.find (locate host path) (root s) = Some (Fs.Dir es) ->
  os_path_exists host path s = (Ok true, s).
Proof.
  intros He Hd Hf. unfold os_path_exists. now rewrite (os_stat_dir path s es He Hd Hf).
Qed.


(** What exists has a node in the tree, at a path that is not empty and has
    no [..]. *)
Lemma os_path_exists_true (path : string) (s s' : Sys) :
  os_path_exists host path s = (Ok true, s') ->
  s' = s /\ PyStr.is_empty path = false /\ dotdot path = false
  /\ exists n, Fs.find (locate host path) (root s) = Some n
               /\ (regular_file (Some n) = true -> wants_dir path = false).
Proof.
  unfold os_path_exists. destruct (os_stat host path s) as [[n|e] s1] eqn:Hs.
  - intros Heq. injection Heq as <-.
    apply os_stat_node in Hs as (_ & Hf & He & Hd & Hw). eauto 7.
  - destruct e; discriminate.
Qed.

(** What does not exist is absent from the tree, unless it is a regular file
    asked for as a directory; there is no such thing as the empty path. *)
Lemma os_path_exists_false (path : string) (s s' : Sys) :
  os_path_exists host path s = (Ok false, s') ->
  s' = s
  /\ (PyStr.is_empty path = true
      \/ Fs.find (locate host path) (root s) = None
      \/ (regular_file (Fs.find (locate host path) (root s)) = true
          /\ wants_dir path = true)).
Proof.
  unfold os_path_exists, os_stat. destruct (PyStr.is_empty path); [intros Heq|].
  - injection Heq as <-. auto.
  - destruct (Fs.find (locate host path) (root s)) as [[size|es]|].
    + destruct (dotdot path); [discriminate|].
      destruct (wants_dir path); [|discriminate]. intros Heq. injection Heq as <-. auto.
    + destruct (dotdot path); discriminate.
    + intros Heq. injection Heq as <-. auto.
Qed.

End StatFacts.

Section PreparePath.

Context `{Constants}.

Variable host : Host.




End PreparePath.

(** * Properties of the builders *)

(** ** Computations that leave the pool alone *)

Lemma quiet_ret {A : Type} (a : A) : quiet (@ret Sys A a).
Proof. intros s. reflexivity. Qed.

Lemma quiet_raise {A : Type} (e : exn) : quiet (@raise Sys A e).
Proof. intros s. reflexivity. Qed.

Lemma quiet_lift {A : Type} (r : result A) : quiet (@lift Sys A r).
Proof. intros s. reflexivity. Qed.

Lemma quiet_assert (cond : bool) (msg : string) : quiet (@assert Sys cond msg).
Proof. intros s. unfold assert. destruct cond; reflexivity. Qed.

Lemma quiet_bind {A B : Type} (m : M Sys A) (k : A -> M Sys B) :
  quiet m -> (forall a, quiet (k a)) -> quiet (bind m k).
Proof.
  intros Hm Hk s. unfold bind. specialize (Hm s).
  destruct (m s) as [[a|e] s1]; simpl in *; [|exact Hm].
  now rewrite (Hk a s1).
Qed.

Section QuietSteps.

Context `{Constants}.

Variable host : Host.

Lemma quiet_exists (path : string) : quiet (os_path_exists host path).
Proof. intros s. now rewrite os_path_exists_state. Qed.

Lemma quiet_dirempty (path : string) : quiet (dirempty host path).
Proof. intros s. reflexivity. Qed.

Lemma quiet_getsize (path : string) : quiet (os_path_getsize host path).
Proof.
  intros s. unfold os_path_getsize.
  now destruct (os_stat host path s) as [[[size|es]|e] s1].
Qed.

Lemma quiet_makedirs (path : string) : quiet (os_makedirs host path).
Proof.
  intros s. unfold os_makedirs. destruct (PyStr.is_empty path); [reflexivity|].
  destruct (dotdot path); [reflexivity|].
  destruct (negb (anchored host path s)); [reflexivity|].
  destruct (Fs.find _ _) as [[size|es]|]; [reflexivity| |];
    destruct (Fs.makedirs _ _); reflexivity.
Qed.

Lemma quiet_mkdir (path : string) : quiet (os_mkdir host path).
Proof.
  intros s. unfold os_mkdir. destruct (PyStr.is_empty path); [reflexivity|].
  destruct (dotdot path); [reflexivity|].
  destruct (dot_ended path).
  - now destruct (os_stat host path s) as [[n|e] s1].
  - destruct (Fs.mkdir _ _); reflexivity.
Qed.

Lemma quiet_tobackup (basepath : string) (expand move : bool) :
  quiet (tobackup host basepath expand move).
Proof.
  intros s. unfold tobackup.
  destruct (Fs.find _ _) as [[size|es]|]; try reflexivity.
  destruct (List.filter _ es); [reflexivity|].
  destruct (Fs.alter _ _ _); reflexivity.
Qed.

Lemma quiet_preparePath (taskpath : string) : quiet (preparePath host taskpath).
Proof.
  unfold preparePath. apply quiet_bind; [apply quiet_exists|]. intros ex.
  destruct (negb ex); [apply quiet_makedirs|].
  apply quiet_bind; [apply quiet_dirempty|]. intros empty.
  destruct (negb empty); [|apply quiet_ret].
  apply quiet_bind; [apply quiet_tobackup|]. intros _. apply quiet_mkdir.
Qed.

Lemma quiet_prepareResDir (appname task : string) (odir : bool) (pathid : string) :
  quiet (prepareResDir host appname task odir pathid).
Proof.
  unfold prepareResDir. apply quiet_bind.
  - destruct odir; [|apply quiet_ret].
    apply quiet_bind; [apply quiet_lift|]. intros base.
    apply quiet_bind; [apply quiet_lift|]. intros inst. apply quiet_ret.
  - intros taskdir. apply quiet_bind; [apply quiet_preparePath|].
    intros _. apply quiet_ret.
Qed.

Lemma quiet_network_size (netfile : string) (asym : option bool) :
  quiet (network_size host netfile asym).
Proof.
  unfold network_size. apply quiet_bind; [apply quiet_getsize|].
  intros netsize. apply quiet_ret.
Qed.

End QuietSteps.

(** ** Counting and sizing the jobs *)

Section Builds.

Variable P : Job -> Prop.

Lemma builds_quiet {A : Type} (m : M Sys A) (s : Sys) :
  quiet m -> builds_at P 0 (fun _ => True) m s.
Proof.
  intros Hq. exists []. rewrite List.app_nil_r. split; [apply Hq|].
  split; [constructor|]. intros r _. now split.
Qed.

Lemma builds_ret {A : Type} (post : A -> Prop) (a : A) (s : Sys) :
  post a -> builds_at P 0 post (ret a) s.
Proof.
  intros Ha. exists []. simpl. rewrite List.app_nil_r. split; [reflexivity|].
  split; [constructor|]. intros r Hr. injection Hr as <-. now split.
Qed.

Lemma builds_bind {A B : Type} (k1 k2 : nat) (mid : A -> Prop) (post : B -> Prop)
  (m : M Sys A) (f : A -> M Sys B) (s : Sys) :
  builds_at P k1 mid m s ->
  (forall a s', mid a -> builds_at P k2 post (f a) s') ->
  builds_at P (k1 + k2) post (bind m f) s.
Proof.
  intros (new1 & Hp1 & HP1 & Hr1) Hf. unfold builds_at, bind.
  destruct (m s) as [[a|e] s1]; simpl in *.
  - destruct (Hr1 a eq_refl) as [Hk1 Hmid].
    destruct (Hf a s1 Hmid) as (new2 & Hp2 & HP2 & Hr2).
    exists (new1 ++ new2)%list. rewrite Hp2, Hp1, List.app_assoc.
    split; [reflexivity|]. split; [now apply List.Forall_app|].
    intros r Hr. destruct (Hr2 r Hr) as [Hk2 Hpost].
    rewrite List.length_app. split; [lia|exact Hpost].
  - exists new1. split; [exact Hp1|]. split; [exact HP1|]. intros r Hr. discriminate.
Qed.

(** A step that leaves the pool alone, then the rest. *)
Lemma builds_step {A B : Type} (k : nat) (post : B -> Prop)
  (m : M Sys A) (f : A -> M Sys B) (s : Sys) :
  quiet m ->
  (forall a s', builds_at P k post (f a) s') ->
  builds_at P k post (bind m f) s.
Proof.
  intros Hq Hf. apply (builds_bind 0 k (fun _ => True)).
  - now apply builds_quiet.
  - intros a s' _. apply Hf.
Qed.

Lemma builds_execute (job : Job) (s : Sys) :
  P job -> builds_at P 1 (fun _ => True) (execute job) s.
Proof.
  intros Hj. exists [job]. simpl. split; [reflexivity|].
  split; [now repeat constructor|]. intros r _. now split.
Qed.

Lemma builds_weaken {A : Type} (k : nat) (post post' : A -> Prop)
  (m : M Sys A) (s : Sys) :
  (forall a, post a -> post' a) -> builds_at P k post m s -> builds_at P k post' m s.
Proof.
  intros Himp (new & Hp & HP & Hr). exists new. split; [exact Hp|].
  split; [exact HP|]. intros r Hok. destruct (Hr r Hok). auto.
Qed.

Lemma builds_for_each {A : Type} (body : A -> M Sys unit) :
  (forall x s, builds_at P 1 (fun _ => True) (body x) s) ->
  forall xs s,
    builds_at P (List.length xs) (fun _ => True) (for_each xs body) s.
Proof.
  intros Hb. induction xs as [|x xs IH]; intros s; simpl.
  - now apply builds_ret.
  - apply (builds_bind 1 (List.length xs) (fun _ => True)); [apply Hb|].
    intros _ s' _. apply IH.
Qed.

Lemma builds_sweep (body : float -> M Sys unit) (epsMax deps : float) :
  (forall eps s, builds_at P 1 (fun _ => True) (body eps) s) ->
  forall fuel eps n s,
    iterations fuel eps epsMax deps = Some n ->
    builds_at P n (fun _ => True) (sweep fuel body eps epsMax deps) s.
Proof.
  intros Hb. induction fuel as [|fuel IH]; intros eps n s Hit; [discriminate|].
  simpl in Hit |- *. destruct (eps <=? epsMax)%float.
  - destruct (iterations fuel (eps + deps) epsMax deps) as [n'|] eqn:E;
      [|discriminate].
    injection Hit as <-.
    apply (builds_bind 1 n' (fun _ => True)); [apply Hb|].
    intros _ s' _. now apply IH.
  - injection Hit as <-. now apply builds_ret.
Qed.

End Builds.

(** Once [fuel] is enough to leave the loop, more fuel changes nothing. *)
Lemma sweep_fuel (body : float -> M Sys unit) (epsMax deps : float) :
  forall fuel eps n,
    iterations fuel eps epsMax deps = Some n ->
    forall more s,
      sweep (fuel + more) body eps epsMax deps s
      = sweep fuel body eps epsMax deps s.
Proof.
  induction fuel as [|fuel IH]; intros eps n Hit more s; [discriminate|].
  simpl in Hit |- *. destruct (eps <=? epsMax)%float; [|reflexivity].
  destruct (iterations fuel (eps + deps) epsMax deps) as [n'|] eqn:E; [|discriminate].
  unfold bind. destruct (body eps s) as [[u|e] s1]; [|reflexivity].
  exact (IH _ _ E more s1).
Qed.

Section BuildsSteps.

Variable P : Job -> Prop.

(** The steps that come before the network size is read run in the start
    state itself. *)
Lemma builds_assert {B : Type} (k : nat) (post : B -> Prop) (cond : bool)
  (msg : string) (f : unit -> M Sys B) (s : Sys) :
  (cond = true -> builds_at P k post (f tt) s) ->
  builds_at P k post (bind (assert cond msg) f) s.
Proof.
  intros Hf. destruct cond.
  - exact (Hf eq_refl).
  - exists []. simpl. rewrite List.app_nil_r. split; [reflexivity|].
    split; [constructor|]. intros r Hr. discriminate.
Qed.

Lemma builds_assert_failing {B : Type} (k : nat) (post : B -> Prop) (cond : bool)
  (failure : exn) (f : unit -> M Sys B) (s : Sys) :
  (cond = true -> builds_at P k post (f tt) s) ->
  builds_at P k post (bind (assert_failing cond failure) f) s.
Proof.
  intros Hf. destruct cond.
  - exact (Hf eq_refl).
  - exists []. simpl. rewrite List.app_nil_r. split; [reflexivity|].
    split; [constructor|]. intros r Hr. discriminate.
Qed.

Lemma builds_lift {A B : Type} (k : nat) (post : B -> Prop) (r : result A)
  (f : A -> M Sys B) (s : Sys) :
  (forall a, r = Ok a -> builds_at P k post (f a) s) ->
  builds_at P k post (bind (lift r) f) s.
Proof.
  intros Hf. destruct r as [a|e].
  - exact (Hf a eq_refl).
  - exists []. simpl. rewrite List.app_nil_r. split; [reflexivity|].
    split; [constructor|]. intros r Hr. discriminate.
Qed.

(** The last steps of a builder that submits one job. *)
Lemma builds_submit (job : Job) (v : Z) (s : Sys) :
  P job ->
  builds_at P 1 (fun r => r = v) (bind (execute job) (fun _ => ret v)) s.
Proof.
  intros Hj. apply (builds_bind P 1 0 (fun _ => True)).
  - now apply builds_execute.
  - intros _ s' _. now apply builds_ret.
Qed.

End BuildsSteps.

Section BuilderFacts.

Context `{Constants}.

Variable host : Host.

(** The jobs satisfy [P] as soon as every job with a size [Q] allows does,
    [Q] being what is known of the network size read in the start state. *)
Variable P : Job -> Prop.
Variable Q : Z -> Prop.
Hypothesis P_of_size : forall job, Q (job_size job) -> P job.

Ltac prepared :=
  apply builds_step; [apply quiet_prepareResDir|intros ? ?].

Ltac opening s netfile asym Hsize :=
  first [apply builds_assert|apply builds_assert_failing]; intros _;
  apply (builds_bind P 0 _ Q); [exact Hsize|]; intros ? ? ?.

Lemma execLouvainIg_builds (execpool : bool) (netfile : string)
  (asym : option bool) (odir : bool) (timeout : Z) (pathid workdir : string)
  (seed : option Z) (s : Sys) :
  builds_at P 0 Q (network_size host netfile asym) s ->
  builds_at P 1 (fun r => r = 1%Z)
    (execLouvainIg host execpool netfile asym odir timeout pathid workdir seed) s.
Proof.
  intros Hsize. unfold execLouvainIg. opening s netfile asym Hsize.
  apply builds_step; [apply quiet_assert|intros ? ?].
  apply builds_step; [apply quiet_lift|intros ? ?].
  prepared. apply builds_submit. now apply P_of_size.
Qed.

Lemma execScp_builds (execpool : bool) (netfile : string)
  (asym : option bool) (odir : bool) (timeout : Z) (pathid workdir : string)
  (seed : option Z) (s : Sys) :
  builds_at P 0 Q (network_size host netfile asym) s ->
  builds_at P 6 (fun r => r = 6%Z)
    (execScp host execpool netfile asym odir timeout pathid workdir seed) s.
Proof.
  intros Hsize. unfold execScp. opening s netfile asym Hsize.
  apply builds_step; [apply quiet_assert|intros ? ?].
  apply builds_step; [apply quiet_lift|intros ? ?].
  apply (builds_bind P 6 0 (fun _ => True)).
  - apply (builds_for_each P _). intros k s0.
    apply (builds_bind P 0 1 (fun _ => True));
      [apply builds_quiet, quiet_prepareResDir|].
    intros taskpath s1 _. apply builds_execute. now apply P_of_size.
  - intros _ s0 _. now apply builds_ret.
Qed.

Lemma execRandcommuns_builds (execpool : bool) (netfile : string)
  (asym : option bool) (odir : bool) (timeout : Z) (pathid workdir : string)
  (seed : option Z) (instances : Z) (s : Sys) :
  builds_at P 0 Q (network_size host netfile asym) s ->
  builds_at P 1 (fun r => r = 1%Z)
    (execRandcommuns host execpool netfile asym odir timeout pathid workdir seed
       instances) s.
Proof.
  intros Hsize. unfold execRandcommuns. opening s netfile asym Hsize.
  destruct (OsPath.splitext netfile) as [nfile netext].
  apply builds_step; [apply quiet_assert|intros ? ?].
  apply builds_step; [apply quiet_lift|intros ? ?].
  prepared. apply builds_submit. now apply P_of_size.
Qed.

Lemma daocGamma_builds (algname : string) (execpool : bool) (netfile : string)
  (asym : option bool) (odir : bool) (timeout : Z) (pathid workdir : string)
  (seed : option Z) (rlevout : float) (gamma : option Z) (s : Sys) :
  builds_at P 0 Q (network_size host netfile asym) s ->
  builds_at P 1 (fun r => r = 1%Z)
    (daocGamma host algname execpool netfile asym odir timeout pathid workdir
       seed rlevout gamma) s.
Proof.
  intros Hsize. unfold daocGamma. opening s netfile asym Hsize.
  apply builds_step; [apply quiet_assert|intros ? ?].
  prepared. apply builds_submit. now apply P_of_size.
Qed.

Lemma execGanxis_builds (execpool : bool) (netfile : string)
  (asym : option bool) (odir : bool) (timeout : Z) (pathid workdir : string)
  (seed : option Z) (s : Sys) :
  builds_at P 0 Q (network_size host netfile asym) s ->
  builds_at P 1 (fun r => r = 1%Z)
    (execGanxis host execpool netfile asym odir timeout pathid workdir seed) s.
Proof.
  intros Hsize. unfold execGanxis. opening s netfile asym Hsize.
  apply builds_step; [apply quiet_assert|intros ? ?].
  apply builds_step; [apply quiet_lift|intros ? ?].
  prepared. apply builds_submit. now apply P_of_size.
Qed.

Lemma execOslom2_builds (execpool : bool) (netfile : string)
  (asym : option bool) (odir : bool) (timeout : Z) (pathid workdir : string)
  (seed : option Z) (s : Sys) :
  builds_at P 0 Q (network_size host netfile asym) s ->
  builds_at P 1 (fun r => r = 1%Z)
    (execOslom2 host execpool netfile asym odir timeout pathid workdir seed) s.
Proof.
  intros Hsize. unfold execOslom2. opening s netfile asym Hsize.
  destruct (OsPath.split netfile) as [netbasepath task0].
  destruct (OsPath.splitext task0) as [task netext].
  apply builds_step; [apply quiet_assert|intros ? ?].
  apply builds_step; [apply quiet_lift|intros ? ?].
  prepared. apply builds_submit. now apply P_of_size.
Qed.

(** The loop of [execPscan] makes eleven iterations: its bound [epsMax] is
    inclusive and is reached by the tenth addition of [deps]. *)
Lemma pscan_iterations :
  iterations 16 0.05 0.9 ((0.9 - 0.05) / PyFloat.of_int 10) = Some 11.
Proof. vm_compute. reflexivity. Qed.

Lemma execPscan_builds (execpool : bool) (netfile : string)
  (asym : option bool) (odir : bool) (timeout : Z) (pathid workdir : string)
  (seed : option Z) (s : Sys) :
  builds_at P 0 Q (network_size host netfile asym) s ->
  builds_at P 11 (fun r => r = 10%Z)
    (execPscan host execpool netfile asym odir timeout pathid workdir seed) s.
Proof.
  intros Hsize. unfold execPscan, execPscan_fuel. opening s netfile asym Hsize.
  apply builds_step; [apply quiet_assert|intros ? ?].
  apply builds_step; [apply quiet_lift|intros ? ?].
  apply (builds_bind P 11 0 (fun _ => True)).
  - apply (builds_sweep P); [|exact pscan_iterations]. intros eps s0.
    apply (builds_bind P 0 1 (fun _ => True));
      [apply builds_quiet, quiet_prepareResDir|].
    intros taskpath s1 _. apply builds_execute. now apply P_of_size.
  - intros _ s0 _. now apply builds_ret.
Qed.

Lemma rgmcAlg_builds (algname : string) (execpool : bool) (netfile : string)
  (asym : option bool) (odir : bool) (timeout : Z) (pathid workdir : string)
  (seed : option Z) (alg : option Z) (s : Sys) :
  builds_at P 0 Q (network_size host netfile asym) s ->
  builds_at P 1 (fun r => r = 1%Z)
    (rgmcAlg host algname execpool netfile asym odir timeout pathid workdir seed
       alg) s.
Proof.
  intros Hsize. unfold rgmcAlg. opening s netfile asym Hsize.
  apply builds_step; [apply quiet_assert|intros ? ?].
  prepared. apply builds_submit. now apply P_of_size.
Qed.

Lemma execScd_builds (execpool : bool) (netfile : string)
  (asym : option bool) (odir : bool) (timeout : Z) (pathid workdir : string)
  (seed : option Z) (s : Sys) :
  builds_at P 0 Q (network_size host netfile asym) s ->
  builds_at P 1 (fun r => r = 1%Z)
    (execScd host execpool netfile asym odir timeout pathid workdir seed) s.
Proof.
  intros Hsize. unfold execScd. opening s netfile asym Hsize.
  apply builds_step; [apply quiet_assert|intros ? ?].
  apply builds_step; [apply quiet_lift|intros ? ?].
  prepared. apply builds_submit. now apply P_of_size.
Qed.

Lemma exec_builds (b : builder) (execpool : bool) (netfile : string)
  (asym : option bool) (odir : bool) (timeout : Z) (pathid : string)
  (workdir : option string) (seed : option Z) (s : Sys) :
  builds_at P 0 Q (network_size host netfile asym) s ->
  builds_at P (jobs_of b) (fun r => r = returned_by b)
    (exec host b execpool netfile asym odir timeout pathid workdir seed) s.
Proof.
  intros Hsize. destruct b; unfold exec, jobs_of, returned_by.
  - now apply execLouvainIg_builds.
  - now apply execScp_builds.
  - now apply execRandcommuns_builds.
  - unfold execDaoc. apply builds_lift. intros algname _. now apply daocGamma_builds.
  - unfold execDaocA. apply builds_lift. intros algname _. now apply daocGamma_builds.
  - now apply execGanxis_builds.
  - now apply execOslom2_builds.
  - now apply execPscan_builds.
  - unfold execCggcRg. apply builds_lift. intros algname _. now apply rgmcAlg_builds.
  - unfold execCggciRg. apply builds_lift. intros algname _. now apply rgmcAlg_builds.
  - now apply execScd_builds.
Qed.

End BuilderFacts.

Section BuilderResults.

Context `{Constants}.

Variable host : Host.

Lemma network_size_run (netfile : string) (asym : option bool) (size : Z) (s : Sys) :
  Fs.find (locate host netfile) (root s) = Some (Fs.File size) ->
  forall r, fst (network_size host netfile asym s) = Ok r -> r = size_estimate asym size.
Proof.
  intros Hf r. unfold network_size, bind, os_path_getsize.
  destruct (os_stat host netfile s) as [[n|e] s1] eqn:Hs; [|discriminate].
  apply os_stat_node in Hs as (_ & Hn & _). rewrite Hf in Hn. injection Hn as <-.
  unfold ret. simpl. intros Hr. injection Hr as <-.
  destruct asym as [[|]|]; simpl; try reflexivity; now rewrite Z.mul_comm.
Qed.

(** The loop of [execPscan] is left by its condition, not by the bound of
    the model: twelve iterations of fuel or more all give the same run. *)
Lemma execPscan_fuel_enough (fuel : nat) (execpool : bool) (netfile : string)
  (asym : option bool) (odir : bool) (timeout : Z) (pathid workdir : string)
  (seed : option Z) (s : Sys) :
  12 <= fuel ->
  execPscan_fuel host fuel execpool netfile asym odir timeout pathid workdir seed s
  = execPscan host execpool netfile asym odir timeout pathid workdir seed s.
Proof.
  intros Hfuel. unfold execPscan, execPscan_fuel, bind.
  destruct (assert _ _ s) as [[u|e] s0]; [|reflexivity].
  destruct (network_size host netfile asym s0) as [[netsize|e] s1]; [|reflexivity].
  destruct (assert _ _ s1) as [[u1|e] s2]; [|reflexivity].
  destruct (lift _ s2) as [[algname|e] s3]; [|reflexivity].
  assert (Hit : iterations 12 0.05 0.9 ((0.9 - 0.05) / PyFloat.of_int 10) = Some 11)
    by (vm_compute; reflexivity).
  replace fuel with (12 + (fuel - 12)) by lia.
  rewrite (sweep_fuel _ _ _ _ _ _ Hit (fuel - 12) s3).
  change 16 with (12 + 4).
  rewrite (sweep_fuel _ _ _ _ _ _ Hit 4 s3). reflexivity.
Qed.

(** What the two parameter-sweep builders return and how many jobs they
    submit, whenever they return: [execScp] returns 6 and has submitted six
    jobs, one for each clique size 3..8; [execPscan] returns 10, the value of
    [steps], and has submitted eleven jobs, because its loop runs for the
    thresholds 0.05, 0.135, ..., 0.9, both bounds included. *)
Lemma sweep_jobs_and_result (execpool : bool) (netfile : string)
  (asym : option bool) (odir : bool) (timeout : Z) (pathid workdir : string)
  (seed : option Z) (s : Sys) :
  let scp := execScp host execpool netfile asym odir timeout pathid workdir seed s in
  let pscan := execPscan host execpool netfile asym odir timeout pathid workdir seed s in
  (forall n, fst scp = Ok n ->
     n = 6%Z /\ List.length (pool (snd scp)) = List.length (pool s) + 6)
  /\ (forall n, fst pscan = Ok n ->
        n = 10%Z /\ List.length (pool (snd pscan)) = List.length (pool s) + 11).
Proof.
  intros scp pscan. split; intros n Hn.
  - destruct (execScp_builds host (fun _ => True) (fun _ => True) (fun _ _ => I)
                execpool netfile asym odir timeout pathid workdir seed s
                (builds_quiet _ _ s (quiet_network_size host netfile asym)))
      as (new & Hp & _ & Hr).
    destruct (Hr n Hn) as [Hlen ->]. fold scp in Hp.
    rewrite Hp, List.length_app, Hlen. auto.
  - destruct (execPscan_builds host (fun _ => True) (fun _ => True) (fun _ _ => I)
                execpool netfile asym odir timeout pathid workdir seed s
                (builds_quiet _ _ s (quiet_network_size host netfile asym)))
      as (new & Hp & _ & Hr).
    destruct (Hr n Hn) as [Hlen ->]. fold pscan in Hp.
    rewrite Hp, List.length_app, Hlen. auto.
Qed.

(** C10. Every job that a builder submits for a network file of [size]
    bytes carries the size estimate [2 * size] when [asym] is [False] or
    [None], and [size] only when [asym] is [True]; a builder that returns has
    submitted at least one job. *)
Theorem job_size_estimate (b : builder) (execpool : bool) (netfile : string)
  (asym : option bool) (odir : bool) (timeout : Z) (pathid : string)
  (workdir : option string) (seed : option Z) (size : Z) (s : Sys) :
  Fs.find (locate host netfile) (root s) = Some (Fs.File size) ->
  let run := exec host b execpool netfile asym odir timeout pathid workdir seed s in
  exists new,
    pool (snd run) = (pool s ++ new)%list
    /\ Forall (fun job => job_size job = size_estimate asym size) new
    /\ (forall n, fst run = Ok n -> new <> []).
Proof.
  intros Hfile run.
  destruct (exec_builds host
              (fun job => job_size job = size_estimate asym size)
              (fun netsize => netsize = size_estimate asym size)
              (fun job Hjob => Hjob)
              b execpool netfile asym odir timeout pathid workdir seed s)
    as (new & Hp & HP & Hr).
  { exists []. rewrite List.app_nil_r.
    split; [apply quiet_network_size|]. split; [constructor|].
    intros r Hr. split; [reflexivity|].
    exact (network_size_run netfile asym size s Hfile r Hr). }
  exists new. split; [exact Hp|]. split; [exact HP|].
  intros n Hn. destruct (Hr n Hn) as [Hlen _].
  intros ->. destruct b; discriminate.
Qed.

End BuilderResults.

(** * Further properties *)

(** ** [funcToAppName] *)

Lemma startswith_app (p s : string) : PyStr.startswith p (p ++ s) = true.
Proof.
  induction p as [|c p IH]; simpl; [reflexivity|].
  now rewrite Ascii.eqb_refl, IH.
Qed.

Lemma drop_app (p s : string) : PyStr.drop (String.length p) (p ++ s) = s.
Proof. induction p as [|c p IH]; simpl; [now destruct s|exact IH]. Qed.

Lemma startswith_split (p s : string) :
  PyStr.startswith p s = true -> s = p ++ PyStr.drop (String.length p) s.
Proof.
  revert s. induction p as [|c p IH]; intros s Hs; simpl.
  - now destruct s.
  - destruct s as [|b s]; [discriminate|]. simpl in Hs.
    apply andb_true_iff in Hs as [Hc Hs]. apply Ascii.eqb_eq in Hc. subst b.
    f_equal. now apply IH.
Qed.

(** X1. The application name is the function name without its prefix [exec]:
    putting the prefix back gives the function name, every name with the
    prefix is accepted (the bare prefix included, whose application name is
    empty), and any other name fails the assertion. *)
Theorem funcToAppName_inverse (funcname : string) :
  match funcToAppName funcname with
  | Ok appname => funcname = "exec" ++ appname
  | Raise e =>
      PyStr.startswith "exec" funcname = false
      /\ exists msg, e = AssertionError msg
  end
  /\ forall appname, funcToAppName ("exec" ++ appname) = Ok appname.
Proof.
  split.
  - unfold funcToAppName, _PREFEXEC.
    destruct (PyStr.startswith "exec" funcname) eqn:Hs.
    + now apply startswith_split in Hs.
    + split; [reflexivity|]. now eexists.
  - intros appname. unfold funcToAppName, _PREFEXEC.
    rewrite (startswith_app "exec" appname).
    now rewrite (drop_app "exec" appname).
Qed.

(** ** The interpreters that [PyBin.bestof] can answer *)

(** What the class body records for each interpreter, by the outcomes of the
    probes: an interpreter is recorded when its probe exits with 0 and no
    earlier probe raised [OSError]. *)
Lemma init_probed (host : Host) :
  let cls := PyBin.init host in
  (PyBin.truthy (PyBin._pypy3 cls) = true ->
     PyBin._pypy3 cls = Some "pypy3" /\ call_h host "pypy3" = Exit 0)
  /\ (PyBin.truthy (PyBin._pypy cls) = true ->
        PyBin._pypy cls = Some "pypy" /\ call_h host "pypy" = Exit 0
        /\ call_h host "pypy3" <> NotFound)
  /\ (PyBin.truthy (PyBin._python3 cls) = true ->
        PyBin._python3 cls = Some "python3" /\ call_h host "python3" = Exit 0
        /\ call_h host "pypy3" <> NotFound /\ call_h host "pypy" <> NotFound).
Proof.
  unfold PyBin.init.
  destruct (call_h host "pypy3") as [|c3]; simpl.
  { repeat split; discriminate. }
  destruct (call_h host "pypy") as [|c2]; simpl.
  { destruct (Z.eqb_spec c3 0); simpl; repeat split; try discriminate; congruence. }
  destruct (call_h host "python3") as [|c]; simpl;
    destruct (Z.eqb_spec c3 0); destruct (Z.eqb_spec c2 0);
    try destruct (Z.eqb_spec c 0); simpl; repeat split;
    try discriminate; congruence.
Qed.

(** X2. [PyBin.bestof] never answers an interpreter that was not found to work:
    its answer is the running interpreter, the generic [python], or one of
    [pypy3], [pypy], [python3] - and then that kind was asked for, its probe
    [name -h] exited with 0, and no probe made before it raised [OSError]. *)
Theorem bestof_answers_probed (host : Host) (pypy v3 : bool) :
  let r := bestof host pypy v3 in
  r = PYEXEC host
  \/ r = "python"
  \/ (r = "pypy3" /\ pypy = true /\ v3 = true /\ call_h host "pypy3" = Exit 0)
  \/ (r = "pypy" /\ pypy = true /\ call_h host "pypy" = Exit 0
      /\ call_h host "pypy3" <> NotFound)
  \/ (r = "python3" /\ v3 = true /\ call_h host "python3" = Exit 0
      /\ call_h host "pypy3" <> NotFound /\ call_h host "pypy" <> NotFound).
Proof.
  intros r. subst r. unfold bestof, PyBin.bestof.
  destruct (init_probed host) as (H3 & H2 & Hp).
  set (cls := PyBin.init host) in *.
  destruct (pypy && v3 && PyBin.truthy (PyBin._pypy3 cls))%bool eqn:E3.
  { apply andb_true_iff in E3 as [E3 Ht]. apply andb_true_iff in E3 as [-> ->].
    destruct (H3 Ht) as [Hv Hc]. rewrite Hv. simpl.
    destruct (_ =? _)%Z; auto 10. }
  destruct (pypy && PyBin.truthy (PyBin._pypy cls))%bool eqn:E2.
  { apply andb_true_iff in E2 as [-> Ht].
    destruct (H2 Ht) as (Hv & Hc & Hn). rewrite Hv. simpl.
    destruct (_ || _)%bool; auto 10. }
  destruct (v3 && PyBin.truthy (PyBin._python3 cls))%bool eqn:Ep.
  { apply andb_true_iff in Ep as [-> Ht].
    destruct (Hp Ht) as (Hv & Hc & Hn). rewrite Hv. simpl.
    destruct (_ =? _)%Z; auto 10. }
  destruct (_ || _)%bool; auto.
Qed.

(** X3. The three probes share one [try]: when the first of them ([pypy3 -h])
    raises [OSError], as it does where pypy3 is not installed, the other two
    are not made and no interpreter is recorded, whatever is installed.
    [PyBin.bestof] then ignores its arguments: it answers [python], or the
    running interpreter when its name contains [python] and is not a
    [python3]. *)
Theorem bestof_probing_aborted (host : Host) (pypy v3 : bool) :
  call_h host "pypy3" = NotFound ->
  let pyname := snd (OsPath.split (PYEXEC host)) in
  bestof host pypy v3
  = if ((PyStr.find "python" pyname =? -1)
        || (PyStr.find "python" pyname =? PyStr.find "python3" pyname))%Z%bool
    then "python" else PYEXEC host.
Proof.
  intros Hc pyname. unfold bestof, PyBin.bestof, PyBin.init. rewrite Hc. simpl.
  now rewrite !andb_false_r.
Qed.

(** X4. The interpreter of the jobs of [execScp] is a PyPy whenever [pypy -h]
    can be run and exits with 0, also when the probing of the class was
    aborted; otherwise it is the answer of [PyBin.bestof(pypy=True,
    v3=False)]. *)
Theorem scp_pybin_prefers_pypy (host : Host) :
  match call_h host "pypy" with
  | Exit 0 => PyStr.find "pypy" (scp_pybin host) <> (-1)%Z
  | _ => scp_pybin host = bestof host true false
  end.
Proof.
  unfold scp_pybin. destruct (call_h host "pypy") as [|[|p|p]].
  - now destruct (_ =? _)%Z.
  - destruct (Z.eqb_spec (PyStr.find "pypy" (bestof host true false)) (-1)).
    + vm_compute. discriminate.
    + assumption.
  - now destruct (_ =? _)%Z.
  - now destruct (_ =? _)%Z.
Qed.

(** ** The accumulators and the algorithm index *)

Lemma add_last_some (val : float) (l : list ItemsStatistic.t) :
  l <> [] ->
  exists l', add_last val l = Ok l' /\ List.length l' = List.length l.
Proof.
  induction l as [|s l IH]; [congruence|]. intros _.
  destruct l as [|s' l].
  - eexists. split; reflexivity.
  - destruct IH as (l' & Hl & Hlen); [discriminate|].
    change (add_last val (s :: s' :: l))
      with (pbind (add_last val (s' :: l)) (fun r => Ok (s :: r))).
    rewrite Hl. simpl. eexists. split; [reflexivity|]. simpl. now rewrite Hlen.
Qed.

(** X5. One accumulation, by the number of statistics the network has so far
    (none when it is new) against the index [ialg] of the algorithm being
    read: with fewer than [ialg] the assertion fails - the network was absent
    from the log of an algorithm read before; with exactly [ialg] a statistic
    is appended for the algorithm; with more the last one is updated.  On
    success no other network is touched. *)
Theorem accumulate_synced (alg net : string) (ialg : nat) (val : float)
  (tbl : Table) :
  let netstats := match lookup net tbl with
                  | Some l => l
                  | None => []
                  end in
  if Nat.ltb (List.length netstats) ialg
  then accumulate alg net ialg val tbl
       = Raise (AssertionError (not_synced ialg net))
  else exists netstats',
         accumulate alg net ialg val tbl = Ok (store net netstats' tbl)
         /\ List.length netstats'
            = Nat.max (List.length netstats) (S ialg).
Proof.
  intros netstats. unfold accumulate. fold netstats.
  destruct (Nat.ltb_spec (List.length netstats) ialg) as [Hlt|Hge].
  - destruct (Nat.leb_spec (List.length netstats) ialg); [|lia].
    destruct (Nat.eqb_spec (List.length netstats) ialg); [lia|reflexivity].
  - destruct (Nat.leb_spec (List.length netstats) ialg) as [Hle|Hgt].
    + destruct (Nat.eqb_spec (List.length netstats) ialg) as [Heq|Hne]; [|lia].
      cbn [pbind].
      destruct (add_last_some val
                  (netstats ++ [ItemsStatistic.new (PyStr.join_with "_" [alg; net])
                                  val val])%list) as (l' & Hl & Hlen).
      { now destruct netstats. }
      rewrite Hl. cbn [pbind]. exists l'. split; [reflexivity|].
      rewrite Hlen, List.length_app. simpl. lia.
    + cbn [pbind]. destruct (add_last_some val netstats) as (l' & Hl & Hlen).
      { destruct netstats; [simpl in Hgt; lia|discriminate]. }
      rewrite Hl. simpl. exists l'. split; [reflexivity|]. lia.
Qed.

(** ** What [aggexec] can raise, and when *)

Lemma pbind_bad_data {A B : Type} (r : result A) (k : A -> result B) :
  bad_data r -> (forall a, r = Ok a -> bad_data (k a)) -> bad_data (pbind r k).
Proof. destruct r; simpl; auto. Qed.

Lemma accumulate_bad_data (alg net : string) (ialg : nat) (val : float)
  (tbl : Table) :
  bad_data (accumulate alg net ialg val tbl).
Proof.
  unfold accumulate.
  set (netstats := match lookup net tbl with Some l => l | None => [] end).
  destruct (Nat.leb_spec (List.length netstats) ialg) as [Hle|Hgt].
  - destruct (Nat.eqb (List.length netstats) ialg); [|exact I]. cbn [pbind].
    destruct (add_last_some val
                (netstats ++ [ItemsStatistic.new (PyStr.join_with "_" [alg; net])
                                val val])%list) as (l' & -> & _).
    { now destruct netstats. }
    exact I.
  - cbn [pbind]. destruct (add_last_some val netstats) as (l' & -> & _).
    { destruct netstats; [simpl in Hgt; lia|discriminate]. }
    exact I.
Qed.

Lemma accumulate_all_bad_data (alg net : string) (ialg : nat) (vals : list float) :
  forall measures,
    List.length vals <= List.length measures ->
    bad_data (accumulate_all alg net ialg vals measures).
Proof.
  induction vals as [|val vals IH]; intros measures Hlen; [exact I|].
  destruct measures as [|tbl measures]; [simpl in Hlen; lia|]. simpl.
  apply pbind_bad_data; [apply accumulate_bad_data|]. intros tbl' _.
  apply pbind_bad_data; [apply IH; simpl in Hlen; lia|]. intros; exact I.
Qed.

Lemma accumulate_all_length (alg net : string) (ialg : nat) (vals : list float) :
  forall measures measures',
    accumulate_all alg net ialg vals measures = Ok measures' ->
    List.length measures' = List.length measures.
Proof.
  induction vals as [|val vals IH]; intros measures measures' Hacc.
  - now injection Hacc as <-.
  - destruct measures as [|tbl measures]; [discriminate|]. simpl in Hacc.
    apply pbind_Ok in Hacc as (tbl' & _ & Hacc).
    apply pbind_Ok in Hacc as (rest & Hrest & Hacc). injection Hacc as <-.
    simpl. f_equal. eapply IH; eauto.
Qed.

Lemma float_of_str_bad_data (s : string) : bad_data (PyFloat.float_of_str s).
Proof.
  unfold PyFloat.float_of_str.
  destruct (PyFloat.read_sign _) as [neg s1].
  destruct (_ || _)%bool; [exact I|].
  destruct (String.eqb _ _); [exact I|].
  destruct (PyFloat.read_digits 0 0 s1) as [[ip ni] s2].
  destruct (match s2 with
            | String "."%char s' => PyFloat.read_digits ip 0 s'
            | _ => (ip, 0, s2)
            end) as [[mant nf] s3].
  destruct (Nat.eqb _ _); [exact I|].
  destruct s3 as [|c s4]; [exact I|].
  destruct (Ascii.eqb _ _); [|exact I].
  destruct (PyFloat.read_sign s4) as [eneg s5].
  destruct (PyFloat.read_digits 0 0 s5) as [[ev ne] s6].
  destruct (_ || _)%bool; exact I.
Qed.

(** A statistic of an aligned slot has a cell in both reports. *)
Lemma cell_some (malgs : list string) (net : string) (imsr i : nat)
  (stat : ItemsStatistic.t) :
  slot_ok malgs net i stat -> exists c, cell malgs imsr i stat = Ok c.
Proof.
  intros (alg & Hal & _ & Hc & Hf). unfold cell. rewrite Hf.
  unfold ItemsStatistic.fix_.
  destruct (Z.eqb_spec (ItemsStatistic.count stat) 0) as [H0|_]; [lia|].
  simpl. rewrite Hal. destruct (Nat.ltb imsr _); simpl; eexists; reflexivity.
Qed.

Lemma cells_some (malgs : list string) (net : string) (imsr : nat)
  (netstats : list ItemsStatistic.t) :
  forall i0,
    (forall i stat, List.nth_error netstats i = Some stat ->
                    slot_ok malgs net (i0 + i) stat) ->
    exists cs, cells malgs imsr i0 netstats = Ok cs.
Proof.
  induction netstats as [|stat rest IH]; intros i0 Hs; simpl.
  - eexists. reflexivity.
  - destruct (cell_some malgs net imsr i0 stat) as (c & ->).
    { specialize (Hs 0 stat eq_refl). now rewrite Nat.add_0_r in Hs. }
    destruct (IH (S i0)) as (cs & ->).
    { intros i st Hi. specialize (Hs (S i) st Hi).
      now rewrite Nat.add_succ_r in Hs. }
    simpl. eexists. reflexivity.
Qed.

Lemma rows_some (malgs : list string) (imsr : nat) (tbl : Table) :
  table_aligned malgs tbl -> exists rs, rows malgs imsr tbl = Ok rs.
Proof.
  induction 1 as [|[net netstats] tbl [_ Hs] _ IH]; simpl.
  - eexists. reflexivity.
  - destruct (cells_some malgs net imsr netstats 0 Hs) as (cs & ->).
    destruct IH as (rs & ->). simpl. eexists. reflexivity.
Qed.

Section AggregationOutcomes.

Context `{Constants}.

Lemma process_line_bad_data (alg file : string) (ialg : nat)
  (measures : list Table) (ln : string) :
  3 <= List.length measures ->
  bad_data (process_line alg file ialg measures ln).
Proof.
  intros Hlen. unfold process_line.
  destruct (_ || _)%bool; [exact I|].
  destruct (negb _); [exact I|]. unfold process_fields.
  destruct (PyStr.is_empty _); [exact I|].
  apply pbind_bad_data; [apply float_of_str_bad_data|]. intros etime _.
  apply pbind_bad_data; [apply float_of_str_bad_data|]. intros ctime _.
  apply pbind_bad_data; [apply float_of_str_bad_data|]. intros rmem _.
  now apply accumulate_all_bad_data.
Qed.

Lemma process_line_length (alg file : string) (ialg : nat)
  (measures measures' : list Table) (ln : string) :
  process_line alg file ialg measures ln = Ok measures' ->
  List.length measures' = List.length measures.
Proof.
  unfold process_line.
  destruct (_ || _)%bool; [now intros [= <-]|].
  destruct (negb _); [discriminate|]. unfold process_fields.
  destruct (PyStr.is_empty _); [discriminate|]. intros Hp.
  apply pbind_Ok in Hp as (etime & _ & Hp).
  apply pbind_Ok in Hp as (ctime & _ & Hp).
  apply pbind_Ok in Hp as (rmem & _ & Hp).
  eapply accumulate_all_length; eauto.
Qed.

Lemma process_lines_outcome (alg file : string) (ialg : nat) (lines : list string) :
  forall measures,
    3 <= List.length measures ->
    match process_lines alg file ialg measures lines with
    | Ok measures' => List.length measures' = List.length measures
    | Raise e => bad_data (@Raise unit e)
    end.
Proof.
  induction lines as [|ln lines IH]; intros measures Hlen; simpl; [reflexivity|].
  pose proof (process_line_bad_data alg file ialg measures ln Hlen) as Hb.
  destruct (process_line alg file ialg measures ln) as [m1|e] eqn:H1; simpl.
  - apply process_line_length in H1. specialize (IH m1).
    rewrite H1 in IH. now apply IH.
  - exact Hb.
Qed.

(** Reading a log leaves the files alone, keeps three tables, and raises
    nothing but what malformed data raise. *)
Lemma read_log_outcome (alg : string) (a : Agg) (w : World) :
  3 <= List.length (measures a) ->
  disk (snd (read_log alg a w)) = disk w
  /\ denied (snd (read_log alg a w)) = denied w
  /\ match fst (read_log alg a w) with
     | Ok a' => List.length (measures a') = List.length (measures a)
     | Raise e => bad_data (@Raise unit e)
     end.
Proof.
  intros Hlen.
  destruct (lookup (algesfile_of alg) (disk w)) as [content|] eqn:Hl.
  - rewrite (read_log_opened alg content a w Hl).
    pose proof (process_lines_outcome alg (algesfile_of alg) (ialg a)
                  (PyStr.readlines content) (measures a) Hlen) as Hp.
    destruct (process_lines _ _ _ _ _); simpl; auto.
  - rewrite (read_log_missing alg a w Hl). simpl. auto.
Qed.

Lemma read_logs_outcome (algs : list string) :
  forall (a : Agg) (w : World),
    3 <= List.length (measures a) ->
    disk (snd (read_logs algs a w)) = disk w
    /\ denied (snd (read_logs algs a w)) = denied w
    /\ match fst (read_logs algs a w) with
       | Ok a' => List.length (measures a') = List.length (measures a)
       | Raise e => bad_data (@Raise unit e)
       end.
Proof.
  induction algs as [|alg algs IH]; intros a w Hlen; simpl; [auto|].
  unfold bind.
  destruct (read_log_outcome alg a w Hlen) as (Hd & Hden & Hr).
  destruct (read_log alg a w) as [[a1|e] w1]; simpl in *; [|auto].
  destruct (IH a1 w1) as (Hd' & Hden' & Hr'); [lia|].
  rewrite Hd', Hden'. repeat split; auto.
  destruct (fst (read_logs algs a1 w1)); [lia|exact Hr'].
Qed.

(** The effect of writing the reports of one measure when the rows can be
    formatted: it returns, and changes no file but the two of the measure. *)
Lemma write_report_effect (timestamp trace : string) (malgs : list string)
  (imsr : nat) (measure : string) (tbl : Table) (rs : string * string) (w : World) :
  rows malgs imsr tbl = Ok rs ->
  exists w',
    write_report timestamp trace malgs imsr measure tbl w = (Ok tt, w')
    /\ denied w' = denied w
    /\ (forall f, resfile_of measure <> f -> resxfile_of measure <> f ->
                  lookup f (disk w') = lookup f (disk w)).
Proof.
  intros Hrows. unfold write_report, try_IOError, bind.
  destruct (List.existsb (String.eqb (resfile_of measure)) (denied w)) eqn:Hd.
  { unfold open_append at 1. rewrite Hd. eexists. split; [reflexivity|]. auto. }
  destruct (open_append_run _ _ Hd) as (w1 & -> & Hl1 & Ho1 & Hden1 & He1).
  destruct (List.existsb (String.eqb (resxfile_of measure)) (denied w1)) eqn:Hdx.
  { unfold open_append at 1. rewrite Hdx. eexists. split; [reflexivity|].
    simpl. split; [exact Hden1|]. intros f Hf _. now apply Ho1. }
  destruct (open_append_run _ _ Hdx) as (w2 & -> & Hl2 & Ho2 & Hden2 & He2).
  unfold getsize. rewrite Hl2. unfold lift. rewrite Hrows.
  unfold append_text, modify.
  eexists. split; [reflexivity|]. split.
  - destruct (lookup (resfile_of measure) (disk w2)); simpl;
      match goal with
      | |- context [lookup ?k ?d] => destruct (lookup k d)
      end; simpl; congruence.
  - intros f Hf Hfx.
    assert (Hstore : forall (k : string) (v : string) (d : Files) (e dn : _) c,
              k <> f ->
              lookup f (disk (match lookup k d with
                              | Some c0 => mkWorld (store k (c0 ++ c) d) dn e
                              | None => mkWorld (store k c d) dn e
                              end)) = lookup f d).
    { intros k v d e dn c Hk. destruct (lookup k d); simpl;
        now apply lookup_store_other. }
    destruct w2 as [d2 dn2 e2]. simpl in *.
    destruct (lookup (resfile_of measure) d2) as [c|]; simpl.
    + destruct (lookup (resxfile_of measure) (store _ _ d2)); simpl;
        rewrite !lookup_store_other by assumption;
        rewrite Ho2 by assumption; now apply Ho1.
    + destruct (lookup (resxfile_of measure) (store _ _ d2)); simpl;
        rewrite !lookup_store_other by assumption;
        rewrite Ho2 by assumption; now apply Ho1.
Qed.

Lemma write_reports_effect (timestamp trace : string) (malgs : list string)
  (names : list string) :
  forall (imsr : nat) (measures : list Table) (w : World),
    List.length names <= List.length measures ->
    Forall (table_aligned malgs) measures ->
    exists w',
      write_reports timestamp trace malgs imsr names measures w = (Ok tt, w')
      /\ denied w' = denied w
      /\ (forall f,
            Forall (fun measure => resfile_of measure <> f
                                   /\ resxfile_of measure <> f) names ->
            lookup f (disk w') = lookup f (disk w)).
Proof.
  induction names as [|measure names IH]; intros imsr measures w Hlen Hal; simpl.
  - exists w. auto.
  - destruct measures as [|tbl measures]; [simpl in Hlen; lia|].
    inversion Hal as [|? ? Ht Hms]; subst.
    destruct (rows_some malgs imsr tbl Ht) as (rs & Hrows).
    destruct (write_report_effect timestamp trace malgs imsr measure tbl rs w Hrows)
      as (w1 & H1 & Hden1 & Ho1).
    destruct (IH (S imsr) measures w1) as (w2 & H2 & Hden2 & Ho2);
      [simpl in Hlen; lia|exact Hms|].
    exists w2. unfold bind. rewrite H1. split; [exact H2|].
    split; [congruence|]. intros f Hf. inversion Hf as [|? ? [Hr Hx] Hrest]; subst.
    rewrite Ho2 by exact Hrest. now apply Ho1.
Qed.

(** The run of [aggexec] once the logs have been read. *)
Lemma report_phase_effect (timestamp trace : string) (a : Agg) (w : World) :
  3 <= List.length (measures a) ->
  Forall (table_aligned (malgs a)) (measures a) ->
  exists w',
    report_phase timestamp trace a w = (Ok tt, w')
    /\ denied w' = denied w
    /\ (forall f, ~ In f report_files -> lookup f (disk w') = lookup f (disk w)).
Proof.
  intros Hlen Hal. unfold report_phase. destruct (malgs a) as [|alg0 rest] eqn:Hm.
  - eexists. split; [reflexivity|]. auto.
  - destruct (write_reports_effect timestamp trace (alg0 :: rest) mnames 0
                (measures a) w) as (w' & Hrun & Hden & Ho); [exact Hlen|exact Hal|].
    exists w'. split; [exact Hrun|]. split; [exact Hden|].
    intros f Hf. apply Ho. unfold report_files in Hf. simpl in Hf.
    repeat constructor; intros Heq; apply Hf; rewrite Heq; auto 10.
Qed.

(** X6. [aggexec] reads everything before it writes anything.  What it can raise
    comes from the reading loop - a failed assertion (a line with too few
    fields, an empty network name, a network that an earlier log lacks) or
    the [ValueError] of a field that is not a number - and then no file has
    been created or changed.  Once the logs are read it returns normally:
    an [IOError] on output is reported on [sys.stderr] and is not raised. *)
Theorem aggexec_raises_before_writing (timestamp trace : string)
  (algs : list string) (w : World) :
  let run := aggexec timestamp trace algs w in
  match fst run with
  | Ok _ => exists a w1, read_logs algs agg0 w = (Ok a, w1)
  | Raise e =>
      fst (read_logs algs agg0 w) = Raise e
      /\ disk (snd run) = disk w
      /\ exists msg, e = AssertionError msg \/ e = ValueError msg
  end.
Proof.
  intros run. subst run. unfold aggexec, bind.
  destruct (read_logs_outcome algs agg0 w) as (Hd & _ & Hr); [simpl; lia|].
  destruct (read_logs algs agg0 w) as [[a|e] w1] eqn:Hrun; simpl in *.
  - eapply read_logs_inv in Hrun as ((_ & _ & Hal) & _ & _);
      [|reflexivity|apply agg_inv_start].
    destruct (report_phase_effect timestamp trace a w1) as (w' & -> & _);
      [simpl in Hr; lia|exact Hal|].
    simpl. eauto.
  - split; [reflexivity|]. split; [exact Hd|].
    destruct e; simpl in Hr; try contradiction; eauto.
Qed.

(** X7. [aggexec] changes no file other than the six report files (the compact
    and the extended report of each of the three measures): every other
    file, the logs it reads among them, is afterwards what it was, whether
    [aggexec] returns or raises; nor does it change which files can be
    written. *)
Theorem aggexec_keeps_other_files (timestamp trace : string)
  (algs : list string) (w : World) (f : string) :
  ~ In f report_files ->
  let run := aggexec timestamp trace algs w in
  lookup f (disk (snd run)) = lookup f (disk w)
  /\ denied (snd run) = denied w.
Proof.
  intros Hf run. subst run. unfold aggexec, bind.
  destruct (read_logs_outcome algs agg0 w) as (Hd & Hden & Hr); [simpl; lia|].
  destruct (read_logs algs agg0 w) as [[a|e] w1] eqn:Hrun; simpl in *.
  - eapply read_logs_inv in Hrun as ((_ & _ & Hal) & _ & _);
      [|reflexivity|apply agg_inv_start].
    destruct (report_phase_effect timestamp trace a w1) as (w' & -> & Hden' & Ho);
      [simpl in Hr; lia|exact Hal|].
    simpl. rewrite (Ho f Hf), Hd. split; [reflexivity|congruence].
  - rewrite Hd. auto.
Qed.

End AggregationOutcomes.

(** ** The sections that [aggexec] appends *)

Section AggregationSections.

Context `{Constants}.

(** X8. Blank lines and comment lines, indented or not, have no influence on
    what is read from a log: a log with such a line at any place is
    processed as the log without it. *)
Theorem process_lines_skips (alg file : string) (ialg : nat)
  (before after : list string) (ln : string) (measures : list Table) :
  skipped ln = true ->
  process_lines alg file ialg measures (before ++ ln :: after)
  = process_lines alg file ialg measures (before ++ after).
Proof.
  intros Hs. revert measures.
  induction before as [|l before IH]; intros measures; simpl.
  - unfold process_line. unfold skipped in Hs. now rewrite Hs.
  - destruct (process_line alg file ialg measures l); simpl; [apply IH|reflexivity].
Qed.

(** X9. A report file that cannot be opened for appending does not stop
    [aggexec]: writing the reports of that measure returns after printing one
    error message, and the texts of the two files of the measure are what
    they were (the compact file is created empty when only the extended one
    is refused and the compact one did not exist). *)
Theorem write_report_output_error (timestamp trace : string)
  (malgs : list string) (imsr : nat) (measure : string) (tbl : Table) (w : World) :
  (List.existsb (String.eqb (resfile_of measure)) (denied w)
   || List.existsb (String.eqb (resxfile_of measure)) (denied w))%bool = true ->
  let run := write_report timestamp trace malgs imsr measure tbl w in
  fst run = Ok tt
  /\ (exists err,
        stderr (snd run) = (stderr w ++ [output_failed measure err trace])%list)
  /\ file_text (resfile_of measure) (snd run) = file_text (resfile_of measure) w
  /\ lookup (resxfile_of measure) (disk (snd run))
     = lookup (resxfile_of measure) (disk w)
  /\ denied (snd run) = denied w.
Proof.
  intros Hden run. subst run. unfold write_report, try_IOError, bind.
  destruct (List.existsb (String.eqb (resfile_of measure)) (denied w)) eqn:Hd.
  { assert (Hop : open_append (resfile_of measure) w
                   = (Raise (IOError (resfile_of measure)), w))
      by (unfold open_append; now rewrite Hd).
    rewrite Hop. simpl.
    split; [reflexivity|]. split; [now eexists|]. auto. }
  simpl in Hden.
  assert (Hne : resfile_of measure <> resxfile_of measure).
  { intros Heq. rewrite Heq in Hd. congruence. }
  destruct (open_append_run _ _ Hd) as (w1 & -> & Hl1 & Ho1 & Hden1 & He1).
  assert (Hop : open_append (resxfile_of measure) w1
                 = (Raise (IOError (resxfile_of measure)), w1))
    by (unfold open_append; now rewrite Hden1, Hden).
  rewrite Hop. simpl.
  split; [reflexivity|]. split; [rewrite He1; now eexists|].
  split.
  - unfold file_text at 1. simpl. rewrite Hl1. reflexivity.
  - split; [now apply Ho1|exact Hden1].
Qed.

(** Writing the reports of a measure whose files can be opened. *)
Lemma write_report_section (timestamp trace : string) (malgs : list string)
  (imsr : nat) (measure : string) (tbl : Table) (rs : string * string) (w : World) :
  _EXTAGGRES <> _EXTAGGRESEXT ->
  List.existsb (String.eqb (resfile_of measure)) (denied w) = false ->
  List.existsb (String.eqb (resxfile_of measure)) (denied w) = false ->
  rows malgs imsr tbl = Ok rs ->
  let old := file_text (resfile_of measure) w in
  let oldx := file_text (resxfile_of measure) w in
  exists w',
    write_report timestamp trace malgs imsr measure tbl w = (Ok tt, w')
    /\ lookup (resfile_of measure) (disk w')
       = Some (old ++ stamp_line timestamp ++ algs_header malgs ++ fst rs)
    /\ lookup (resxfile_of measure) (disk w')
       = Some (oldx ++ (if Nat.eqb (String.length oldx) 0 then header_x else "")
                 ++ stamp_line timestamp ++ snd rs).
Proof.
  intros Hext Hd Hdx Hrows old oldx.
  pose proof (report_names_differ measure Hext) as Hne.
  destruct (open_append_run _ _ Hd) as (w1 & H1 & Hl1 & Ho1 & Hden1 & He1).
  rewrite <- Hden1 in Hdx.
  destruct (open_append_run _ _ Hdx) as (w2 & H2 & Hl2 & Ho2 & Hden2 & He2).
  assert (Hx2 : lookup (resxfile_of measure) (disk w2) = Some oldx).
  { rewrite Hl2. unfold oldx, file_text. now rewrite Ho1. }
  assert (Hr2 : lookup (resfile_of measure) (disk w2) = Some old).
  { rewrite Ho2 by congruence. exact Hl1. }
  destruct (append_text_run _
              (stamp_line timestamp ++ algs_header malgs ++ fst rs) _ _ Hr2)
    as (w3 & H3 & Hl3 & Ho3 & Hden3 & He3).
  assert (Hx3 : lookup (resxfile_of measure) (disk w3) = Some oldx).
  { rewrite Ho3 by exact Hne. exact Hx2. }
  destruct (append_text_run _
              ((if Nat.eqb (String.length oldx) 0 then header_x else "")
                 ++ stamp_line timestamp ++ snd rs) _ _ Hx3)
    as (w4 & H4 & Hl4 & Ho4 & Hden4 & He4).
  exists w4. split.
  - unfold write_report, try_IOError, bind.
    rewrite H1, H2. unfold getsize. rewrite Hx2.
    unfold lift. rewrite Hrows, H3, H4. reflexivity.
  - split; [|exact Hl4]. rewrite Ho4 by congruence. exact Hl3.
Qed.

Lemma file_text_same (f : string) (w w' : World) :
  lookup f (disk w') = lookup f (disk w) -> file_text f w' = file_text f w.
Proof. intros Hl. unfold file_text. now rewrite Hl. Qed.

(** The sections of one measure among the reports of all of them. *)
Lemma write_reports_section (timestamp trace : string) (malgs : list string)
  (measure : string) (tbl : Table) (post : list string) (tpost : list Table) :
  _EXTAGGRES <> _EXTAGGRESEXT ->
  List.length post <= List.length tpost ->
  Forall (table_aligned malgs) tpost ->
  Forall (apart measure) post ->
  forall (pre : list string) (tpre : list Table) (imsr : nat) (rs : string * string)
         (w : World),
    List.length pre = List.length tpre ->
    Forall (table_aligned malgs) tpre ->
    Forall (apart measure) pre ->
    List.existsb (String.eqb (resfile_of measure)) (denied w) = false ->
    List.existsb (String.eqb (resxfile_of measure)) (denied w) = false ->
    rows malgs (imsr + List.length pre) tbl = Ok rs ->
    let old := file_text (resfile_of measure) w in
    let oldx := file_text (resxfile_of measure) w in
    exists w',
      write_reports timestamp trace malgs imsr (pre ++ measure :: post)
        (tpre ++ tbl :: tpost) w = (Ok tt, w')
      /\ lookup (resfile_of measure) (disk w')
         = Some (old ++ stamp_line timestamp ++ algs_header malgs ++ fst rs)
      /\ lookup (resxfile_of measure) (disk w')
         = Some (oldx ++ (if Nat.eqb (String.length oldx) 0 then header_x else "")
                   ++ stamp_line timestamp ++ snd rs).
Proof.
  intros Hext Hlen Hpost Hap.
  induction pre as [|m pre IH]; intros tpre imsr rs w Hl Hpre Hapre Hd Hdx Hrows.
  - destruct tpre; [|discriminate]. simpl in *. rewrite Nat.add_0_r in Hrows.
    destruct (write_report_section timestamp trace malgs imsr measure tbl rs w
                Hext Hd Hdx Hrows) as (w1 & H1 & Hr1 & Hx1).
    destruct (write_reports_effect timestamp trace malgs post (S imsr) tpost w1
                Hlen Hpost) as (w2 & H2 & _ & Ho2).
    exists w2. unfold bind. rewrite H1. split; [exact H2|].
    rewrite !Ho2; [auto| |].
    + eapply Forall_impl; [|exact Hap]. intros m' (A1 & A2 & A3 & A4). split; congruence.
    + eapply Forall_impl; [|exact Hap]. intros m' (A1 & A2 & A3 & A4). split; congruence.
  - destruct tpre as [|t tpre]; [discriminate|]. simpl in Hl. injection Hl as Hl.
    inversion Hpre as [|? ? Ht Hpre']; subst.
    inversion Hapre as [|? ? (A1 & A2 & A3 & A4) Hapre']; subst.
    destruct (rows_some malgs imsr t Ht) as (rs0 & Hrows0).
    destruct (write_report_effect timestamp trace malgs imsr m t rs0 w Hrows0)
      as (w1 & H1 & Hden1 & Ho1).
    simpl in Hrows. rewrite <- Nat.add_succ_comm in Hrows.
    destruct (IH tpre (S imsr) rs w1 Hl Hpre' Hapre') as (w2 & H2 & Hr2 & Hx2);
      [now rewrite Hden1|now rewrite Hden1|exact Hrows|].
    exists w2. simpl. unfold bind. rewrite H1. split; [exact H2|].
    rewrite Hr2, Hx2.
    rewrite (file_text_same (resfile_of measure) w w1) by (apply Ho1; congruence).
    rewrite (file_text_same (resxfile_of measure) w w1) by (apply Ho1; congruence).
    auto.
Qed.

Lemma first_char_apart (c1 c2 : ascii) (m1 m2 : string) :
  c1 <> c2 -> apart (String c1 m1) (String c2 m2).
Proof.
  intros Hc. unfold apart, resfile_of, resxfile_of, PyStr.join. simpl.
  repeat split; intros Heq; apply string_app_inv_head in Heq;
    injection Heq as Heq _; contradiction.
Qed.

(** Each measure of [mnames] has report files of its own. *)
Lemma mnames_apart (pre post : list string) (measure : string) :
  mnames = (pre ++ measure :: post)%list ->
  Forall (apart measure) pre /\ Forall (apart measure) post.
Proof.
  unfold mnames. intros Heq.
  destruct pre as [|m0 [|m1 [|m2 pre]]]; simpl in Heq.
  - injection Heq as <- <-.
    split; repeat constructor; apply first_char_apart; discriminate.
  - injection Heq as <- <- <-.
    split; repeat constructor; apply first_char_apart; discriminate.
  - injection Heq as <- <- <- <-.
    split; repeat constructor; apply first_char_apart; discriminate.
  - destruct pre; discriminate.
Qed.

(** The sections that a run of [aggexec] appends to the reports of one
    measure. *)
Lemma aggexec_sections (timestamp trace : string) (algs : list string)
  (w w1 : World) (a : Agg) (imsr : nat) (measure : string) (tbl : Table) :
  _EXTAGGRES <> _EXTAGGRESEXT ->
  read_logs algs agg0 w = (Ok a, w1) ->
  List.existsb (has_log w) algs = true ->
  List.nth_error mnames imsr = Some measure ->
  List.nth_error (measures a) imsr = Some tbl ->
  List.existsb (String.eqb (resfile_of measure)) (denied w) = false ->
  List.existsb (String.eqb (resxfile_of measure)) (denied w) = false ->
  let run := aggexec timestamp trace algs w in
  let opened := List.filter (has_log w) algs in
  let old := file_text (resfile_of measure) w in
  let oldx := file_text (resxfile_of measure) w in
  exists rs,
    rows opened imsr tbl = Ok rs
    /\ fst run = Ok tt
    /\ lookup (resfile_of measure) (disk (snd run))
       = Some (old ++ stamp_line timestamp ++ algs_header opened ++ fst rs)
    /\ lookup (resxfile_of measure) (disk (snd run))
       = Some (oldx ++ (if Nat.eqb (String.length oldx) 0 then header_x else "")
                 ++ stamp_line timestamp ++ snd rs).
Proof.
  intros Hext Hread Hsome Hm Ht Hd Hdx run opened old oldx.
  subst run. unfold aggexec, bind. rewrite Hread.
  destruct (read_logs_outcome algs agg0 w) as (Hdisk & Hden & Hlen); [simpl; lia|].
  rewrite Hread in Hdisk, Hden, Hlen. simpl in Hdisk, Hden, Hlen.
  eapply read_logs_inv in Hread as ((Hmalgs & _ & Hal) & _ & _);
    [|reflexivity|apply agg_inv_start].
  simpl in Hmalgs. fold opened in Hmalgs.
  assert (Hne : opened <> []).
  { intros Hnil. apply List.existsb_exists in Hsome as (alg & Hin & Hlog).
    assert (Hin' : In alg opened) by (apply List.filter_In; auto).
    rewrite Hnil in Hin'. exact Hin'. }
  unfold report_phase. rewrite Hmalgs in *.
  destruct opened as [|alg0 rest] eqn:Hop; [congruence|]. rewrite <- Hop in *.
  apply List.nth_error_split in Hm as (pre & post & Hnames & Hpre).
  apply List.nth_error_split in Ht as (tpre & tpost & Htables & Htpre).
  destruct (mnames_apart pre post measure Hnames) as [Hapre Hapost].
  rewrite Htables in Hal, Hlen.
  apply List.Forall_app in Hal as [Halpre Halpost].
  inversion Halpost as [|? ? Haltbl Halpost']; subst x l.
  destruct (rows_some opened imsr tbl Haltbl) as (rs & Hrows).
  assert (Hlens : List.length post <= List.length tpost).
  { assert (Hn : List.length mnames = 3) by reflexivity.
    rewrite Hnames in Hn. rewrite !List.length_app in *. simpl in *. lia. }
  destruct (write_reports_section timestamp trace opened measure tbl post tpost
              Hext Hlens Halpost' Hapost pre tpre 0 rs w1) as (w' & Hrun & Hr & Hx);
    try congruence.
  { now rewrite Hpre. }
  exists rs. split; [exact Hrows|]. rewrite Hnames, Htables, Hrun. simpl.
  split; [reflexivity|].
  rewrite Hr, Hx.
  rewrite (file_text_same (resfile_of measure) w w1) by now rewrite Hdisk.
  rewrite (file_text_same (resxfile_of measure) w w1) by now rewrite Hdisk.
  auto.
Qed.

(** X10. The sections of a run of [aggexec] that has opened at least one log and
    read the logs without a fatal error.  For each measure whose two report
    files can be opened, the compact report keeps its text and receives the
    timestamp line, the header with one column for each algorithm whose log
    was opened, in the order of the list given to [aggexec], and the rows of
    the networks; the extended report keeps its text and receives the format
    header (only if it was empty), the timestamp line and the rows.  This
    does not depend on whether the reports of the other measures can be
    written. *)
Theorem aggexec_appends_sections (timestamp trace : string) (algs : list string)
  (w w1 : World) (a : Agg) (imsr : nat) (measure : string) (tbl : Table) :
  _EXTAGGRES <> _EXTAGGRESEXT ->
  read_logs algs agg0 w = (Ok a, w1) ->
  List.existsb (has_log w) algs = true ->
  List.nth_error mnames imsr = Some measure ->
  List.nth_error (measures a) imsr = Some tbl ->
  List.existsb (String.eqb (resfile_of measure)) (denied w) = false ->
  List.existsb (String.eqb (resxfile_of measure)) (denied w) = false ->
  let run := aggexec timestamp trace algs w in
  let opened := List.filter (has_log w) algs in
  let old := file_text (resfile_of measure) w in
  let oldx := file_text (resxfile_of measure) w in
  exists rs,
    rows opened imsr tbl = Ok rs
    /\ fst run = Ok tt
    /\ lookup (resfile_of measure) (disk (snd run))
       = Some (old ++ stamp_line timestamp ++ algs_header opened ++ fst rs)
    /\ lookup (resxfile_of measure) (disk (snd run))
       = Some (oldx ++ (if Nat.eqb (String.length oldx) 0 then header_x else "")
                 ++ stamp_line timestamp ++ snd rs).
Proof.
  exact (aggexec_sections timestamp trace algs w w1 a imsr measure tbl).
Qed.

End AggregationSections.

(** ** What [aggexec] prints *)

Section AggregationMessages.

Context `{Constants}.

Lemma read_logs_warnings (algs : list string) :
  forall (w0 : World) (a a' : Agg) (w w' : World),
    disk w = disk w0 ->
    read_logs algs a w = (Ok a', w') ->
    stderr w'
    = (stderr w
         ++ List.map skipped_warning
              (List.filter (fun alg => negb (has_log w0 alg)) algs))%list.
Proof.
  induction algs as [|alg algs IH]; intros w0 a a' w w' Hd Hr.
  - injection Hr as <- <-. simpl. now rewrite List.app_nil_r.
  - simpl in Hr. unfold bind in Hr.
    destruct (read_log alg a w) as [[a1|e] w1] eqn:H1; [|discriminate].
    simpl. unfold has_log at 1. rewrite <- Hd.
    destruct (lookup (algesfile_of alg) (disk w)) as [content|] eqn:Hl.
    + rewrite (read_log_opened alg content a w Hl) in H1.
      destruct (process_lines _ _ _ _ _); [|discriminate].
      injection H1 as <- <-. simpl. exact (IH w0 _ a' w w' Hd Hr).
    + rewrite (read_log_missing alg a w Hl) in H1. injection H1 as <- <-.
      rewrite (IH w0 a a'
                 (mkWorld (disk w) (denied w) (stderr w ++ [skipped_warning alg])%list)
                 w' Hd Hr).
      simpl. now rewrite <- List.app_assoc.
Qed.

Lemma write_report_silent (timestamp trace : string) (malgs : list string)
  (imsr : nat) (measure : string) (tbl : Table) (rs : string * string) (w : World) :
  denied w = [] ->
  rows malgs imsr tbl = Ok rs ->
  exists w',
    write_report timestamp trace malgs imsr measure tbl w = (Ok tt, w')
    /\ denied w' = [] /\ stderr w' = stderr w.
Proof.
  intros Hden Hrows.
  assert (Hd : forall name w0, denied w0 = [] ->
                 List.existsb (String.eqb name) (denied w0) = false)
    by (intros name w0 ->; reflexivity).
  destruct (open_append_run _ _ (Hd (resfile_of measure) w Hden))
    as (w1 & H1 & _ & _ & Hden1 & He1).
  rewrite Hden in Hden1.
  destruct (open_append_run _ _ (Hd (resxfile_of measure) w1 Hden1))
    as (w2 & H2 & Hl2 & _ & Hden2 & He2).
  rewrite Hden1 in Hden2.
  unfold write_report, try_IOError, bind. rewrite H1, H2.
  unfold getsize. rewrite Hl2. unfold lift. rewrite Hrows.
  unfold append_text, modify.
  eexists. split; [reflexivity|].
  destruct w2 as [d2 dn2 e2]. simpl in *. subst dn2.
  destruct (lookup (resfile_of measure) d2); simpl;
    match goal with
    | |- context [lookup ?k ?d] => destruct (lookup k d)
    end; simpl; split; congruence.
Qed.

Lemma write_reports_silent (timestamp trace : string) (malgs : list string)
  (names : list string) :
  forall (imsr : nat) (measures : list Table) (w : World),
    denied w = [] ->
    List.length names <= List.length measures ->
    Forall (table_aligned malgs) measures ->
    exists w',
      write_reports timestamp trace malgs imsr names measures w = (Ok tt, w')
      /\ stderr w' = stderr w.
Proof.
  induction names as [|measure names IH]; intros imsr measures w Hden Hlen Hal; simpl.
  - now exists w.
  - destruct measures as [|tbl measures]; [simpl in Hlen; lia|].
    inversion Hal as [|? ? Ht Hms]; subst.
    destruct (rows_some malgs imsr tbl Ht) as (rs & Hrows).
    destruct (write_report_silent timestamp trace malgs imsr measure tbl rs w
                Hden Hrows) as (w1 & H1 & Hden1 & He1).
    destruct (IH (S imsr) measures w1 Hden1) as (w2 & H2 & He2);
      [simpl in Hlen; lia|exact Hms|].
    exists w2. unfold bind. rewrite H1. split; [exact H2|congruence].
Qed.

(** X11. Everything that a run of [aggexec] prints when the logs are read without
    a fatal error and no report file is refused: one warning for each
    algorithm of the list whose log cannot be opened, in the order of the
    list, and after them the warning that there is nothing to aggregate if
    no log could be opened at all.  Writing the reports prints nothing. *)
Theorem aggexec_messages (timestamp trace : string) (algs : list string)
  (w w1 : World) (a : Agg) :
  read_logs algs agg0 w = (Ok a, w1) ->
  denied w = [] ->
  let run := aggexec timestamp trace algs w in
  fst run = Ok tt
  /\ stderr (snd run)
     = (stderr w
          ++ List.map skipped_warning
               (List.filter (fun alg => negb (has_log w alg)) algs)
          ++ (if List.existsb (has_log w) algs then [] else [nothing_warning]))%list.
Proof.
  intros Hread Hden run. subst run. unfold aggexec, bind. rewrite Hread.
  pose proof (read_logs_warnings algs w agg0 a w w1 eq_refl Hread) as Herr.
  destruct (read_logs_outcome algs agg0 w) as (_ & Hden1 & Hlen); [simpl; lia|].
  rewrite Hread in Hden1, Hlen. simpl in Hden1, Hlen.
  eapply read_logs_inv in Hread as ((Hmalgs & _ & Hal) & _ & _);
    [|reflexivity|apply agg_inv_start].
  simpl in Hmalgs. unfold report_phase.
  destruct (List.existsb (has_log w) algs) eqn:Hsome.
  - apply List.existsb_exists in Hsome as (alg & Hin & Hlog).
    assert (Hin' : In alg (malgs a)) by (rewrite Hmalgs; apply List.filter_In; auto).
    destruct (malgs a) as [|alg0 rest] eqn:Hm; [contradiction|].
    destruct (write_reports_silent timestamp trace (alg0 :: rest) mnames 0
                (measures a) w1) as (w' & -> & He);
      [congruence|simpl in *; lia|exact Hal|].
    simpl. split; [reflexivity|]. now rewrite He, Herr, List.app_nil_r.
  - assert (Hnil : malgs a = []).
    { rewrite Hmalgs. destruct (List.filter (has_log w) algs) as [|alg rest] eqn:Hf;
        [reflexivity|].
      assert (Hin : In alg (List.filter (has_log w) algs)) by (rewrite Hf; now left).
      apply List.filter_In in Hin as [Hin Hlog].
      assert (Htrue : List.existsb (has_log w) algs = true)
        by (apply List.existsb_exists; eauto).
      congruence. }
    rewrite Hnil. unfold eprint, modify. simpl. split; [reflexivity|].
    now rewrite Herr, <- List.app_assoc.
Qed.

End AggregationMessages.

(** ** The directory that [preparePath] leaves *)

Lemma alter_inv (dir : list string)
  (f : list (string * Fs.node) -> result (list (string * Fs.node))) :
  forall n n',
    Fs.alter dir f n = Ok n' ->
    exists es es',
      Fs.find dir n = Some (Fs.Dir es) /\ f es = Ok es'
      /\ Fs.find dir n' = Some (Fs.Dir es').
Proof.
  induction dir as [|c dir IH]; intros n n' Ha.
  - destruct n as [size|es]; [discriminate|]. simpl in Ha.
    destruct (f es) as [es'|e] eqn:Hf; [|discriminate]. injection Ha as <-.
    now exists es, es'.
  - destruct n as [size|ns]; [discriminate|]. simpl in Ha |- *.
    destruct (lookup c ns) as [m|] eqn:El; [|discriminate].
    destruct (Fs.alter dir f m) as [m'|e] eqn:Hm; [|discriminate].
    injection Ha as <-. destruct (IH m m' Hm) as (es & es' & Hf & Hes & Hf').
    exists es, es'. split; [exact Hf|]. split; [exact Hes|].
    simpl. now rewrite lookup_store_same.
Qed.

(** [os.mkdir] returns only after it has made an empty directory. *)
Lemma mkdir_creates (p : list string) (n n' : Fs.node) :
  Fs.mkdir p n = Ok n' -> Fs.find p n' = Some (Fs.Dir []).
Proof.
  unfold Fs.mkdir. destruct (List.rev p) as [|name rdir] eqn:Hrev; [discriminate|].
  intros Ha. apply alter_inv in Ha as (es & es' & _ & Hf & Hes').
  assert (Hp : p = (List.rev rdir ++ [name])%list).
  { rewrite <- (List.rev_involutive p), Hrev. reflexivity. }
  rewrite Hp, find_app, Hes'. simpl.
  destruct (lookup name es); [discriminate|]. injection Hf as <-.
  now rewrite lookup_store_same.
Qed.

Section PreparedPaths.

Context `{Constants}.

Variable host : Host.

(** On an empty directory [preparePath] does nothing. *)
Lemma preparePath_empty (taskpath : string) (s : Sys) :
  PyStr.is_empty taskpath = false -> dotdot taskpath = false ->
  Fs.find (locate host taskpath) (root s) = Some (Fs.Dir []) ->
  preparePath host taskpath s = (Ok tt, s).
Proof.
  intros Hne Hdd Hf. unfold preparePath, bind.
  rewrite (os_path_exists_dir host taskpath s [] Hne Hdd Hf).
  unfold dirempty. cbn beta iota delta [negb]. now rewrite Hf.
Qed.

Lemma preparePath_makes_dir (taskpath : string) (s : Sys) :
  regular_file (Fs.find (locate host taskpath) (root s)) = false ->
  fst (preparePath host taskpath s) = Ok tt ->
  Fs.find (locate host taskpath) (root (snd (preparePath host taskpath s)))
  = Some (Fs.Dir [])
  /\ PyStr.is_empty taskpath = false /\ dotdot taskpath = false.
Proof.
  intros Hfile. unfold preparePath, bind.
  set (target := locate host taskpath) in *.
  destruct (os_path_exists host taskpath s) as [[[|]|x] s1] eqn:Hex; [| |discriminate].
  - apply os_path_exists_true in Hex as (-> & Hne & Hdd & n & Hf & _).
    fold target in Hf. cbn [negb]. unfold dirempty. fold target. rewrite Hf.
    destruct n as [size|[|e es]].
    + rewrite Hf in Hfile. discriminate.
    + simpl. intros _. auto.
    + cbn [negb].
      destruct (tobackup host (delPathSuffix taskpath false) true true s)
        as [[u|x] s1]; [|discriminate].
      unfold os_mkdir. rewrite Hne, Hdd. destruct (dot_ended taskpath).
      * now destruct (os_stat host taskpath s1) as [[n|x] s2].
      * fold target.
        destruct (Fs.mkdir target (root s1)) as [r|x] eqn:Hm; [|discriminate].
        intros _. simpl. apply mkdir_creates in Hm. auto.
  - apply os_path_exists_false in Hex as (-> & Hcase). fold target in Hcase.
    cbn [negb]. unfold os_makedirs.
    destruct (PyStr.is_empty taskpath) eqn:Hne; [discriminate|].
    destruct (dotdot taskpath) eqn:Hdd; [discriminate|].
    destruct (negb (anchored host taskpath s)); [discriminate|].
    fold target.
    destruct (Fs.find target (root s)) as [[size|es]|] eqn:Hfind; [discriminate| |].
    + destruct Hcase as [Hc|[Hc|[Hc _]]]; discriminate.
    + destruct (Fs.file_above target (root s)) eqn:Habove.
      * now rewrite (makedirs_blocked target (root s) Hfind Habove).
      * destruct (makedirs_creates target (root s) Hfind Habove) as (n' & Hm & Hf).
        rewrite Hm. intros _. auto.
Qed.

(** X12. Whenever [preparePath] returns for a path that was not a regular file,
    the path is an empty directory - whether it was created, found empty,
    or emptied by a backup - and [preparePath] called again for it at once
    changes nothing: no directory is made and no second backup.  (What
    counts as empty and what a backup takes are the helpers of [benchutils],
    modelled from their description.) *)
Theorem preparePath_settles (taskpath : string) (s : Sys) :
  regular_file (Fs.find (locate host taskpath) (root s)) = false ->
  fst (preparePath host taskpath s) = Ok tt ->
  let s' := snd (preparePath host taskpath s) in
  Fs.find (locate host taskpath) (root s') = Some (Fs.Dir [])
  /\ preparePath host taskpath s' = (Ok tt, s').
Proof.
  intros Hfile Hok s'.
  destruct (preparePath_makes_dir taskpath s Hfile Hok) as (Hdir & Hne & Hdd).
  fold s' in Hdir. split; [exact Hdir|]. now apply preparePath_empty.
Qed.

(** X13. The directory of the results of a task.  With [odir] its name is made
    of the first and the third part of the parsed task name, and a task name
    with fewer than three parts raises [IndexError] before anything is
    touched.  Otherwise [prepareResDir] prepares the path
    [_RESDIR appname / _CLSDIR taskdir pathid] and returns it, or raises what
    [preparePath] raises; when it returns the path, the path is an empty
    directory (unless it was a regular file). *)
Theorem prepareResDir_layout (appname task : string) (odir : bool)
  (pathid : string) (s : Sys) :
  let parts := parseName task true in
  let taskdir := if odir
                 then List.nth 0 parts "" ++ List.nth 2 parts "" ++ "/" ++ task
                 else task in
  let taskpath := _RESDIR ++ appname ++ "/" ++ _CLSDIR ++ taskdir ++ pathid in
  let run := prepareResDir host appname task odir pathid s in
  if (odir && Nat.ltb (List.length parts) 3)%bool
  then exists msg, run = (Raise (IndexError msg), s)
  else run = match preparePath host taskpath s with
             | (Ok _, s') => (Ok taskpath, s')
             | (Raise e, s') => (Raise e, s')
             end
       /\ (regular_file (Fs.find (locate host taskpath) (root s)) = false ->
           fst run = Ok taskpath ->
           Fs.find (locate host taskpath) (root (snd run)) = Some (Fs.Dir [])).
Proof.
  intros parts taskdir taskpath run.
  assert (Hrun : (odir && Nat.ltb (List.length parts) 3)%bool = false ->
                 run = match preparePath host taskpath s with
                       | (Ok _, s') => (Ok taskpath, s')
                       | (Raise e, s') => (Raise e, s')
                       end).
  { intros Hc. subst run taskpath taskdir. unfold prepareResDir, bind.
    destruct odir; simpl in Hc |- *.
    - fold parts. unfold item, lift.
      destruct parts as [|p0 [|p1 [|p2 rest]]]; try discriminate. simpl.
      unfold ret. now destruct (preparePath host _ s) as [[[]|e] s1].
    - unfold ret. now destruct (preparePath host _ s) as [[[]|e] s1]. }
  destruct (odir && Nat.ltb (List.length parts) 3)%bool eqn:Hc.
  - apply andb_true_iff in Hc as [-> Hlen]. subst run.
    unfold prepareResDir, bind. fold parts. unfold item, lift.
    destruct parts as [|p0 [|p1 [|p2 rest]]]; [now eexists..|discriminate].
  - split; [now apply Hrun|]. intros Hfile Hok. rewrite (Hrun eq_refl) in Hok |- *.
    pose proof (preparePath_makes_dir taskpath s Hfile) as Hdir.
    destruct (preparePath host taskpath s) as [[[]|e] s1]; [|discriminate].
    simpl in *. now apply Hdir.
Qed.

End PreparedPaths.

(** ** What the builders do with their parameters *)

Lemma startswith_refl (p : string) : PyStr.startswith p p = true.
Proof. induction p as [|c p IH]; simpl; [reflexivity|]. now rewrite Ascii.eqb_refl. Qed.

Section BuilderJobs.

Context `{Constants}.

Variable host : Host.

Variables (workdir : string) (timeout : Z) (pathid : string).

Ltac named algname :=
  apply builds_lift; intros algname Halg; vm_compute in Halg;
  injection Halg as <-.

Ltac submitted :=
  unfold wrapped; cbn [job_workdir job_timeout job_category job_name job_args];
  split; [reflexivity|]; split; [reflexivity|];
  split; [first [apply startswith_refl | reflexivity]|];
  eexists; split; reflexivity.

Ltac prepare :=
  apply builds_step; [apply quiet_prepareResDir|intros ? ?].

Ltac start :=
  first [apply builds_assert|apply builds_assert_failing]; intros _;
  apply builds_step; [apply quiet_network_size|intros ? ?].

Lemma execLouvainIg_wrapped (execpool : bool) (netfile : string)
  (asym : option bool) (odir : bool) (seed : option Z) (s : Sys) :
  builds_at (wrapped host "LouvainIg" workdir timeout pathid) 1 (fun r => r = 1%Z)
    (execLouvainIg host execpool netfile asym odir timeout pathid workdir seed) s.
Proof.
  unfold execLouvainIg. start.
  apply builds_step; [apply quiet_assert|intros ? ?].
  named algname. prepare. apply builds_submit. submitted.
Qed.

Lemma execScp_wrapped (execpool : bool) (netfile : string)
  (asym : option bool) (odir : bool) (seed : option Z) (s : Sys) :
  builds_at (wrapped host "Scp" workdir timeout pathid) 6 (fun r => r = 6%Z)
    (execScp host execpool netfile asym odir timeout pathid workdir seed) s.
Proof.
  unfold execScp. start.
  apply builds_step; [apply quiet_assert|intros ? ?].
  named algname.
  apply (builds_bind _ 6 0 (fun _ => True)).
  - apply (builds_for_each _ _). intros k s0.
    apply (builds_bind _ 0 1 (fun _ => True));
      [apply builds_quiet, quiet_prepareResDir|].
    intros taskpath s1 _. apply builds_execute. submitted.
  - intros _ s0 _. now apply builds_ret.
Qed.

Lemma execRandcommuns_wrapped (execpool : bool) (netfile : string)
  (asym : option bool) (odir : bool) (seed : option Z) (instances : Z) (s : Sys) :
  builds_at (wrapped host "Randcommuns" workdir timeout pathid) 1 (fun r => r = 1%Z)
    (execRandcommuns host execpool netfile asym odir timeout pathid workdir seed
       instances) s.
Proof.
  unfold execRandcommuns. start.
  destruct (OsPath.splitext netfile) as [nfile netext].
  apply builds_step; [apply quiet_assert|intros ? ?].
  named algname. prepare. apply builds_submit. submitted.
Qed.

Lemma daocGamma_wrapped (algname : string) (execpool : bool) (netfile : string)
  (asym : option bool) (odir : bool) (seed : option Z) (rlevout : float)
  (gamma : option Z) (s : Sys) :
  builds_at (wrapped host algname workdir timeout pathid) 1 (fun r => r = 1%Z)
    (daocGamma host algname execpool netfile asym odir timeout pathid workdir seed
       rlevout gamma) s.
Proof.
  unfold daocGamma. start.
  apply builds_step; [apply quiet_assert|intros ? ?].
  prepare. apply builds_submit. submitted.
Qed.

Lemma execGanxis_wrapped (execpool : bool) (netfile : string)
  (asym : option bool) (odir : bool) (seed : option Z) (s : Sys) :
  builds_at (wrapped host "Ganxis" workdir timeout pathid) 1 (fun r => r = 1%Z)
    (execGanxis host execpool netfile asym odir timeout pathid workdir seed) s.
Proof.
  unfold execGanxis. start.
  apply builds_step; [apply quiet_assert|intros ? ?].
  named algname. prepare. apply builds_submit. submitted.
Qed.

Lemma execOslom2_wrapped (execpool : bool) (netfile : string)
  (asym : option bool) (odir : bool) (seed : option Z) (s : Sys) :
  builds_at (wrapped host "Oslom2" workdir timeout pathid) 1 (fun r => r = 1%Z)
    (execOslom2 host execpool netfile asym odir timeout pathid workdir seed) s.
Proof.
  unfold execOslom2. start.
  destruct (OsPath.split netfile) as [netbasepath task0].
  destruct (OsPath.splitext task0) as [task netext].
  apply builds_step; [apply quiet_assert|intros ? ?].
  named algname. prepare. apply builds_submit. submitted.
Qed.

Lemma execPscan_wrapped (execpool : bool) (netfile : string)
  (asym : option bool) (odir : bool) (seed : option Z) (s : Sys) :
  builds_at (wrapped host "Pscan" workdir timeout pathid) 11 (fun r => r = 10%Z)
    (execPscan host execpool netfile asym odir timeout pathid workdir seed) s.
Proof.
  unfold execPscan, execPscan_fuel. start.
  apply builds_step; [apply quiet_assert|intros ? ?].
  named algname.
  apply (builds_bind _ 11 0 (fun _ => True)).
  - apply (builds_sweep _); [|exact pscan_iterations]. intros eps s0.
    apply (builds_bind _ 0 1 (fun _ => True));
      [apply builds_quiet, quiet_prepareResDir|].
    intros taskpath s1 _. apply builds_execute. submitted.
  - intros _ s0 _. now apply builds_ret.
Qed.

Lemma rgmcAlg_wrapped (algname : string) (execpool : bool) (netfile : string)
  (asym : option bool) (odir : bool) (seed : option Z) (alg : option Z) (s : Sys) :
  builds_at (wrapped host algname workdir timeout pathid) 1 (fun r => r = 1%Z)
    (rgmcAlg host algname execpool netfile asym odir timeout pathid workdir seed
       alg) s.
Proof.
  unfold rgmcAlg. start.
  apply builds_step; [apply quiet_assert|intros ? ?].
  prepare. apply builds_submit. submitted.
Qed.

Lemma execScd_wrapped (execpool : bool) (netfile : string)
  (asym : option bool) (odir : bool) (seed : option Z) (s : Sys) :
  builds_at (wrapped host "Scd" workdir timeout pathid) 1 (fun r => r = 1%Z)
    (execScd host execpool netfile asym odir timeout pathid workdir seed) s.
Proof.
  unfold execScd. start.
  apply builds_step; [apply quiet_assert|intros ? ?].
  named algname. prepare. apply builds_submit. submitted.
Qed.

End BuilderJobs.

Section BuilderParameters.

Context `{Constants}.

Variable host : Host.

(** X14. Every job that a builder submits, whether the builder returns or raises
    after some of its jobs: the job runs in the working directory given (by
    default the one of the builder) with the timeout given, its category
    starts with the algorithm name of the builder, its name is the algorithm
    name and a task name joined by [_SEPNAMEPART], and its command line
    starts with the [exectime] wrapper, which is told to append the resource
    consumption of the job, under the task name followed by the path id, to
    the very file that [aggexec] reads for this algorithm name (written
    relative to the working directory of the job). *)
Theorem exec_jobs_wrapped (b : builder) (execpool : bool) (netfile : string)
  (asym : option bool) (odir : bool) (timeout : Z) (pathid : string)
  (workdir : option string) (seed : option Z) (s : Sys) :
  let dir := match workdir with
             | Some d => d
             | None => default_workdir b
             end in
  let run := exec host b execpool netfile asym odir timeout pathid workdir seed s in
  funcToAppName ("exec" ++ algname_of b) = Ok (algname_of b)
  /\ exists new,
       pool (snd run) = (pool s ++ new)%list
       /\ Forall (wrapped host (algname_of b) dir timeout pathid) new.
Proof.
  intros dir run. split; [now destruct b|].
  assert (Hb : builds_at (wrapped host (algname_of b) dir timeout pathid)
                 (jobs_of b) (fun r => r = returned_by b)
                 (exec host b execpool netfile asym odir timeout pathid workdir seed)
                 s).
  { unfold exec. fold dir. destruct b; unfold jobs_of, returned_by, algname_of.
    - apply execLouvainIg_wrapped.
    - apply execScp_wrapped.
    - apply execRandcommuns_wrapped.
    - unfold execDaoc. apply builds_lift. intros algname Halg.
      vm_compute in Halg. injection Halg as <-. apply daocGamma_wrapped.
    - unfold execDaocA. apply builds_lift. intros algname Halg.
      vm_compute in Halg. injection Halg as <-. apply daocGamma_wrapped.
    - apply execGanxis_wrapped.
    - apply execOslom2_wrapped.
    - apply execPscan_wrapped.
    - unfold execCggcRg. apply builds_lift. intros algname Halg.
      vm_compute in Halg. injection Halg as <-. apply rgmcAlg_wrapped.
    - unfold execCggciRg. apply builds_lift. intros algname Halg.
      vm_compute in Halg. injection Halg as <-. apply rgmcAlg_wrapped.
    - apply execScd_wrapped. }
  destruct Hb as (new & Hp & HP & _). now exists new.
Qed.

(** X15. A builder called without an execution pool, with an empty network file
    name or with a negative timeout fails its first assertion: it raises
    [AssertionError] and has done nothing - no directory is prepared, no
    backup made, no job submitted.  (This is stated for the builders whose
    assertion message can be formatted.) *)
Theorem exec_rejects_invalid_input (b : builder) (execpool : bool)
  (netfile : string) (asym : option bool) (odir : bool) (timeout : Z)
  (pathid : string) (workdir : option string) (seed : option Z) (s : Sys) :
  plain_assertion b = true ->
  execpool = false \/ netfile = "" \/ (timeout < 0)%Z ->
  exists msg,
    exec host b execpool netfile asym odir timeout pathid workdir seed s
    = (Raise (AssertionError msg), s).
Proof.
  intros Hb Hbad.
  assert (Hc : (execpool && negb (PyStr.is_empty netfile) && (0 <=? timeout)%Z)%bool
               = false).
  { destruct Hbad as [->|[->|Hneg]]; [reflexivity|now rewrite andb_false_r|].
    apply andb_false_iff. right. now apply Z.leb_gt. }
  exists invalid_input.
  destruct b; try discriminate; unfold exec;
    [unfold execLouvainIg|unfold execScp|unfold execRandcommuns|unfold execGanxis
    |unfold execOslom2|unfold execPscan, execPscan_fuel];
    unfold bind at 1; now rewrite Hc.
Qed.

Lemma opening_fails {A : Type} (cond : bool) (msg netfile : string)
  (asym : option bool) (k : Z -> M Sys A) (e : exn) (s : Sys) :
  cond = true ->
  network_size host netfile asym s = (Raise e, s) ->
  bind (assert cond msg) (fun _ => bind (network_size host netfile asym) k) s
  = (Raise e, s).
Proof. intros -> Hsize. unfold bind, assert, ret. now rewrite Hsize. Qed.

Lemma opening_fails' {A : Type} (cond : bool) (failure : exn) (netfile : string)
  (asym : option bool) (k : Z -> M Sys A) (e : exn) (s : Sys) :
  cond = true ->
  network_size host netfile asym s = (Raise e, s) ->
  bind (assert_failing cond failure)
    (fun _ => bind (network_size host netfile asym) k) s
  = (Raise e, s).
Proof. intros -> Hsize. unfold bind, assert_failing, ret. now rewrite Hsize. Qed.

(** X16. A builder called with valid parameters for a network file that does not
    exist raises the [OSError] of [os.path.getsize] and has done nothing: no
    directory is prepared, no backup made, no job submitted.  This holds for
    every builder, with the default values of its optional parameters. *)
Theorem exec_needs_network (b : builder) (netfile : string)
  (asym : option bool) (odir : bool) (timeout : Z) (pathid : string)
  (workdir : option string) (seed : option Z) (s : Sys) :
  PyStr.is_empty netfile = false ->
  (0 <= timeout)%Z ->
  Fs.find (locate host netfile) (root s) = None ->
  exists msg,
    exec host b true netfile asym odir timeout pathid workdir seed s
    = (Raise (OSError msg), s).
Proof.
  intros Hne Ht Hf. apply Z.leb_le in Ht.
  destruct (os_stat_absent host netfile s Hf) as (msg & Hstat).
  assert (Hsize : network_size host netfile asym s = (Raise (OSError msg), s)).
  { unfold network_size, bind, os_path_getsize. now rewrite Hstat. }
  exists msg.
  destruct b; unfold exec.
  - unfold execLouvainIg. apply opening_fails; [now rewrite Hne, Ht|exact Hsize].
  - unfold execScp. apply opening_fails; [now rewrite Hne, Ht|exact Hsize].
  - unfold execRandcommuns. apply opening_fails; [now rewrite Hne, Ht|exact Hsize].
  - unfold execDaoc. change (funcToAppName "execDaoc") with (Ok "Daoc").
    unfold bind at 1, lift. unfold daocGamma.
    apply opening_fails'; [now rewrite Hne, Ht|exact Hsize].
  - unfold execDaocA. change (funcToAppName "execDaocA") with (Ok "DaocA").
    unfold bind at 1, lift. unfold daocGamma.
    apply opening_fails'; [now rewrite Hne, Ht|exact Hsize].
  - unfold execGanxis. apply opening_fails; [now rewrite Hne, Ht|exact Hsize].
  - unfold execOslom2. apply opening_fails; [now rewrite Hne, Ht|exact Hsize].
  - unfold execPscan, execPscan_fuel.
    apply opening_fails; [now rewrite Hne, Ht|exact Hsize].
  - unfold execCggcRg. change (funcToAppName "execCggcRg") with (Ok "CggcRg").
    unfold bind at 1, lift. unfold rgmcAlg.
    apply opening_fails'; [now rewrite Hne, Ht|exact Hsize].
  - unfold execCggciRg. change (funcToAppName "execCggciRg") with (Ok "CggciRg").
    unfold bind at 1, lift. unfold rgmcAlg.
    apply opening_fails'; [now rewrite Hne, Ht|exact Hsize].
  - unfold execScd. apply opening_fails'; [now rewrite Hne, Ht|exact Hsize].
Qed.

End BuilderParameters.

(** ** The clean-up hook of [execGanxis] *)

Lemma lookup_filter_other {A : Type} (c k : string) (l : list (string * A)) :
  c <> k ->
  lookup k (List.filter (fun e => negb (String.eqb c (fst e))) l) = lookup k l.
Proof.
  intros Hne. induction l as [|[k' v] l IH]; simpl; [reflexivity|].
  destruct (String.eqb_spec c k') as [<-|Hck]; simpl.
  - destruct (String.eqb_spec k c) as [->|_]; [contradiction|exact IH].
  - now rewrite IH.
Qed.

(** Removing the entry at [p], by what is found at every path afterwards. *)
Lemma remove_tree_spec (p : list string) :
  forall n m,
    p <> [] -> Fs.find p n = Some m ->
    exists n',
      remove_tree p n = Ok n'
      /\ forall q, kind_of (Fs.find q n')
                   = if within p q then Absent else kind_of (Fs.find q n).
Proof.
  induction p as [|c p IH]; intros n m Hne Hf; [contradiction|].
  destruct n as [size|es]; [discriminate|]. simpl in Hf |- *.
  destruct (lookup c es) as [m0|] eqn:El; [|discriminate].
  destruct p as [|c1 p1].
  - eexists. split; [reflexivity|]. intros [|d q]; [reflexivity|]. simpl.
    destruct (String.eqb_spec c d) as [<-|Hcd]; simpl.
    + rewrite lookup_filter_none; [reflexivity|].
      intros v. simpl. now rewrite String.eqb_refl.
    + now rewrite lookup_filter_other.
  - destruct (IH m0 m) as (m' & Hm & Hq); [discriminate|exact Hf|].
    rewrite Hm. simpl. eexists. split; [reflexivity|].
    intros [|d q]; [reflexivity|]. cbn [Fs.find within].
    destruct (String.eqb_spec c d) as [<-|Hcd]; simpl.
    + rewrite lookup_store_same, El. apply Hq.
    + now rewrite lookup_store_other.
Qed.

Lemma append_length (a b : string) :
  String.length (a ++ b) = String.length a + String.length b.
Proof. induction a as [|c a IH]; simpl; [reflexivity|]. now rewrite IH. Qed.

Lemma has_char_app (c : ascii) (a b : string) :
  has_char c (a ++ b) = (has_char c a || has_char c b)%bool.
Proof.
  induction a as [|x a IH]; simpl; [reflexivity|]. now rewrite IH, orb_assoc.
Qed.

Lemma append_assoc (a b c : string) : (a ++ b) ++ c = a ++ b ++ c.
Proof. induction a as [|x a IH]; simpl; [reflexivity|]. now rewrite IH. Qed.

Section HookFacts.

Variable host : Host.

(** The path [workdir + 'output/'] has a last component, which ends with
    [output]. *)
Lemma locate_output (workdir : string) :
  exists dir name, locate host (workdir ++ "output/") = (dir ++ [name])%list.
Proof.
  assert (Hlast : forall x, has_char "/" x = false ->
            has_char "/" (x ++ "output") = false /\ plain (x ++ "output") = true).
  { intros x Hx. split; [now rewrite has_char_app, Hx|].
    unfold plain. apply negb_true_iff.
    assert (Hlen : 6 <= String.length (x ++ "output"))
      by (rewrite append_length; simpl; lia).
    destruct (String.eqb_spec (x ++ "output") "") as [E|_];
      [rewrite E in Hlen; simpl in Hlen; lia|].
    destruct (String.eqb_spec (x ++ "output") ".") as [E|_];
      [rewrite E in Hlen; simpl in Hlen; lia|].
    destruct (String.eqb_spec (x ++ "output") "..") as [E|_];
      [rewrite E in Hlen; simpl in Hlen; lia|].
    reflexivity. }
  unfold locate, OsPath.resolve.
  set (done := if OsPath.is_abs (workdir ++ "output/") then [] else List.rev (cwd host)).
  clearbody done.
  destruct (OsPath.rsplit_on "/" workdir) as [[h x]|] eqn:E.
  - apply rsplit_on_spec in E as [-> Hx]. destruct (Hlast x Hx) as [Hs Hp].
    exists (OsPath.normalize done (OsPath.pieces h)), (x ++ "output").
    replace ((h ++ String "/" x) ++ "output/")
      with (h ++ String "/" ((x ++ "output") ++ String "/" ""))
      by (rewrite !append_assoc; reflexivity).
    rewrite !pieces_app, (pieces_plain _ Hs). change (OsPath.pieces "") with [""].
    rewrite List.app_assoc, normalize_snoc_empty. now apply normalize_snoc.
  - apply rsplit_on_none_inv in E. destruct (Hlast workdir E) as [Hs Hp].
    exists (OsPath.normalize done []), (workdir ++ "output").
    replace (workdir ++ "output/") with ((workdir ++ "output") ++ String "/" "")
      by (now rewrite append_assoc).
    rewrite pieces_app, (pieces_plain _ Hs). change (OsPath.pieces "") with [""].
    rewrite normalize_snoc_empty. now apply (normalize_snoc _ [] Hp).
Qed.

(** X17. Whenever the hook [tidy] of the job of [execGanxis] returns, it has
    left the pool and the backups alone, and if [workdir + 'output/'] was a
    directory, the directory is gone with all it contained, empty or not:
    afterwards nothing is found at it or below it, and every other path is
    what it was - absent, a directory, or a file of the same size.  If there
    was no such directory, nothing has changed.  (The hook can raise:
    [shutil.rmtree] refuses a symbolic link.) *)
Theorem tidy_removes_output (workdir : string) (s : Sys) :
  let tmp := locate host (workdir ++ "output/") in
  let run := tidy host workdir s in
  fst run = Ok tt ->
  backups (snd run) = backups s
  /\ pool (snd run) = pool s
  /\ forall q,
       kind_of (Fs.find q (root (snd run)))
       = match Fs.find tmp (root s) with
         | Some (Fs.Dir _) =>
             if within tmp q then Absent else kind_of (Fs.find q (root s))
         | _ => kind_of (Fs.find q (root s))
         end.
Proof.
  intros tmp run. subst run. unfold tidy, bind.
  destruct (os_path_exists host (workdir ++ "output/") s) as [[[|]|x] s1] eqn:Hex;
    [| |discriminate].
  - apply os_path_exists_true in Hex as (-> & Hne & Hdd & n & Hf & _).
    unfold shutil_rmtree. rewrite Hne, Hdd. fold tmp in Hf |- *. rewrite Hf.
    destruct n as [size|es]; [discriminate|].
    destruct (locate_output workdir) as (dir & name & Hloc). fold tmp in Hloc.
    destruct (remove_tree_spec tmp (root s) (Fs.Dir es)) as (r & Hr & Hq);
      [rewrite Hloc; now destruct dir|exact Hf|].
    rewrite Hr. simpl. auto.
  - apply os_path_exists_false in Hex as (-> & Hcase). fold tmp in Hcase.
    intros _. simpl. split; [reflexivity|]. split; [reflexivity|]. intros q.
    destruct Hcase as [Hc|[Hc|[Hc _]]].
    + destruct workdir; discriminate.
    + now rewrite Hc.
    + destruct (Fs.find tmp (root s)) as [[size|es]|]; [reflexivity|discriminate..].
Qed.

End HookFacts.

(** ** The parameters that [execScp] and [execPscan] sweep *)

Lemma sweep_as_for_each (body : float -> M Sys unit) (epsMax deps : float) :
  forall fuel eps xs,
    sweep_values fuel eps epsMax deps = Some xs ->
    forall s, sweep fuel body eps epsMax deps s = for_each xs body s.
Proof.
  induction fuel as [|fuel IH]; intros eps xs Hv s; [discriminate|].
  simpl in Hv |- *. destruct (eps <=? epsMax)%float.
  - destruct (sweep_values fuel (eps + deps) epsMax deps) as [ys|] eqn:E;
      [|discriminate].
    injection Hv as <-. simpl. unfold bind.
    destruct (body eps s) as [[u|e] s1]; [|reflexivity]. now apply IH.
  - now injection Hv as <-.
Qed.

(** A loop whose every iteration that returns has submitted one job. *)
Lemma for_each_submits {A : Type} (R : A -> Job -> Prop) (body : A -> M Sys unit) :
  (forall x s s', body x s = (Ok tt, s') ->
                  exists job, pool s' = (pool s ++ [job])%list /\ R x job) ->
  forall xs s s',
    for_each xs body s = (Ok tt, s') ->
    exists new, pool s' = (pool s ++ new)%list /\ Forall2 R xs new.
Proof.
  intros Hbody. induction xs as [|x xs IH]; intros s s' Hrun; simpl in Hrun.
  - injection Hrun as <-. exists []. rewrite List.app_nil_r. split; [reflexivity|constructor].
  - unfold bind in Hrun. destruct (body x s) as [[[]|e] s1] eqn:Hx; [|discriminate].
    destruct (Hbody x s s1 Hx) as (job & Hp1 & HR).
    destruct (IH s1 s' Hrun) as (new & Hp & Hnew).
    exists (job :: new). split; [|now constructor].
    rewrite Hp, Hp1, <- List.app_assoc. reflexivity.
Qed.

Lemma Forall2_map {A B C : Type} (R : A -> B -> Prop) (f : A -> C) (g : B -> C)
  (xs : list A) (ys : list B) :
  (forall x y, R x y -> g y = f x) -> Forall2 R xs ys -> List.map g ys = List.map f xs.
Proof.
  intros Hfg. induction 1 as [|x y xs ys HR _ IH]; simpl; [reflexivity|].
  now rewrite (Hfg x y HR), IH.
Qed.

Lemma assert_ok (cond : bool) (msg : string) (u : unit) (s s' : Sys) :
  assert cond msg s = (Ok u, s') -> s' = s.
Proof. unfold assert, ret, raise. destruct cond; intros Heq; congruence. Qed.

Section PscanThresholds.

Context `{Constants}.

Variable host : Host.

(** X18. When [execPscan] returns, it has submitted, in this order, the jobs of
    eleven thresholds: 0.05 and the ten sums that adding
    [deps = (0.9 - 0.05) / 10] gives in binary floating point.  The program
    [pscan] gets each threshold with two decimals, while the task name and the
    category of the job carry it as [str] prints it, which for the last five
    sums is not the short decimal: the job of category [Pscan_e0.135] runs
    with [-e 0.14], that of [Pscan_e0.305] with [-e 0.30], that of
    [Pscan_e0.5599999999999999] with [-e 0.56] and that of
    [Pscan_e0.8999999999999998] with [-e 0.90]. *)
Theorem execPscan_thresholds (execpool : bool) (netfile : string)
  (asym : option bool) (odir : bool) (timeout : Z) (pathid workdir : string)
  (seed : option Z) (s : Sys) (n : Z) :
  let run := execPscan host execpool netfile asym odir timeout pathid workdir seed s in
  fst run = Ok n ->
  exists new,
    pool (snd run) = (pool s ++ new)%list
    /\ Forall2 pscan_job pscan_thresholds new
    /\ List.map (fun job => List.nth 6 (job_args job) "") new
       = ["0.05"; "0.14"; "0.22"; "0.30"; "0.39"; "0.47"; "0.56"; "0.64"; "0.73";
          "0.81"; "0.90"]
    /\ List.map job_category new
       = ["Pscan_e0.05"; "Pscan_e0.135"; "Pscan_e0.22"; "Pscan_e0.305";
          "Pscan_e0.39"; "Pscan_e0.475"; "Pscan_e0.5599999999999999";
          "Pscan_e0.6449999999999999"; "Pscan_e0.7299999999999999";
          "Pscan_e0.8149999999999998"; "Pscan_e0.8999999999999998"].
Proof.
  intros run. subst run. unfold execPscan, execPscan_fuel, bind.
  destruct (assert _ _ s) as [[u|e] s0] eqn:H0; [|discriminate].
  assert (Hs0 : s0 = s).
  { now apply assert_ok in H0. }
  subst s0.
  destruct (network_size host netfile asym s) as [[netsize|e] s1] eqn:H1;
    [|discriminate].
  pose proof (quiet_network_size host netfile asym s) as Hq1. rewrite H1 in Hq1.
  simpl in Hq1.
  destruct (assert _ _ s1) as [[u1|e] s2] eqn:H2; [|discriminate].
  assert (Hs2 : s2 = s1).
  { now apply assert_ok in H2. }
  subst s2.
  change (funcToAppName "execPscan") with (Ok "Pscan"). unfold lift.
  assert (Hv : sweep_values 16 0.05 0.9 ((0.9 - 0.05) / PyFloat.of_int 10)
               = Some pscan_thresholds) by (vm_compute; reflexivity).
  rewrite (sweep_as_for_each _ _ _ _ _ _ Hv s1).
  match goal with
  | |- context [for_each pscan_thresholds ?body s1] =>
      destruct (for_each pscan_thresholds body s1) as [[[]|e] s3] eqn:Hloop;
      [|discriminate];
      apply (for_each_submits pscan_job body) in Hloop
  end.
  - destruct Hloop as (new & Hp & Hnew). intros _. simpl.
    exists new. rewrite Hp, Hq1. split; [reflexivity|]. split; [exact Hnew|].
    split.
    + rewrite (Forall2_map pscan_job (PyFloat.format_f 2)
                 (fun job => List.nth 6 (job_args job) "") _ _
                 (fun x y HR => proj1 (proj2 HR)) Hnew).
      vm_compute. reflexivity.
    + rewrite (Forall2_map pscan_job
                 (fun eps => "Pscan_e" ++ PyFloat.str_float eps) job_category _ _
                 (fun x y HR => proj2 (proj2 HR)) Hnew).
      vm_compute. reflexivity.
  - intros eps sa sb Hbody. unfold bind in Hbody.
    pose proof (quiet_prepareResDir host "Pscan"
                  (PyStr.join
                     [delPathSuffix (fst (OsPath.splitext (snd (OsPath.split netfile)))) true;
                      _SEPPARS; "e" ++ PyFloat.str_float eps;
                      PyStr.drop
                        (String.length
                           (delPathSuffix
                              (fst (OsPath.splitext (snd (OsPath.split netfile)))) true))
                        (fst (OsPath.splitext (snd (OsPath.split netfile))))])
                  odir pathid sa) as Hq.
    destruct (prepareResDir host _ _ odir pathid sa) as [[taskpath|e] sc];
      [|discriminate].
    simpl in Hq. unfold execute, modify in Hbody. injection Hbody as <-.
    eexists. simpl. rewrite Hq. split; [reflexivity|].
    unfold pscan_job. simpl. auto.
Qed.

(** X19. When [execScp] returns it has submitted, in this order, one job for each
    clique size from [kmin = 3] to [kmax = 8], both included: the program
    gets the size and ten scale levels, the category of the job is
    [Scp_k<size>]. *)
Theorem execScp_clique_sizes (execpool : bool) (netfile : string)
  (asym : option bool) (odir : bool) (timeout : Z) (pathid workdir : string)
  (seed : option Z) (s : Sys) (n : Z) :
  let run := execScp host execpool netfile asym odir timeout pathid workdir seed s in
  fst run = Ok n ->
  exists new,
    pool (snd run) = (pool s ++ new)%list
    /\ Forall2 scp_job (range 3 9) new
    /\ List.map (fun job => List.nth 7 (job_args job) "") new
       = ["3"; "4"; "5"; "6"; "7"; "8"]
    /\ List.map job_category new
       = ["Scp_k3"; "Scp_k4"; "Scp_k5"; "Scp_k6"; "Scp_k7"; "Scp_k8"].
Proof.
  intros run. subst run. unfold execScp, bind.
  destruct (assert _ _ s) as [[u|e] s0] eqn:H0; [|discriminate].
  assert (Hs0 : s0 = s) by now apply assert_ok in H0.
  subst s0.
  destruct (network_size host netfile asym s) as [[netsize|e] s1] eqn:H1;
    [|discriminate].
  pose proof (quiet_network_size host netfile asym s) as Hq1. rewrite H1 in Hq1.
  simpl in Hq1.
  destruct (assert _ _ s1) as [[u1|e] s2] eqn:H2; [|discriminate].
  assert (Hs2 : s2 = s1) by now apply assert_ok in H2.
  subst s2.
  change (funcToAppName "execScp") with (Ok "Scp"). unfold lift.
  change (3 + (8 + 1 - 3))%Z with 9%Z.
  match goal with
  | |- context [for_each ?ks ?body s1] =>
      change ks with (range 3 9);
      destruct (for_each (range 3 9) body s1) as [[[]|e] s3] eqn:Hloop;
      [|discriminate];
      apply (for_each_submits scp_job body) in Hloop
  end.
  - destruct Hloop as (new & Hp & Hnew). intros _. simpl.
    exists new. rewrite Hp, Hq1. split; [reflexivity|]. split; [exact Hnew|].
    split.
    + rewrite (Forall2_map scp_job PyStr.str_int
                 (fun job => List.nth 7 (job_args job) "") _ _
                 (fun x y HR => proj1 (proj2 HR)) Hnew).
      vm_compute. reflexivity.
    + rewrite (Forall2_map scp_job (fun k => "Scp_k" ++ PyStr.str_int k)
                 job_category _ _
                 (fun x y HR => proj2 (proj2 (proj2 HR))) Hnew).
      vm_compute. reflexivity.
  - intros k sa sb Hbody. unfold bind in Hbody.
    pose proof (quiet_prepareResDir host "Scp"
                  (PyStr.join
                     [delPathSuffix (fst (OsPath.splitext (snd (OsPath.split netfile)))) true;
                      _SEPPARS; "k" ++ PyStr.str_int k;
                      PyStr.drop
                        (String.length
                           (delPathSuffix
                              (fst (OsPath.splitext (snd (OsPath.split netfile)))) true))
                        (fst (OsPath.splitext (snd (OsPath.split netfile))))])
                  odir pathid sa) as Hq.
    destruct (prepareResDir host _ _ odir pathid sa) as [[taskpath|e] sc];
      [|discriminate].
    simpl in Hq. unfold execute, modify in Hbody. injection Hbody as <-.
    eexists. simpl. rewrite Hq. split; [reflexivity|].
    unfold scp_job. simpl. auto.
Qed.

End PscanThresholds.
(** ** The tables as the samples of the logs *)

Lemma bump_snoc (val : float) (l : list ItemsStatistic.t) (s : ItemsStatistic.t) :
  bump val (l ++ [s])%list = (l ++ [ItemsStatistic.add val s])%list.
Proof.
  induction l as [|s0 l IH]; [reflexivity|].
  change ((s0 :: l) ++ [s])%list with (s0 :: (l ++ [s]))%list.
  destruct (l ++ [s])%list as [|s1 r] eqn:E; [now destruct l|].
  change (bump val (s0 :: s1 :: r)) with (s0 :: bump val (s1 :: r)).
  now rewrite IH.
Qed.

Lemma add_last_bump (val : float) (l : list ItemsStatistic.t) :
  l <> [] -> add_last val l = Ok (bump val l).
Proof.
  induction l as [|s l IH]; intros Hne; [contradiction|].
  destruct l as [|s' l]; [reflexivity|].
  change (add_last val (s :: s' :: l))
    with (pbind (add_last val (s' :: l)) (fun r => Ok (s :: r))).
  rewrite IH by discriminate. reflexivity.
Qed.

(** One accumulation, by the statistics that the network has: it raises
    when they are fewer than the algorithms read before. *)
Lemma accumulate_feed (alg net : string) (ialg : nat) (val : float) (tbl : Table) :
  accumulate alg net ialg val tbl
  = if Nat.ltb (List.length (stats_of net tbl)) ialg
    then Raise (AssertionError (not_synced ialg net))
    else Ok (store net (feed alg net ialg (stats_of net tbl) val) tbl).
Proof.
  unfold accumulate, feed. fold (stats_of net tbl).
  set (l := stats_of net tbl).
  destruct (Nat.ltb_spec (List.length l) ialg) as [Hlt|Hge].
  - destruct (Nat.leb_spec (List.length l) ialg) as [_|Hgt]; [|lia].
    destruct (Nat.eqb_spec (List.length l) ialg) as [Heq|_]; [lia|reflexivity].
  - destruct (Nat.eqb_spec (List.length l) ialg) as [Heq|Hne].
    + destruct (Nat.leb_spec (List.length l) ialg) as [_|Hgt]; [|lia].
      cbn [pbind]. rewrite add_last_bump; [reflexivity|now destruct l].
    + destruct (Nat.leb_spec (List.length l) ialg) as [Hle|_]; [lia|].
      cbn [pbind]. rewrite add_last_bump; [reflexivity|].
      destruct l; [simpl in Hge, Hne; lia|discriminate].
Qed.

Lemma stats_of_store_same (net : string) (l : list ItemsStatistic.t) (tbl : Table) :
  stats_of net (store net l tbl) = l.
Proof. unfold stats_of. now rewrite lookup_store_same. Qed.

(** The samples one after the other end in the slot of the algorithm. *)
Lemma fold_feed_slot (alg net : string) (ialg : nat) (vs : list float) :
  forall (l : list ItemsStatistic.t) (s : ItemsStatistic.t),
    List.length l = ialg ->
    List.fold_left (feed alg net ialg) vs (l ++ [s])%list
    = (l ++ [List.fold_left (fun s x => ItemsStatistic.add x s) vs s])%list.
Proof.
  induction vs as [|v vs IH]; intros l s Hl; [reflexivity|].
  cbn [List.fold_left]. unfold feed at 2. rewrite List.length_app. cbn [List.length].
  destruct (Nat.eqb_spec (List.length l + 1) ialg) as [Heq|_]; [lia|].
  rewrite bump_snoc. now apply IH.
Qed.

Lemma fold_feed (alg net : string) (ialg : nat) (v : float) (vs : list float)
  (l : list ItemsStatistic.t) :
  List.length l = ialg ->
  List.fold_left (feed alg net ialg) (v :: vs) l
  = (l ++ [accumulated (PyStr.join_with "_" [alg; net]) v vs])%list.
Proof.
  intros Hl. cbn [List.fold_left]. unfold feed at 2.
  rewrite (proj2 (Nat.eqb_eq _ _) Hl), bump_snoc.
  now rewrite (fold_feed_slot alg net ialg vs l _ Hl).
Qed.

Lemma accumulate_all_tables (alg net : string) (ialg : nat) (vals : list float) :
  forall (tables tables' : list Table),
    accumulate_all alg net ialg vals tables = Ok tables' ->
    forall imsr tbl,
      List.nth_error tables imsr = Some tbl ->
      exists tbl',
        List.nth_error tables' imsr = Some tbl'
        /\ match List.nth_error vals imsr with
           | Some val =>
               ialg <= List.length (stats_of net tbl)
               /\ tbl' = store net (feed alg net ialg (stats_of net tbl) val) tbl
           | None => tbl' = tbl
           end.
Proof.
  induction vals as [|val vals IH]; intros tables tables' Hacc imsr tbl Hn.
  - injection Hacc as <-. exists tbl. split; [exact Hn|]. now destruct imsr.
  - destruct tables as [|t0 tables]; [discriminate|]. simpl in Hacc.
    apply pbind_Ok in Hacc as (t0' & H0 & Hacc).
    apply pbind_Ok in Hacc as (rest & Hrest & Hacc). injection Hacc as <-.
    destruct imsr as [|imsr]; simpl in Hn |- *.
    + injection Hn as ->. exists t0'. split; [reflexivity|].
      rewrite accumulate_feed in H0.
      destruct (Nat.ltb_spec (List.length (stats_of net tbl)) ialg) as [|Hge];
        [discriminate|].
      injection H0 as <-. auto.
    + exact (IH _ _ Hrest imsr tbl Hn).
Qed.

Section SampleFacts.

Context `{Constants}.

Lemma line_values_length (ln net : string) (vals : list float) :
  line_values ln = Some (net, vals) -> List.length vals = 3.
Proof.
  unfold line_values. destruct (skipped ln); [discriminate|].
  destruct (negb _); [discriminate|]. destruct (PyStr.is_empty _); [discriminate|].
  destruct (PyFloat.float_of_str _); [|discriminate].
  destruct (PyFloat.float_of_str _); [|discriminate].
  destruct (PyFloat.float_of_str _); [|discriminate].
  intros Heq. now injection Heq as <- <-.
Qed.

(** What the body of the reading loop does with a line, by what the line
    holds. *)
Lemma process_line_values (alg file : string) (ialg : nat) (tables : list Table)
  (ln : string) :
  match line_values ln with
  | Some (net, vals) =>
      process_line alg file ialg tables ln = accumulate_all alg net ialg vals tables
  | None =>
      forall tables', process_line alg file ialg tables ln = Ok tables' ->
                      tables' = tables
  end.
Proof.
  unfold line_values, process_line, skipped, process_fields.
  destruct (PyStr.is_empty (PyStr.lstrip ln) || PyStr.startswith "#" (PyStr.lstrip ln))%bool.
  { intros tables' Heq. now injection Heq. }
  destruct (negb _); [discriminate|].
  destruct (PyStr.is_empty _); [discriminate|].
  destruct (PyFloat.float_of_str _) as [etime|e]; [|discriminate].
  destruct (PyFloat.float_of_str _) as [ctime|e]; [|discriminate].
  destruct (PyFloat.float_of_str _) as [rmem|e]; [|discriminate].
  reflexivity.
Qed.

Lemma samples_cons (imsr : nat) (net ln : string) (lines : list string) :
  samples imsr net (ln :: lines)
  = (samples imsr net [ln] ++ samples imsr net lines)%list.
Proof. unfold samples. simpl. now rewrite List.app_nil_r. Qed.

Lemma samples_one (imsr : nat) (net ln : string) :
  samples imsr net [ln]
  = match line_values ln with
    | Some (n, vals) => if String.eqb n net then [List.nth imsr vals 0%float] else []
    | None => []
    end.
Proof. unfold samples. cbn [List.flat_map]. apply List.app_nil_r. Qed.

Lemma process_line_lookup (alg file : string) (ialg : nat)
  (tables tables' : list Table) (ln : string) (imsr : nat) (tbl : Table) :
  process_line alg file ialg tables ln = Ok tables' ->
  List.nth_error tables imsr = Some tbl ->
  imsr < 3 ->
  exists tbl',
    List.nth_error tables' imsr = Some tbl'
    /\ forall net,
         match samples imsr net [ln] with
         | [] => lookup net tbl' = lookup net tbl
         | x :: _ =>
             ialg <= List.length (stats_of net tbl)
             /\ lookup net tbl' = Some (feed alg net ialg (stats_of net tbl) x)
         end.
Proof.
  intros Hp Hn Himsr. pose proof (process_line_values alg file ialg tables ln) as Hv.
  destruct (line_values ln) as [[n vals]|] eqn:Hl.
  - rewrite Hv in Hp. pose proof (line_values_length ln n vals Hl) as Hlen.
    destruct (accumulate_all_tables alg n ialg vals tables tables' Hp imsr tbl Hn)
      as (tbl' & Hn' & Hrel).
    exists tbl'. split; [exact Hn'|]. intros net. rewrite samples_one, Hl.
    destruct (List.nth_error vals imsr) as [val|] eqn:Hval.
    + destruct Hrel as [Hle ->].
      destruct (String.eqb_spec n net) as [->|Hne].
      * rewrite (List.nth_error_nth _ _ _ Hval). split; [exact Hle|].
        apply lookup_store_same.
      * apply lookup_store_other. congruence.
    + apply List.nth_error_None in Hval. lia.
  - rewrite (Hv tables' Hp). exists tbl. split; [exact Hn|]. intros net.
    now rewrite samples_one, Hl.
Qed.

(** The lines of a log that were read without an error, by the samples they
    hold for each network: every sample went through [feed]. *)
Lemma process_lines_lookup (alg file : string) (ialg : nat) (imsr : nat)
  (lines : list string) :
  imsr < 3 ->
  forall (tables tables' : list Table) (tbl : Table),
    process_lines alg file ialg tables lines = Ok tables' ->
    List.nth_error tables imsr = Some tbl ->
    exists tbl',
      List.nth_error tables' imsr = Some tbl'
      /\ forall net,
           match samples imsr net lines with
           | [] => lookup net tbl' = lookup net tbl
           | x :: xs =>
               ialg <= List.length (stats_of net tbl)
               /\ lookup net tbl'
                  = Some (List.fold_left (feed alg net ialg) (x :: xs)
                            (stats_of net tbl))
           end.
Proof.
  intros Himsr. induction lines as [|ln lines IH]; intros tables tables' tbl Hp Hn.
  - injection Hp as <-. exists tbl. split; [exact Hn|]. reflexivity.
  - simpl in Hp. apply pbind_Ok in Hp as (t1 & H1 & Hp).
    destruct (process_line_lookup alg file ialg tables t1 ln imsr tbl H1 Hn Himsr)
      as (tbl1 & Hn1 & Hrel1).
    destruct (IH t1 tables' tbl1 Hp Hn1) as (tbl' & Hn' & Hrel).
    exists tbl'. split; [exact Hn'|]. intros net.
    specialize (Hrel1 net). specialize (Hrel net). rewrite samples_cons.
    assert (Hone : samples imsr net [ln] = []
                   \/ exists x, samples imsr net [ln] = [x]).
    { rewrite samples_one.
      destruct (line_values ln) as [[n vals]|]; [|now left].
      destruct (String.eqb n net); [right; eauto|now left]. }
    destruct Hone as [Hnil|(x & Hx)].
    + rewrite Hnil in Hrel1 |- *. cbn [List.app].
      unfold stats_of in Hrel |- *. rewrite <- Hrel1. exact Hrel.
    + rewrite Hx in Hrel1 |- *. destruct Hrel1 as [Hle Hl1]. cbn [List.app].
      split; [exact Hle|].
      assert (Hs1 : stats_of net tbl1 = feed alg net ialg (stats_of net tbl) x).
      { unfold stats_of at 1. now rewrite Hl1. }
      destruct (samples imsr net lines) as [|y ys].
      * rewrite Hrel, Hl1. reflexivity.
      * destruct Hrel as [_ Hrel]. rewrite Hrel, Hs1. reflexivity.
Qed.


Lemma samples_length (imsr : nat) (net : string) (lines : list string) :
  List.length (samples imsr net lines) = List.length (samples 0 net lines).
Proof.
  induction lines as [|ln lines IH]; [reflexivity|].
  rewrite (samples_cons imsr), (samples_cons 0), !List.length_app, IH, !samples_one.
  destruct (line_values ln) as [[n vals]|]; [|reflexivity].
  now destruct (String.eqb n net).
Qed.

Lemma mentions_samples (imsr : nat) (net : string) (lines : list string) :
  mentions net lines = negb (Nat.eqb (List.length (samples imsr net lines)) 0).
Proof. unfold mentions. now rewrite (samples_length imsr). Qed.

Lemma aligned_bound (malgs : list string) (tbl : Table) (net : string) :
  table_aligned malgs tbl -> List.length (stats_of net tbl) <= List.length malgs.
Proof.
  intros Ht. unfold stats_of. destruct (lookup net tbl) as [l|] eqn:El; [|simpl; lia].
  apply lookup_In in El.
  destruct (proj1 (List.Forall_forall _ _) Ht _ El) as [_ Hs]. simpl in Hs.
  destruct (Nat.le_gt_cases (List.length l) (List.length malgs)) as [Hle|Hgt];
    [exact Hle|].
  destruct (List.nth_error l (List.length malgs)) as [stat|] eqn:Hn.
  - destruct (Hs _ _ Hn) as (alg & Ha & _).
    assert (Hlt : List.length malgs < List.length malgs)
      by (apply List.nth_error_Some; congruence).
    lia.
  - apply List.nth_error_None in Hn. lia.
Qed.

Lemma Forall2_nth_error {A B : Type} (R : A -> B -> Prop) :
  forall (l1 : list A) (l2 : list B),
    List.length l1 = List.length l2 ->
    (forall i x y, List.nth_error l1 i = Some x -> List.nth_error l2 i = Some y ->
                   R x y) ->
    Forall2 R l1 l2.
Proof.
  induction l1 as [|x l1 IH]; intros [|y l2] Hlen Hn; try discriminate; constructor.
  - exact (Hn 0 x y eq_refl eq_refl).
  - apply IH; [simpl in Hlen; lia|]. intros i. exact (Hn (S i)).
Qed.

(** The log of the algorithm of index [ialg], read without an error into
    tables whose networks have at most [ialg] statistics: a network that the
    lines hold samples for had exactly [ialg] statistics and has got one
    more, accumulated from its samples; the others are as they were. *)
Lemma process_lines_slot (alg file : string) (ialg : nat) (imsr : nat)
  (lines : list string) (tables tables' : list Table) (tbl : Table) :
  imsr < 3 ->
  process_lines alg file ialg tables lines = Ok tables' ->
  List.nth_error tables imsr = Some tbl ->
  (forall net, List.length (stats_of net tbl) <= ialg) ->
  exists tbl',
    List.nth_error tables' imsr = Some tbl'
    /\ forall net,
         match samples imsr net lines with
         | [] => lookup net tbl' = lookup net tbl
         | v :: vs =>
             List.length (stats_of net tbl) = ialg
             /\ lookup net tbl'
                = Some (stats_of net tbl
                          ++ [accumulated (PyStr.join_with "_" [alg; net]) v vs])%list
         end.
Proof.
  intros Himsr Hp Hn Hb.
  destruct (process_lines_lookup alg file ialg imsr lines Himsr tables tables' tbl
              Hp Hn) as (tbl' & Hn' & Hrel).
  exists tbl'. split; [exact Hn'|]. intros net. specialize (Hrel net).
  destruct (samples imsr net lines) as [|v vs]; [exact Hrel|].
  destruct Hrel as [Hle Hl]. specialize (Hb net).
  assert (Heq : List.length (stats_of net tbl) = ialg) by lia.
  split; [exact Heq|]. now rewrite Hl, (fold_feed alg net ialg v vs _ Heq).
Qed.

End SampleFacts.

(** * The reading loop of [aggexec] and its reports, end to end *)

Section AggregationClaims.

Context `{Constants}.

Lemma read_logs_tables (algs : list string) (w w1 : World) (a : Agg) :
  read_logs algs agg0 w = (Ok a, w1) ->
  agg_inv w algs a /\ List.length (measures a) = 3 /\ disk w1 = disk w.
Proof.
  intros Hr.
  destruct (read_logs_outcome algs agg0 w) as (Hd & _ & Hlen); [simpl; lia|].
  rewrite Hr in Hd, Hlen. simpl in Hd, Hlen.
  eapply read_logs_inv in Hr as (Hinv & _ & _); [|reflexivity|apply agg_inv_start].
  auto.
Qed.

(** C2 (amended). The accumulator tables of [aggexec] at every point of the
    reading loop: after the logs of [algs] and any number of lines ([lines],
    in particular every prefix of a log) of the log of the next algorithm
    [alg].
    - The algorithms measured so far are those of [algs] whose log could be
      opened, in the order of the list; each of them has an index, whether
      or not its log held a result.
    - In each of the three tables every network has a non-empty list of
      statistics whose slot [i] is named after the [i]-th of these algorithms
      ([alg] being the last) and has accumulated at least one result: no
      slot is a placeholder.
    - A network that [lines] hold a result for had a slot of every algorithm
      measured before and has got one more slot, that of [alg], behind them;
      every other network has the statistics it had, and none if it had
      none.
    - A result for a network that lacks the slot of an algorithm measured
      before fails the assertion of the loop. *)
Theorem aggexec_accumulators_aligned (algs : list string) (alg : string)
  (w w1 : World) (a : Agg) (lines : list string) (tables : list Table) :
  read_logs algs agg0 w = (Ok a, w1) ->
  process_lines alg (algesfile_of alg) (ialg a) (measures a) lines = Ok tables ->
  malgs a = List.filter (has_log w) algs
  /\ ialg a = List.length (malgs a)
  /\ Forall (table_aligned (malgs a ++ [alg])) tables
  /\ Forall2
       (fun old new =>
          forall net,
            if mentions net lines
            then List.length (stats_of net old) = ialg a
                 /\ exists stat, lookup net new = Some (stats_of net old ++ [stat])%list
            else lookup net new = lookup net old)
       (measures a) tables
  /\ forall ln net vals tbl rest,
       line_values ln = Some (net, vals) ->
       tables = tbl :: rest ->
       List.length (stats_of net tbl) < ialg a ->
       process_line alg (algesfile_of alg) (ialg a) tables ln
       = Raise (AssertionError (not_synced (ialg a) net)).
Proof.
  intros Hr Hp.
  destruct (read_logs_tables algs w w1 a Hr) as ((Hm & Hi & Ht) & Hlen & _).
  split; [exact Hm|]. split; [exact Hi|]. split; [|split].
  - rewrite Hi in Hp. eapply process_lines_aligned; [|exact Hp].
    eapply Forall_impl; [|exact Ht]. intros tbl. apply table_aligned_more.
  - pose proof (process_lines_outcome alg (algesfile_of alg) (ialg a) lines
                  (measures a)) as Hout.
    rewrite Hp in Hout.
    assert (H3 : 3 <= List.length (measures a)) by lia. specialize (Hout H3). cbv beta iota in Hout.
    apply Forall2_nth_error; [symmetry; exact Hout|]. intros imsr old new Hold Hnew net.
    assert (Himsr : imsr < 3).
    { rewrite <- Hlen. apply List.nth_error_Some. congruence. }
    destruct (process_lines_slot alg (algesfile_of alg) (ialg a) imsr lines
                (measures a) tables old Himsr Hp Hold) as (new' & Hnew' & Hrel).
    { intros n. rewrite Hi. apply aligned_bound.
      exact (proj1 (List.Forall_forall _ _) Ht old (List.nth_error_In _ _ Hold)). }
    assert (Heq : Some new = Some new') by (rewrite <- Hnew; exact Hnew').
    injection Heq as <-. specialize (Hrel net).
    rewrite (mentions_samples imsr).
    destruct (samples imsr net lines) as [|v vs]; [exact Hrel|].
    destruct Hrel as [Hl Hs]. simpl. split; [exact Hl|]. eauto.
  - intros ln net vals tbl rest Hv -> Hlt.
    pose proof (process_line_values alg (algesfile_of alg) (ialg a) (tbl :: rest) ln)
      as Hpl.
    rewrite Hv in Hpl. rewrite Hpl. pose proof (line_values_length ln net vals Hv).
    destruct vals as [|v0 vals]; [discriminate|]. simpl.
    rewrite accumulate_feed. apply Nat.ltb_lt in Hlt. now rewrite Hlt.
Qed.

(** ** The number of fields of a line *)

Lemma accumulate_all_assertion (alg net : string) (ialg : nat) (vals : list float) :
  forall tables msg,
    accumulate_all alg net ialg vals tables = Raise (AssertionError msg) ->
    msg = not_synced ialg net.
Proof.
  induction vals as [|val vals IH]; intros tables msg Hacc; [discriminate|].
  destruct tables as [|tbl tables]; [discriminate|]. simpl in Hacc.
  rewrite accumulate_feed in Hacc.
  destruct (Nat.ltb _ _); [now injection Hacc|]. simpl in Hacc.
  destruct (accumulate_all alg net ialg vals tables) as [rest|e] eqn:Hrest;
    [discriminate|].
  simpl in Hacc. injection Hacc as ->. now apply (IH tables).
Qed.

Lemma float_of_str_raises (s : string) (e : exn) :
  PyFloat.float_of_str s = Raise e -> exists msg, e = ValueError msg.
Proof.
  unfold PyFloat.float_of_str.
  destruct (PyFloat.read_sign _) as [neg s1].
  destruct (_ || _)%bool; [discriminate|].
  destruct (String.eqb _ _); [discriminate|].
  destruct (PyFloat.read_digits 0 0 s1) as [[ip ni] s2].
  destruct (match s2 with
            | String "."%char s' => PyFloat.read_digits ip 0 s'
            | _ => (ip, 0, s2)
            end) as [[mant nf] s3].
  destruct (Nat.eqb _ _); [intros Heq; injection Heq as <-; now eexists|].
  destruct s3 as [|c s4]; [discriminate|].
  destruct (Ascii.eqb _ _); [|intros Heq; injection Heq as <-; now eexists].
  destruct (PyFloat.read_sign s4) as [eneg s5].
  destruct (PyFloat.read_digits 0 0 s5) as [[ev ne] s6].
  destruct (_ || _)%bool; [intros Heq; injection Heq as <-; now eexists|discriminate].
Qed.

(** The failed assertions of the body of the reading loop: the one on the
    number of fields is that of a line with fewer than six. *)
Lemma process_line_assertion (alg file : string) (ialg : nat)
  (tables : list Table) (ln msg : string) :
  process_line alg file ialg tables ln = Raise (AssertionError msg) ->
  PyStr.startswith "Invalid format" msg = true ->
  skipped ln = false
  /\ msg = invalid_format file (PyStr.lstrip ln)
  /\ List.length (PyStr.split ln) < 6.
Proof.
  unfold process_line, skipped.
  destruct (PyStr.is_empty (PyStr.lstrip ln) || PyStr.startswith "#" (PyStr.lstrip ln))%bool;
    [discriminate|].
  rewrite split_max_length.
  destruct (Nat.eqb_spec (Nat.min (List.length (PyStr.split ln)) 6) 6) as [Heq|Hne];
    cbn [negb].
  - unfold process_fields. destruct (PyStr.is_empty _).
    { intros Heq' Hst. injection Heq' as <-. discriminate. }
    destruct (PyFloat.float_of_str (List.nth 0 _ _)) as [etime|e] eqn:E0.
    2:{ apply float_of_str_raises in E0 as (m & ->). discriminate. }
    cbn [pbind].
    destruct (PyFloat.float_of_str (List.nth 1 _ _)) as [ctime|e] eqn:E1.
    2:{ apply float_of_str_raises in E1 as (m & ->). discriminate. }
    cbn [pbind].
    destruct (PyFloat.float_of_str (List.nth 4 _ _)) as [rmem|e] eqn:E2.
    2:{ apply float_of_str_raises in E2 as (m & ->). discriminate. }
    cbn [pbind]. intros Hacc Hst. apply accumulate_all_assertion in Hacc. subst msg.
    discriminate.
  - intros Heq' Hst. injection Heq' as <-. split; [reflexivity|].
    split; [reflexivity|]. lia.
Qed.

Lemma process_lines_assertion (alg file : string) (ialg : nat) (msg : string)
  (lines : list string) :
  forall tables,
    process_lines alg file ialg tables lines = Raise (AssertionError msg) ->
    PyStr.startswith "Invalid format" msg = true ->
    exists ln,
      In ln lines /\ skipped ln = false
      /\ msg = invalid_format file (PyStr.lstrip ln)
      /\ List.length (PyStr.split ln) < 6.
Proof.
  induction lines as [|ln lines IH]; intros tables Hp Hst; [discriminate|].
  simpl in Hp.
  destruct (process_line alg file ialg tables ln) as [t1|e] eqn:H1; simpl in Hp.
  - destruct (IH t1 Hp Hst) as (l & Hin & Hrest). exists l. split; [now right|exact Hrest].
  - injection Hp as ->. exists ln. split; [now left|].
    now apply (process_line_assertion alg file ialg tables).
Qed.

Lemma read_logs_assertion (msg : string) (algs : list string) :
  forall (a : Agg) (w : World),
    fst (read_logs algs a w) = Raise (AssertionError msg) ->
    PyStr.startswith "Invalid format" msg = true ->
    exists alg ln,
      In alg algs /\ In ln (log_lines w alg) /\ skipped ln = false
      /\ msg = invalid_format (algesfile_of alg) (PyStr.lstrip ln)
      /\ List.length (PyStr.split ln) < 6.
Proof.
  induction algs as [|alg algs IH]; intros a w Hr Hst; [discriminate|].
  simpl in Hr. unfold bind in Hr.
  destruct (lookup (algesfile_of alg) (disk w)) as [content|] eqn:Hl.
  - rewrite (read_log_opened alg content a w Hl) in Hr.
    destruct (process_lines alg (algesfile_of alg) (ialg a) (measures a)
                (PyStr.readlines content)) as [t1|e] eqn:Hp.
    + destruct (IH _ w Hr Hst) as (alg' & ln & Hin & Hrest).
      exists alg', ln. split; [now right|exact Hrest].
    + simpl in Hr. injection Hr as ->.
      destruct (process_lines_assertion alg (algesfile_of alg) (ialg a) msg _ _ Hp Hst)
        as (ln & Hin & Hrest).
      exists alg, ln. split; [now left|]. split; [|exact Hrest].
      unfold log_lines. now rewrite Hl.
  - rewrite (read_log_missing alg a w Hl) in Hr.
    destruct (IH _ _ Hr Hst) as (alg' & ln & Hin & Hlines & Hrest).
    exists alg', ln. split; [now right|]. split; [exact Hlines|exact Hrest].
Qed.

(** What [aggexec] raises, the reading loop has raised. *)
Lemma aggexec_raise (timestamp trace : string) (algs : list string) (w : World)
  (e : exn) :
  fst (aggexec timestamp trace algs w) = Raise e ->
  fst (read_logs algs agg0 w) = Raise e.
Proof.
  unfold aggexec, bind.
  destruct (read_logs algs agg0 w) as [[a|x] w1] eqn:Hrun;
    [|simpl; intros Heq; now injection Heq as ->].
  destruct (read_logs_tables algs w w1 a Hrun) as ((_ & _ & Hal) & Hlen & _).
  destruct (report_phase_effect timestamp trace a w1) as (w' & -> & _);
    [lia|exact Hal|].
  discriminate.
Qed.

(** C4 (amended). The assertion of [aggexec] on the number of fields of a
    log line.
    - When the reading loop reaches a line that is not blank and not a
      comment and has fewer than six whitespace-separated fields - the logs
      of the algorithms before and the lines before it having been read
      without an error - [aggexec] raises the [AssertionError] that names
      the file and the line, and ends there: no report is written, the files
      are as they were.
    - Whenever [aggexec] raises this assertion, it is for a line of one of
      the logs that is not blank, not a comment and has fewer than six
      fields: a line with six fields or more never fails it (its fields
      beyond the fifth, with the blanks between them, are the task name). *)
Theorem aggexec_field_count (timestamp trace : string) (algs : list string)
  (w : World) :
  (forall algs1 alg algs2 a w1 content before ln after tables,
     algs = (algs1 ++ alg :: algs2)%list ->
     read_logs algs1 agg0 w = (Ok a, w1) ->
     lookup (algesfile_of alg) (disk w) = Some content ->
     PyStr.readlines content = (before ++ ln :: after)%list ->
     process_lines alg (algesfile_of alg) (ialg a) (measures a) before = Ok tables ->
     skipped ln = false ->
     List.length (PyStr.split ln) < 6 ->
     aggexec timestamp trace algs w
     = (Raise (AssertionError
                 (invalid_format (algesfile_of alg) (PyStr.lstrip ln))), w1)
     /\ disk w1 = disk w)
  /\ (forall msg,
        fst (aggexec timestamp trace algs w) = Raise (AssertionError msg) ->
        PyStr.startswith "Invalid format" msg = true ->
        exists alg ln,
          In alg algs /\ In ln (log_lines w alg) /\ skipped ln = false
          /\ msg = invalid_format (algesfile_of alg) (PyStr.lstrip ln)
          /\ List.length (PyStr.split ln) < 6).
Proof.
  split.
  - intros algs1 alg algs2 a w1 content before ln after tables -> Hr Hl Hlines Hp Hs Hlt.
    destruct (read_logs_tables algs1 w w1 a Hr) as (_ & _ & Hd).
    split; [|exact Hd]. rewrite aggexec_app, Hr. cbn [read_logs]. unfold bind.
    rewrite <- Hd in Hl. rewrite (read_log_opened alg content a w1 Hl), Hlines.
    assert (Hraise : process_lines alg (algesfile_of alg) (ialg a) (measures a)
                       (before ++ ln :: after)
                     = Raise (AssertionError
                                (invalid_format (algesfile_of alg) (PyStr.lstrip ln)))).
    { clear Hlines Hl. revert Hp. generalize (measures a). 
      induction before as [|l0 before IH]; intros t0 Hp.
      - injection Hp as ->. cbn [List.app process_lines].
        unfold skipped in Hs. apply orb_false_elim in Hs as [Hne Hnc].
        destruct (process_line_field_count alg (algesfile_of alg) (ialg a) tables ln
                    Hne Hnc) as [_ ->].
        apply Nat.ltb_lt in Hlt. now rewrite Hlt.
      - cbn [List.app process_lines] in Hp |- *.
        destruct (process_line alg (algesfile_of alg) (ialg a) t0 l0) as [t1|e];
          [|discriminate].
        cbn [pbind] in Hp |- *. now apply IH. }
    now rewrite Hraise.
  - intros msg Hr Hst. apply aggexec_raise in Hr.
    now apply (read_logs_assertion msg algs agg0 w).
Qed.

End AggregationClaims.

(** ** The tables as the statistics gathered from the logs *)

Section GatheredFacts.

Context `{Constants}.









End GatheredFacts.


(** * The functions on the sample inputs *)

#[local] Existing Instance sample_constants.

(** The scenario of two logs, one for the networks [A] and [B] and one for
    [A] only, after the log of [alg1] and the whole log of [alg2]: the tables
    are aligned with [alg1; alg2]; [A], which the log of [alg2] holds a result
    for, has got a second slot, [B] has the one slot it had. *)
Lemma aligned_after_two_logs :
  let a := agg_of (read_logs ["alg1"] agg0 two_logs_world) in
  let lines := PyStr.readlines alg2_log in
  let tables :=
    tables_of (process_lines "alg2" (algesfile_of "alg2") (ialg a) (measures a)
                 lines) in
  (malgs a = List.filter (has_log two_logs_world) ["alg1"]
   /\ ialg a = List.length (malgs a)
   /\ Forall (table_aligned (malgs a ++ ["alg2"])) tables
   /\ Forall2
        (fun old new =>
           forall net,
             if mentions net lines
             then List.length (stats_of net old) = ialg a
                  /\ exists stat,
                       lookup net new = Some (stats_of net old ++ [stat])%list
             else lookup net new = lookup net old)
        (measures a) tables
   /\ forall ln net vals tbl rest,
        line_values ln = Some (net, vals) ->
        tables = tbl :: rest ->
        List.length (stats_of net tbl) < ialg a ->
        process_line "alg2" (algesfile_of "alg2") (ialg a) tables ln
        = Raise (AssertionError (not_synced (ialg a) net)))
  /\ malgs a = ["alg1"]
  /\ List.map (fun net => mentions net lines) ["A"; "B"] = [true; false]
  /\ List.map slots tables
     = [[("A", ["alg1_A"; "alg2_A"]); ("B", ["alg1_B"])];
        [("A", ["alg1_A"; "alg2_A"]); ("B", ["alg1_B"])];
        [("A", ["alg1_A"; "alg2_A"]); ("B", ["alg1_B"])]].
Proof.
  split.
  - apply (aggexec_accumulators_aligned ["alg1"] "alg2" two_logs_world
             two_logs_world (agg_of (read_logs ["alg1"] agg0 two_logs_world))
             (PyStr.readlines alg2_log)); vm_compute; reflexivity.
  - vm_compute. repeat split; reflexivity.
Defined.

(** An algorithm whose log is opened has an index, even if the log holds no
    result.  After the logs of [alg1] and of [algE], which is empty, two
    algorithms are measured, and the reports have a column for [algE] that no
    row fills; the result of [alg2] for [A] then finds one slot where it
    expects two, and the aggregation stops on its assertion, as it does when
    the empty log comes first, or when the log for [A] alone comes before
    the log for [A] and [B]. *)
Lemma opened_log_without_results :
  malgs (agg_of (read_logs ["alg1"; "algE"] agg0 empty_log_world))
  = ["alg1"; "algE"]
  /\ ialg (agg_of (read_logs ["alg1"; "algE"] agg0 empty_log_world)) = 2
  /\ List.map slots
       (measures (agg_of (read_logs ["alg1"; "algE"] agg0 empty_log_world)))
     = [[("A", ["alg1_A"]); ("B", ["alg1_B"])];
        [("A", ["alg1_A"]); ("B", ["alg1_B"])];
        [("A", ["alg1_A"]); ("B", ["alg1_B"])]]
  /\ file_text (resfile_of "exectime")
       (snd (aggexec sample_stamp "" ["alg1"; "algE"] empty_log_world))
     = stamp_line sample_stamp
         ++ "# <network>" ++ tab ++ "alg1" ++ tab ++ "algE" ++ nl
         ++ "A" ++ tab ++ "1.500" ++ nl ++ "B" ++ tab ++ "2.500" ++ nl
  /\ aggexec sample_stamp "" ["alg1"; "algE"; "alg2"] empty_log_world
     = (Raise (AssertionError (not_synced 2 "A")), empty_log_world)
  /\ aggexec sample_stamp "" ["algE"; "alg1"] empty_log_world
     = (Raise (AssertionError (not_synced 1 "A")), empty_log_world)
  /\ aggexec sample_stamp "" ["alg2"; "alg1"] two_logs_world
     = (Raise (AssertionError (not_synced 1 "B")), two_logs_world).
Proof. vm_compute. repeat split; reflexivity. Qed.

(** The scenario of two logs, one for the networks [A] and [B] and one for
    [A] only: [A] has the two slots of [alg1] and [alg2], [B] the one slot of
    [alg1], in each of the three tables. *)
Example two_logs_slots :
  List.map slots (measures (agg_of (read_logs ["alg1"; "alg2"] agg0 two_logs_world)))
  = [[("A", ["alg1_A"; "alg2_A"]); ("B", ["alg1_B"])];
     [("A", ["alg1_A"; "alg2_A"]); ("B", ["alg1_B"])];
     [("A", ["alg1_A"; "alg2_A"]); ("B", ["alg1_B"])]].
Proof. vm_compute. reflexivity. Qed.

(** In the other order the log of [alg1] brings a network that [alg2] has no
    result for, and the aggregation stops on its assertion. *)
Example two_logs_not_synced :
  fst (read_logs ["alg2"; "alg1"] agg0 two_logs_world)
  = Raise (AssertionError
             "Network statistics are not synced with algorithms: ialg=1, net: B").
Proof. vm_compute. reflexivity. Qed.

(** A log whose second line has five fields: [aggexec] raises on it and
    leaves the files as they are, the results of the first line are lost. *)
Lemma five_fields_rejected :
  List.length (PyStr.split line5) = 5
  /\ aggexec sample_stamp "" ["algX"] short_world
     = (Raise (AssertionError
                 (invalid_format (algesfile_of "algX") (PyStr.lstrip line5))),
        short_world)
  /\ disk short_world = disk short_world.
Proof.
  split; [reflexivity|].
  apply (proj1 (aggexec_field_count sample_stamp "" ["algX"] short_world)
           [] "algX" [] agg0 short_world short_log
           [logline "0.5" "0.4" "0.3" "0.1" "2.5" "graph1"] line5
           [logline "1.2" "1.0" "0.9" "0.1" "4.0" "graph2"]
           (tables_of
              (process_lines "algX" (algesfile_of "algX") 0 (measures agg0)
                 [logline "0.5" "0.4" "0.3" "0.1" "2.5" "graph1"])));
    try reflexivity.
  vm_compute. lia.
Defined.

(** A line with seven fields is not rejected: [aggexec] returns and reports
    the result under the network name made of the sixth and the seventh
    field. *)
Lemma seven_fields_accepted :
  List.length (PyStr.split line7) = 7
  /\ PyStr.split_max 5 (PyStr.lstrip line7)
     = ["0.5"; "0.4"; "0.3"; "0.1"; "2.5"; "graph1" ++ tab ++ "extra" ++ nl]
  /\ fst (aggexec sample_stamp "" ["algX"] long_world) = Ok tt
  /\ file_text (resfile_of "exectime")
       (snd (aggexec sample_stamp "" ["algX"] long_world))
     = stamp_line sample_stamp ++ algs_header ["algX"]
         ++ "graph1" ++ tab ++ "extra" ++ tab ++ "0.500" ++ nl.
Proof. vm_compute. repeat split; reflexivity. Qed.



(** One report written into files that exist already. *)
Lemma report_appended :
  fst (write_report later_stamp "" ["algX"] 0 "exectime"
         [("graph1", [accumulated "algX_graph1" 0.5%float [0.7%float]])]
         (snd (aggexec sample_stamp "" ["algX"] algX_world)))
  = Ok tt
  /\ lookup (resfile_of "exectime")
       (disk (snd (write_report later_stamp "" ["algX"] 0 "exectime"
                     [("graph1", [accumulated "algX_graph1" 0.5%float [0.7%float]])]
                     (snd (aggexec sample_stamp "" ["algX"] algX_world)))))
     = Some (file_text (resfile_of "exectime")
               (snd (aggexec sample_stamp "" ["algX"] algX_world))
               ++ stamp_line later_stamp ++ algs_header ["algX"]
               ++ fst ("graph1" ++ tab ++ "1.200" ++ nl,
                       "graph1" ++ nl ++ tab ++ "algX>" ++ tab
                         ++ "total: 1.200, per_item: 0.600000 (0.500000 .. 0.700000)"
                         ++ nl))
  /\ lookup (resxfile_of "exectime")
       (disk (snd (write_report later_stamp "" ["algX"] 0 "exectime"
                     [("graph1", [accumulated "algX_graph1" 0.5%float [0.7%float]])]
                     (snd (aggexec sample_stamp "" ["algX"] algX_world)))))
     = Some (file_text (resxfile_of "exectime")
               (snd (aggexec sample_stamp "" ["algX"] algX_world))
               ++ (if Nat.eqb
                        (String.length
                           (file_text (resxfile_of "exectime")
                              (snd (aggexec sample_stamp "" ["algX"] algX_world))))
                        0
                   then header_x else "")
               ++ stamp_line later_stamp
               ++ snd ("graph1" ++ tab ++ "1.200" ++ nl,
                       "graph1" ++ nl ++ tab ++ "algX>" ++ tab
                         ++ "total: 1.200, per_item: 0.600000 (0.500000 .. 0.700000)"
                         ++ nl))
  /\ stderr (snd (write_report later_stamp "" ["algX"] 0 "exectime"
                    [("graph1", [accumulated "algX_graph1" 0.5%float [0.7%float]])]
                    (snd (aggexec sample_stamp "" ["algX"] algX_world))))
     = stderr (snd (aggexec sample_stamp "" ["algX"] algX_world)).
Proof.
  apply (write_report_appends later_stamp "" ["algX"] 0 "exectime"
           [("graph1", [accumulated "algX_graph1" 0.5%float [0.7%float]])]).
  - discriminate.
  - reflexivity.
  - reflexivity.
  - vm_compute. reflexivity.
Defined.

(** A second aggregation appends to both reports; the extended report was
    not empty, so the format header is not repeated, but the timestamp line
    of the second run is written all the same. *)
Lemma timestamp_on_every_run :
  file_text (resxfile_of "exectime")
    (snd (aggexec sample_stamp "" ["algX"] algX_world))
  = header_x ++ stamp_line sample_stamp ++ exectime_rows_x
  /\ file_text (resxfile_of "exectime")
       (snd (aggexec later_stamp "" ["algX"]
               (snd (aggexec sample_stamp "" ["algX"] algX_world))))
     = (header_x ++ stamp_line sample_stamp ++ exectime_rows_x)
         ++ stamp_line later_stamp ++ exectime_rows_x
  /\ file_text (resfile_of "exectime")
       (snd (aggexec later_stamp "" ["algX"]
               (snd (aggexec sample_stamp "" ["algX"] algX_world))))
     = (stamp_line sample_stamp ++ algs_header ["algX"] ++ exectime_rows)
         ++ stamp_line later_stamp ++ algs_header ["algX"] ++ exectime_rows.
Proof. vm_compute. repeat split; reflexivity. Qed.

(** [alg2] between an algorithm without a log and nothing else. *)
Lemma missing_log_skipped :
  fst (aggexec sample_stamp "" (["alg1"] ++ "nolog" :: ["alg2"]) two_logs_world)
  = fst (aggexec sample_stamp "" (["alg1"] ++ ["alg2"]) two_logs_world)
  /\ disk (snd (aggexec sample_stamp "" (["alg1"] ++ "nolog" :: ["alg2"])
                  two_logs_world))
     = disk (snd (aggexec sample_stamp "" (["alg1"] ++ ["alg2"]) two_logs_world))
  /\ stderr (snd (aggexec sample_stamp "" (["alg1"] ++ "nolog" :: ["alg2"])
                    two_logs_world))
     = [skipped_warning "nolog"].
Proof.
  assert (Hlog : has_log two_logs_world "nolog" = false) by reflexivity.
  destruct (aggexec_skips_missing_log sample_stamp "" ["alg1"] ["alg2"] "nolog"
              two_logs_world Hlog) as (Hres & Hdisk & _).
  split; [exact Hres|]. split; [exact Hdisk|]. vm_compute. reflexivity.
Defined.

(** No log at all: the files stay as they are, and there is one warning for
    each algorithm before the final one. *)
Lemma three_warnings :
  aggexec sample_stamp "" ["scp"; "ganxis"] empty_world
  = (Ok tt,
     mkWorld [] []
       [skipped_warning "scp"; skipped_warning "ganxis"; nothing_warning])
  /\ List.length
       (stderr (snd (aggexec sample_stamp "" ["scp"; "ganxis"] empty_world)))
     = 3.
Proof. vm_compute. split; reflexivity. Qed.

Lemma nothing_to_aggregate_example :
  aggexec sample_stamp "" ["scp"; "ganxis"] algX_world
  = (Ok tt,
     mkWorld (disk algX_world) (denied algX_world)
       (stderr algX_world ++ List.map skipped_warning ["scp"; "ganxis"]
          ++ [nothing_warning])).
Proof.
  apply (aggexec_nothing_to_aggregate sample_stamp "" ["scp"; "ganxis"] algX_world).
  reflexivity.
Defined.

(** [preparePath] on a directory with old results: the entries of the base
    [karate!k3] go into an archive, the path is empty again. *)
Example preparePath_backs_up :
  preparePath sample_host "results/Scp/clusters/karate!k3#1" sample_sys
  = (Ok tt,
     mkSys
       (Fs.Dir
          [("home",
            Fs.Dir
              [("bench",
                Fs.Dir
                  [("nets", Fs.Dir [("karate.nse", Fs.File 1000)]);
                   ("results",
                    Fs.Dir
                      [("Scp",
                        Fs.Dir
                          [("clusters",
                            Fs.Dir
                              [("karate!k4", Fs.Dir []);
                               ("karate!k3#1", Fs.Dir [])])])])])])])
       [mkArchive "results/Scp/clusters/karate!k3" sample_stamp
          [("karate!k3", Fs.Dir [("karate!k3.cnl", Fs.File 5)]);
           ("karate!k3#1", Fs.Dir [("karate!k3.cnl", Fs.File 7)])]]
       sample_stamp []).
Proof. vm_compute. reflexivity. Qed.



(** C1. [execPscan] on the sample network: the builder returns 10, the
    value of [steps], but it has submitted eleven jobs and prepared eleven
    output directories, one for each of the thresholds 0.05, 0.135, ... of its
    inclusive range, the last of them the floating-point sum just below 0.9;
    the returned value is not the number of jobs. *)
Theorem execPscan_returns_10_of_11 :
  fst (execPscan sample_host true "nets/karate.nse" None false 0 "" "algorithms/"
         None sample_sys) = Ok 10%Z
  /\ List.map job_category
       (pool (snd (execPscan sample_host true "nets/karate.nse" None false 0 ""
                     "algorithms/" None sample_sys)))
     = ["Pscan_e0.05"; "Pscan_e0.135"; "Pscan_e0.22"; "Pscan_e0.305";
        "Pscan_e0.39"; "Pscan_e0.475"; "Pscan_e0.5599999999999999";
        "Pscan_e0.6449999999999999"; "Pscan_e0.7299999999999999";
        "Pscan_e0.8149999999999998"; "Pscan_e0.8999999999999998"]
  /\ listdir sample_host "results/Pscan/clusters"
       (snd (execPscan sample_host true "nets/karate.nse" None false 0 ""
               "algorithms/" None sample_sys))
     = ["karate!e0.05"; "karate!e0.135"; "karate!e0.22"; "karate!e0.305";
        "karate!e0.39"; "karate!e0.475"; "karate!e0.5599999999999999";
        "karate!e0.6449999999999999"; "karate!e0.7299999999999999";
        "karate!e0.8149999999999998"; "karate!e0.8999999999999998"].
Proof. vm_compute. repeat split; reflexivity. Qed.

(** [execScp] on the sample network: six jobs, six directories, 6. *)
Example execScp_returns_6_of_6 :
  fst (execScp sample_host true "nets/karate.nse" None false 0 "" "algorithms/"
         None sample_sys) = Ok 6%Z
  /\ List.map job_category
       (pool (snd (execScp sample_host true "nets/karate.nse" None false 0 ""
                     "algorithms/" None sample_sys)))
     = ["Scp_k3"; "Scp_k4"; "Scp_k5"; "Scp_k6"; "Scp_k7"; "Scp_k8"].
Proof. vm_compute. split; reflexivity. Qed.

(** The size estimate of the jobs of [execScp] for the sample network of
    1000 bytes, its direction unknown. *)
Lemma scp_job_sizes :
  exists new,
    pool (snd (exec sample_host Scp true "nets/karate.nse" None false 0 "" None
                 None sample_sys))
    = (pool sample_sys ++ new)%list
    /\ Forall (fun job => job_size job = size_estimate None 1000) new
    /\ (forall n,
          fst (exec sample_host Scp true "nets/karate.nse" None false 0 "" None
                 None sample_sys) = Ok n ->
          new <> []).
Proof.
  apply (job_size_estimate sample_host Scp true "nets/karate.nse" None false 0 ""
           None None 1000 sample_sys).
  reflexivity.
Defined.

Example job_sizes_by_direction :
  List.map
    (fun asym =>
       List.map job_size
         (pool (snd (exec sample_host Scd true "nets/karate.nse" asym false 0 ""
                       None None sample_sys))))
    [None; Some false; Some true]
  = [[2000%Z]; [2000%Z]; [1000%Z]].
Proof. vm_compute. reflexivity. Qed.

(** * The further properties on the sample inputs *)

(** On the sample host [pypy3] is not installed, so the probing stops at
    once: asked for a PyPy, [PyBin.bestof] answers the running CPython,
    although [pypy] is installed. *)
Lemma probing_aborted_on_sample_host :
  call_h sample_host "pypy3" = NotFound
  /\ bestof sample_host true false = "/usr/bin/python2".
Proof.
  split; [reflexivity|].
  exact (bestof_probing_aborted sample_host true false eq_refl).
Defined.

(** The log of [algX] is not changed by its aggregation. *)
Lemma log_kept_by_aggregation :
  lookup "results/algX/algX.rcp"
    (disk (snd (aggexec sample_stamp "" ["algX"] algX_world)))
  = lookup "results/algX/algX.rcp" (disk algX_world)
  /\ denied (snd (aggexec sample_stamp "" ["algX"] algX_world))
     = denied algX_world.
Proof.
  apply (aggexec_keeps_other_files sample_stamp "" ["algX"] algX_world
           "results/algX/algX.rcp").
  vm_compute. intuition discriminate.
Defined.

(** The header of the log of [algX] is a comment: with it or without it, at
    the start or between the data, the same is read. *)
Lemma header_skipped :
  skipped log_header = true
  /\ process_lines "algX" (algesfile_of "algX") 0 [[]; []; []]
       ([logline "0.5" "0.4" "0.3" "0.1" "2.5" "graph1"]
          ++ log_header :: List.tl algX_lines)
     = process_lines "algX" (algesfile_of "algX") 0 [[]; []; []]
         ([logline "0.5" "0.4" "0.3" "0.1" "2.5" "graph1"] ++ List.tl algX_lines).
Proof.
  split; [reflexivity|].
  apply (process_lines_skips "algX" (algesfile_of "algX") 0
           [logline "0.5" "0.4" "0.3" "0.1" "2.5" "graph1"] (List.tl algX_lines)
           log_header [[]; []; []]).
  reflexivity.
Defined.

(** The extended report of [exectime] is refused: one error message, no
    text written, and the compact report created empty. *)
Lemma refused_report :
  fst (write_report sample_stamp "" ["algX"] 0 "exectime" [] readonly_world) = Ok tt
  /\ (exists err,
        stderr (snd (write_report sample_stamp "" ["algX"] 0 "exectime" []
                       readonly_world))
        = (stderr readonly_world ++ [output_failed "exectime" err ""])%list)
  /\ file_text (resfile_of "exectime")
       (snd (write_report sample_stamp "" ["algX"] 0 "exectime" [] readonly_world))
     = file_text (resfile_of "exectime") readonly_world
  /\ lookup (resxfile_of "exectime")
       (disk (snd (write_report sample_stamp "" ["algX"] 0 "exectime" []
                     readonly_world)))
     = lookup (resxfile_of "exectime") (disk readonly_world)
  /\ denied (snd (write_report sample_stamp "" ["algX"] 0 "exectime" []
                    readonly_world))
     = denied readonly_world.
Proof.
  apply (write_report_output_error sample_stamp "" ["algX"] 0 "exectime" []
           readonly_world).
  reflexivity.
Defined.

(** The aggregation of [algX] where the extended report of [exectime] is
    refused: the reports of [cputime] are written all the same. *)
Lemma cputime_sections_written :
  let a := agg_of (read_logs ["algX"] agg0 readonly_world) in
  let tbl := List.nth 1 (measures a) [] in
  let run := aggexec sample_stamp "" ["algX"] readonly_world in
  exists rs,
    rows (List.filter (has_log readonly_world) ["algX"]) 1 tbl = Ok rs
    /\ fst run = Ok tt
    /\ lookup (resfile_of "cputime") (disk (snd run))
       = Some (file_text (resfile_of "cputime") readonly_world
                 ++ stamp_line sample_stamp
                 ++ algs_header (List.filter (has_log readonly_world) ["algX"])
                 ++ fst rs)
    /\ lookup (resxfile_of "cputime") (disk (snd run))
       = Some (file_text (resxfile_of "cputime") readonly_world
                 ++ (if Nat.eqb
                          (String.length
                             (file_text (resxfile_of "cputime") readonly_world)) 0
                     then header_x else "")
                 ++ stamp_line sample_stamp ++ snd rs).
Proof.
  intros a tbl run.
  apply (aggexec_appends_sections sample_stamp "" ["algX"] readonly_world
           (snd (read_logs ["algX"] agg0 readonly_world)) a 1 "cputime" tbl).
  - discriminate.
  - vm_compute. reflexivity.
  - reflexivity.
  - reflexivity.
  - vm_compute. reflexivity.
  - reflexivity.
  - reflexivity.
Defined.

(** The directory of old results of the sample tree, once prepared, is
    empty, and preparing it again changes nothing. *)
Lemma prepared_path_settles :
  let s' := snd (preparePath sample_host "results/Scp/clusters/karate!k3#1"
                   sample_sys) in
  Fs.find (locate sample_host "results/Scp/clusters/karate!k3#1") (root s')
  = Some (Fs.Dir [])
  /\ preparePath sample_host "results/Scp/clusters/karate!k3#1" s' = (Ok tt, s').
Proof.
  apply (preparePath_settles sample_host "results/Scp/clusters/karate!k3#1"
           sample_sys); vm_compute; reflexivity.
Defined.

(** The results directory of a task with [odir]: with the sample
    [parseName] the directory of the task lies in a directory of its own
    name. *)
Example prepareResDir_odir :
  fst (prepareResDir sample_host "Scd" "karate" true "" sample_sys)
  = Ok "results/Scd/clusters/karate/karate"
  /\ listdir sample_host "results/Scd/clusters/karate"
       (snd (prepareResDir sample_host "Scd" "karate" true "" sample_sys))
     = ["karate"].
Proof. vm_compute. split; reflexivity. Qed.

(** [execScp] without a network file name. *)
Lemma empty_netfile_rejected :
  exists msg,
    exec sample_host Scp true "" None false 0 "" None None sample_sys
    = (Raise (AssertionError msg), sample_sys).
Proof.
  apply (exec_rejects_invalid_input sample_host Scp true "" None false 0 "" None
           None sample_sys); [reflexivity|].
  right. left. reflexivity.
Defined.

(** [execDaoc] for a network file that does not exist. *)
Lemma missing_network_refused :
  exists msg,
    exec sample_host Daoc true "nets/missing.nse" None false 0 "" None None
      sample_sys
    = (Raise (OSError msg), sample_sys).
Proof.
  apply (exec_needs_network sample_host Daoc "nets/missing.nse" None false 0 ""
           None None sample_sys); [reflexivity|lia|reflexivity].
Defined.

(** The builders whose assertion message cannot be formatted, called with
    an empty network file name: [execScd] and [execDaoc] raise the
    [IndexError] of [format], [execCggciRg] that of [algs[3]], and
    [execCggcRg], for which the message can be made, the [AssertionError]. *)
Example unformatted_assertions :
  List.map
    (fun b => fst (exec sample_host b true "" None false 0 "" None None sample_sys))
    [Scd; Daoc; CggciRg; CggcRg]
  = [Raise (IndexError "Replacement index 4 out of range for positional args tuple");
     Raise (IndexError "Replacement index 6 out of range for positional args tuple");
     Raise (IndexError "tuple index out of range");
     Raise (AssertionError invalid_input)].
Proof. vm_compute. reflexivity. Qed.

(** The hook of the job of [execGanxis] on the sample working directory:
    [output] goes with its content, the program stays. *)
Lemma tidy_on_sample :
  let run := tidy sample_host "algorithms/ganxis/" ganxis_sys in
  backups (snd run) = backups ganxis_sys
  /\ pool (snd run) = pool ganxis_sys
  /\ forall q,
       kind_of (Fs.find q (root (snd run)))
       = if within ["home"; "bench"; "algorithms"; "ganxis"; "output"] q
         then Absent
         else kind_of (Fs.find q (root ganxis_sys)).
Proof.
  exact (tidy_removes_output sample_host "algorithms/ganxis/" ganxis_sys eq_refl).
Defined.

Example tidy_leaves_program :
  fst (tidy sample_host "algorithms/ganxis/" ganxis_sys) = Ok tt
  /\ listdir sample_host "algorithms/ganxis"
       (snd (tidy sample_host "algorithms/ganxis/" ganxis_sys))
     = ["GANXiSw.jar"]
  /\ tidy sample_host "algorithms/ganxis/"
       (snd (tidy sample_host "algorithms/ganxis/" ganxis_sys))
     = (Ok tt, snd (tidy sample_host "algorithms/ganxis/" ganxis_sys)).
Proof. vm_compute. repeat split; reflexivity. Qed.

(** [execPscan] on the sample network: the thresholds as the program gets
    them and as the categories of the jobs carry them. *)
Lemma pscan_thresholds_on_sample :
  let run := execPscan sample_host true "nets/karate.nse" None false 0 ""
               "algorithms/" None sample_sys in
  exists new,
    pool (snd run) = (pool sample_sys ++ new)%list
    /\ Forall2 pscan_job pscan_thresholds new
    /\ List.map (fun job => List.nth 6 (job_args job) "") new
       = ["0.05"; "0.14"; "0.22"; "0.30"; "0.39"; "0.47"; "0.56"; "0.64"; "0.73";
          "0.81"; "0.90"]
    /\ List.map job_category new
       = ["Pscan_e0.05"; "Pscan_e0.135"; "Pscan_e0.22"; "Pscan_e0.305";
          "Pscan_e0.39"; "Pscan_e0.475"; "Pscan_e0.5599999999999999";
          "Pscan_e0.6449999999999999"; "Pscan_e0.7299999999999999";
          "Pscan_e0.8149999999999998"; "Pscan_e0.8999999999999998"].
Proof.
  apply (execPscan_thresholds sample_host true "nets/karate.nse" None false 0 ""
           "algorithms/" None sample_sys 10).
  vm_compute. reflexivity.
Defined.

(** [execScp] on the sample network: the clique sizes. *)
Lemma scp_sizes_on_sample :
  let run := execScp sample_host true "nets/karate.nse" None false 0 ""
               "algorithms/" None sample_sys in
  exists new,
    pool (snd run) = (pool sample_sys ++ new)%list
    /\ Forall2 scp_job (range 3 9) new
    /\ List.map (fun job => List.nth 7 (job_args job) "") new
       = ["3"; "4"; "5"; "6"; "7"; "8"]
    /\ List.map job_category new
       = ["Scp_k3"; "Scp_k4"; "Scp_k5"; "Scp_k6"; "Scp_k7"; "Scp_k8"].
Proof.
  apply (execScp_clique_sizes sample_host true "nets/karate.nse" None false 0 ""
           "algorithms/" None sample_sys 6).
  vm_compute. reflexivity.
Defined.

(** The aggregation of two logs and of an algorithm without a log prints
    the one warning for that algorithm. *)
Lemma one_warning_printed :
  fst (aggexec sample_stamp "" ["alg1"; "nolog"; "alg2"] two_logs_world) = Ok tt
  /\ stderr (snd (aggexec sample_stamp "" ["alg1"; "nolog"; "alg2"] two_logs_world))
     = (stderr two_logs_world
          ++ List.map skipped_warning
               (List.filter (fun alg => negb (has_log two_logs_world alg))
                  ["alg1"; "nolog"; "alg2"])
          ++ (if List.existsb (has_log two_logs_world) ["alg1"; "nolog"; "alg2"]
              then [] else [nothing_warning]))%list.
Proof.
  apply (aggexec_messages sample_stamp "" ["alg1"; "nolog"; "alg2"] two_logs_world
           (snd (read_logs ["alg1"; "nolog"; "alg2"] agg0 two_logs_world))
           (agg_of (read_logs ["alg1"; "nolog"; "alg2"] agg0 two_logs_world))).
  - vm_compute. reflexivity.
  - reflexivity.
Defined.
